(** * GPU telemetry route: a shallow embedding of [ui/src/app/api/gpu/route.ts]

    The route probes for the NVIDIA and AMD command line tools, runs the
    first one that is present, and normalises its output into one record
    shape.  The embedding has three layers:

    - the JavaScript runtime the route relies on (numbers, strings, dynamic
      values, [parseInt], [parseFloat], [JSON.parse], property access);
    - the route itself, function by function, for the version at
      [ui/src/app/api/gpu/route.ts] (module [Route]) and for the later
      revision that hardens the AMD helpers (module [Hardened]);
    - the properties of the route. *)

From Stdlib Require Import ZArith List String Ascii Bool Lia Floats.
Import ListNotations.

Set Implicit Arguments.

(** ** JavaScript numbers

    A JavaScript Number is an IEEE 754 binary64 value; Rocq's primitive
    [float] is the same format with the same rounding (nearest, ties to
    even), so the arithmetic of the route is the arithmetic of [float]. *)

Module JSNumber.

Local Open Scope Z_scope.

Definition number := float.

Definition NaN : number := PrimFloat.nan.
Definition Infinity : number := PrimFloat.infinity.
Definition zero : number := PrimFloat.zero.
Definition neg_zero : number := PrimFloat.neg_zero.

(** [Number.isFinite] on a Number. *)
Definition isFinite (x : number) : bool := PrimFloat.is_finite x.

(** The Number nearest to the integer [z] (ties to even). *)
Definition of_Z (z : Z) : number :=
  SF2Prim (binary_normalize prec emax z 0 false).

Definition of_nat (n : nat) : number := of_Z (Z.of_nat n).

(** The Number nearest to the positive rational [n / d]. *)
Definition of_ratio (n d : Z) : number :=
  let '(q, e, l) := SFdiv_core_binary prec emax n 0 d 0 in
  SF2Prim (binary_round_aux prec emax false q e l).

(** The Number nearest to [m * 10 ^ e10], for [m >= 0]: the value of a
    decimal literal with digits [m] and exponent [e10]. *)
Definition of_decimal (m e10 : Z) : number :=
  if m =? 0 then zero
  else if 0 <=? e10 then of_Z (m * 10 ^ e10)
  else of_ratio m (10 ^ (- e10)).

Definition negate_if (neg : bool) (x : number) : number :=
  if neg then PrimFloat.opp x else x.

(** The array index a Number denotes when used as a property key of an
    array: a non-negative integer below 2^32 - 1.  Any other Number (NaN,
    a fraction, a negative value, an infinity) names an ordinary property,
    which an array built by [JSON.parse] does not have. *)
Definition to_index (x : number) : option N :=
  match Prim2SF x with
  | S754_zero _ => Some 0%N
  | S754_finite false m e =>
      let z := if 0 <=? e then Zpos m * 2 ^ e
               else if (Zpos m) mod 2 ^ (- e) =? 0 then Zpos m / 2 ^ (- e)
               else -1 in
      if (0 <=? z) && (z <? 2 ^ 32 - 1) then Some (Z.to_N z) else None
  | _ => None
  end.

(** *** Number to string

    [Number::toString] with radix 10: the shortest digit string [s] of
    [k] digits and the exponent [n] such that [s * 10 ^ (n - k)] rounds
    back to the number, the closest such when several exist. *)

(** A positive rational as numerator and denominator. *)
Definition scale (m e p : Z) : Z * Z :=
  (m * 2 ^ (Z.max e 0) * 10 ^ (Z.max p 0),
   2 ^ (Z.max (- e) 0) * 10 ^ (Z.max (- p) 0)).

(** Is [m * 2 ^ e < 10 ^ n] ? *)
Definition below_pow10 (m e n : Z) : bool :=
  let '(num, den) := scale m e (- n) in num <? den.

(** The least [n] from [n] on with [m * 2 ^ e < 10 ^ n]. *)
Fixpoint decimal_exponent_from (fuel : nat) (m e n : Z) : Z :=
  match fuel with
  | O => n
  | S fuel' => if below_pow10 m e n then n
               else decimal_exponent_from fuel' m e (n + 1)
  end.

(** The [n] with [10 ^ (n - 1) <= m * 2 ^ e < 10 ^ n].  The search starts
    just under the estimate [log10 2 * log2 (m * 2 ^ e)], which is off by
    less than one for the exponents of binary64. *)
Definition decimal_exponent (m e : Z) : Z :=
  let bits := Z.log2 m + e in
  decimal_exponent_from 8 m e (bits * 30103 / 100000 - 2).

(** Does the decimal [s * 10 ^ p] round to [x] ? *)
Definition rounds_to (x : number) (s p : Z) : bool :=
  PrimFloat.eqb (of_decimal s p) x.

(** The digits of length [k] for [x = m * 2 ^ e] with exponent [n], when
    some [k]-digit decimal rounds to [x]. *)
Definition digits_of_length (x : number) (m e n k : Z) : option Z :=
  let '(num, den) := scale m e (k - n) in
  let lo := num / den in
  let hi := lo + 1 in
  let lo_ok := (10 ^ (k - 1) <=? lo) && rounds_to x lo (n - k) in
  let hi_ok := (hi <? 10 ^ k) && rounds_to x hi (n - k) in
  match lo_ok, hi_ok with
  | true, true => if 2 * (num mod den) <=? den then Some lo else Some hi
  | true, false => Some lo
  | false, true => Some hi
  | false, false => None
  end.

Fixpoint shortest_from (fuel : nat) (x : number) (m e n k : Z) : Z * Z * Z :=
  match fuel with
  | O => (m, k, n)
  | S fuel' =>
      (* a power of ten one digit longer than [x] is a one-digit candidate *)
      if (k =? 1) && rounds_to x 1 n then (1, 1, n + 1)
      else match digits_of_length x m e n k with
           | Some s => (s, k, n)
           | None => shortest_from fuel' x m e n (k + 1)
           end
  end.

(** [(s, k, n)] for a positive finite [x = m * 2 ^ e]. *)
Definition shortest (x : number) (m e : Z) : Z * Z * Z :=
  let n := decimal_exponent m e in
  shortest_from 17 x m e n 1.

Definition digit_char (d : Z) : ascii :=
  ascii_of_nat (48 + Z.to_nat d).

(** The decimal digits of [z >= 0], most significant first, written in
    front of [acc]. *)
Fixpoint digits_acc (fuel : nat) (z : Z) (acc : string) : string :=
  match fuel with
  | O => acc
  | S fuel' =>
      let acc' := String (digit_char (z mod 10)) acc in
      if z <? 10 then acc' else digits_acc fuel' (z / 10) acc'
  end.

Definition string_of_Z_nonneg (z : Z) : string :=
  digits_acc (S (Z.to_nat (Z.log2 z))) z EmptyString.

Fixpoint zeros (n : nat) : string :=
  match n with
  | O => EmptyString
  | S n' => String "0" (zeros n')
  end.

Definition string_of_exponent (e : Z) : string :=
  let sign := if 0 <=? e then "+"%string else "-"%string in
  (sign ++ string_of_Z_nonneg (Z.abs e))%string.

(** The text of a positive finite number from its shortest digits. *)
Definition format_shortest (s k n : Z) : string :=
  let ds := string_of_Z_nonneg s in
  let head := Z.to_nat n in
  let tail := Z.to_nat (k - n) in
  let expo := string_of_exponent (n - 1) in
  if (k <=? n) && (n <=? 21) then
    (ds ++ zeros (Z.to_nat (n - k)))%string
  else if (0 <? n) && (n <=? 21) then
    (substring 0 head ds ++ "." ++ substring head tail ds)%string
  else if (-6 <? n) && (n <=? 0) then
    ("0." ++ zeros (Z.to_nat (- n)) ++ ds)%string
  else if k =? 1 then
    (ds ++ "e" ++ expo)%string
  else
    (substring 0 1 ds ++ "." ++ substring 1 (Z.to_nat (k - 1)) ds ++
     "e" ++ expo)%string.

Definition to_string (x : number) : string :=
  match Prim2SF x with
  | S754_nan => "NaN"
  | S754_zero _ => "0"
  | S754_infinity false => "Infinity"
  | S754_infinity true => "-Infinity"
  | S754_finite neg m e =>
      let '(s, k, n) := shortest (PrimFloat.abs x) (Zpos m) e in
      let sign := if neg then "-"%string else EmptyString in
      (sign ++ format_shortest s k n)%string
  end.

End JSNumber.

(** ** JavaScript strings

    A string is a sequence of character codes.  The tools this route runs
    print ASCII, and the string functions below are those of ECMAScript on
    such text. *)

Module JSString.

Definition LF : ascii := "010"%char.
Definition CR : ascii := "013"%char.
Definition DQUOTE : ascii := "034"%char.
Definition BACKSLASH : ascii := "092"%char.

(** White space and line terminators, as [trim], [parseInt] and
    [parseFloat] skip them: tab, line feed, vertical tab, form feed,
    carriage return and space. *)
Definition is_whitespace (c : ascii) : bool :=
  let n := nat_of_ascii c in
  ((9 <=? n) && (n <=? 13) || (n =? 32))%nat.

Fixpoint trimStart (s : string) : string :=
  match s with
  | EmptyString => EmptyString
  | String c rest => if is_whitespace c then trimStart rest else s
  end.

Definition is_empty (s : string) : bool :=
  match s with
  | EmptyString => true
  | String _ _ => false
  end.

Fixpoint trimEnd (s : string) : string :=
  match s with
  | EmptyString => EmptyString
  | String c rest =>
      let rest' := trimEnd rest in
      if is_whitespace c && is_empty rest' then EmptyString
      else String c rest'
  end.

(** [String.prototype.trim] *)
Definition trim (s : string) : string := trimEnd (trimStart s).

(** Puts [c] in front of the first piece of a split. *)
Definition cons_to_head (c : ascii) (pieces : list string) : list string :=
  match pieces with
  | [] => [String c EmptyString]
  | piece :: others => String c piece :: others
  end.

(** The pieces of [s] between the occurrences of a non-empty separator,
    found from the left without overlap; [skip] characters of a separator
    just found are still to pass. *)
Fixpoint split_from (sep s : string) (skip : nat) : list string :=
  match s with
  | EmptyString => [EmptyString]
  | String c rest =>
      match skip with
      | S skip' => split_from sep rest skip'
      | O => if prefix sep s
             then EmptyString :: split_from sep rest (String.length sep - 1)
             else cons_to_head c (split_from sep rest 0)
      end
  end.

Fixpoint chars (s : string) : list string :=
  match s with
  | EmptyString => []
  | String c rest => String c EmptyString :: chars rest
  end.

(** [String.prototype.split] with a string separator and no limit. *)
Definition split (sep s : string) : list string :=
  if is_empty sep then chars s else split_from sep s 0.

Fixpoint drop (n : nat) (s : string) : string :=
  match n, s with
  | S n', String _ rest => drop n' rest
  | _, _ => s
  end.

End JSString.

(** ** Exceptions

    A computation either returns or throws; the route's [try]/[catch]
    blocks and the rejections of the promises it awaits are values of
    [Exn]. *)

Inductive JSError : Type :=
| TypeError (message : string)
| SyntaxError (message : string)
| ExecError (message : string).

Definition error_message (e : JSError) : string :=
  match e with
  | TypeError m | SyntaxError m | ExecError m => m
  end.

Inductive Exn (A : Type) : Type :=
| Ok (a : A)
| Throw (e : JSError).

Arguments Ok {A} a.
Arguments Throw {A} e.

Definition bind {A B : Type} (m : Exn A) (k : A -> Exn B) : Exn B :=
  match m with
  | Ok a => k a
  | Throw e => Throw e
  end.

Notation "x <- m ;; k" := (bind m (fun x => k))
  (at level 61, m at next level, right associativity).

(** [try { m } catch { handler }] *)
Definition try_catch {A : Type} (m : Exn A) (handler : JSError -> A) : A :=
  match m with
  | Ok a => a
  | Throw e => handler e
  end.

(** [Array.prototype.map] with a callback that may throw: the first
    exception ends the traversal.  The callback gets the element and its
    position. *)
Fixpoint map_indexed {A B : Type} (f : A -> nat -> Exn B) (l : list A)
  (position : nat) : Exn (list B) :=
  match l with
  | [] => Ok []
  | a :: rest =>
      b <- f a position ;;
      bs <- map_indexed f rest (S position) ;;
      Ok (b :: bs)
  end.

(** ** Dynamic values *)

#[local] Set Warnings "-register-all".

Inductive JSValue : Type :=
| VUndefined
| VNull
| VBool (b : bool)
| VNum (n : JSNumber.number)
| VStr (s : string)
| VArr (elements : list JSValue)
| VObj (properties : list (string * JSValue)).

Module JS.

Import JSNumber JSString.

(** [ToBoolean] *)
Definition truthy (v : JSValue) : bool :=
  match v with
  | VUndefined | VNull => false
  | VBool b => b
  | VNum n => negb (PrimFloat.is_zero n || PrimFloat.is_nan n)
  | VStr s => negb (is_empty s)
  | VArr _ | VObj _ => true
  end.

(** [a || b] *)
Definition or (a b : JSValue) : JSValue := if truthy a then a else b.

Definition is_nullish (v : JSValue) : bool :=
  match v with
  | VUndefined | VNull => true
  | _ => false
  end.

(** [a ?? b] *)
Definition coalesce (a b : JSValue) : JSValue :=
  if is_nullish a then b else a.

(** [v !== undefined] *)
Definition is_not_undefined (v : JSValue) : bool :=
  match v with
  | VUndefined => false
  | _ => true
  end.

(** [Array.isArray] *)
Definition isArray (v : JSValue) : bool :=
  match v with
  | VArr _ => true
  | _ => false
  end.

(** The text [ToString] gives to a value [JSON.parse] builds, when it
    returns: see [ToString] below for the values on which it throws. *)
Fixpoint to_string (v : JSValue) : string :=
  match v with
  | VUndefined => "undefined"
  | VNull => "null"
  | VBool true => "true"
  | VBool false => "false"
  | VNum n => JSNumber.to_string n
  | VStr s => s
  | VArr elements =>
      String.concat ","
        (map (fun element => if is_nullish element then EmptyString
                             else to_string element) elements)
  | VObj _ => "[object Object]"
  end.

(** Whether [ToString] returns.  An object prints through the [toString]
    it inherits, unless it has a key of its own named [toString]: the value
    under that key, built by [JSON.parse], is no function, the [valueOf] the
    object inherits returns the object itself, and the conversion throws.
    An array prints its elements one by one, [null] and [undefined] as the
    empty text. *)
Fixpoint stringifiable (v : JSValue) : bool :=
  match v with
  | VArr elements => forallb stringifiable elements
  | VObj properties =>
      negb (existsb (fun kv => String.eqb (fst kv) "toString") properties)
  | _ => true
  end.

(** [ToString] *)
Definition ToString (v : JSValue) : Exn string :=
  if stringifiable v then Ok (to_string v)
  else Throw (TypeError "Cannot convert object to primitive value").

(** The first property named [key]. *)
Fixpoint lookup (key : string) (properties : list (string * JSValue))
  : JSValue :=
  match properties with
  | [] => VUndefined
  | (k, v) :: rest => if String.eqb k key then v else lookup key rest
  end.

Fixpoint nth_N {A : Type} (l : list A) (i : N) : option A :=
  match l with
  | [] => None
  | a :: rest => if N.eqb i 0 then Some a else nth_N rest (N.pred i)
  end.

(** [v.key] for a key that names neither an array index nor [length] nor
    an inherited property, as all the keys the route reads: an own property
    of an object, [undefined] on an array, a string, a number or a boolean,
    and a TypeError on [null] and [undefined]. *)
Definition get (v : JSValue) (key : string) : Exn JSValue :=
  match v with
  | VUndefined =>
      Throw (TypeError ("Cannot read properties of undefined (reading '"
                        ++ key ++ "')"))
  | VNull =>
      Throw (TypeError ("Cannot read properties of null (reading '"
                        ++ key ++ "')"))
  | VObj properties => Ok (lookup key properties)
  | _ => Ok VUndefined
  end.

(** [v?.key] *)
Definition get_opt (v : JSValue) (key : string) : JSValue :=
  match v with
  | VObj properties => lookup key properties
  | _ => VUndefined
  end.

(** [elements[i]] for a Number [i]: the element at that array index, or
    [undefined] when [i] is not an array index or lies past the end. *)
Definition at_number (elements : list JSValue) (i : number) : JSValue :=
  match to_index i with
  | Some position =>
      match nth_N elements position with
      | Some v => v
      | None => VUndefined
      end
  | None => VUndefined
  end.

(** *** [parseInt] *)

Definition digit_value (c : ascii) : option Z :=
  let n := nat_of_ascii c in
  if ((48 <=? n) && (n <=? 57))%nat then Some (Z.of_nat (n - 48))
  else if ((97 <=? n) && (n <=? 122))%nat then Some (Z.of_nat (n - 87))
  else if ((65 <=? n) && (n <=? 90))%nat then Some (Z.of_nat (n - 55))
  else None.

(** The value of the longest prefix of [s] made of digits of radix [R];
    [acc] is the value read so far, [None] before the first digit. *)
Fixpoint read_digits (R : Z) (s : string) (acc : option Z) : option Z :=
  match s with
  | EmptyString => acc
  | String c rest =>
      match digit_value c with
      | Some d =>
          if (d <? R)%Z
          then read_digits R rest
                 (Some (match acc with
                        | Some a => a * R + d
                        | None => d
                        end)%Z)
          else acc
      | None => acc
      end
  end.

(** A leading sign and the text after it. *)
Definition read_sign (s : string) : bool * string :=
  match s with
  | String "-" rest => (true, rest)
  | String "+" rest => (false, rest)
  | _ => (false, s)
  end.

Definition has_hex_prefix (s : string) : bool :=
  prefix "0x" s || prefix "0X" s.

(** [parseInt(string, radix)] on a string; radix [0] stands for an
    absent radix. *)
Definition parseInt_string (s : string) (radix : Z) : number :=
  let '(neg, body) := read_sign (trimStart s) in
  if negb (radix =? 0)%Z && ((radix <? 2) || (36 <? radix))%Z then NaN
  else
    let strip := (radix =? 0)%Z || (radix =? 16)%Z in
    let hex := strip && has_hex_prefix body in
    let R := if hex then 16%Z else if (radix =? 0)%Z then 10%Z else radix in
    let digits := if hex then drop 2 body else body in
    match read_digits R digits None with
    | None => NaN
    | Some z => negate_if neg (of_Z z)
    end.

(** The Number [parseInt(value, radix)] returns. *)
Definition parseInt_radix (v : JSValue) (radix : Z) : number :=
  parseInt_string (to_string v) radix.

(** The Number [parseInt(value)] returns. *)
Definition parseInt (v : JSValue) : number := parseInt_radix v 0.

(** *** [parseFloat] *)

(** The longest prefix of decimal digits: its value, its length, and the
    rest of the text. *)
Fixpoint read_decimal (s : string) (value : Z) (count : nat)
  : Z * nat * string :=
  match s with
  | EmptyString => (value, count, s)
  | String c rest =>
      let n := nat_of_ascii c in
      if ((48 <=? n) && (n <=? 57))%nat
      then read_decimal rest (value * 10 + Z.of_nat (n - 48))%Z (S count)
      else (value, count, s)
  end.

(** The exponent part [e±ddd] at the head of [s], 0 when there is none. *)
Definition read_exponent (s : string) : Z :=
  match s with
  | String c rest =>
      if Ascii.eqb c "e" || Ascii.eqb c "E" then
        let '(neg, body) := read_sign rest in
        let '(value, count, _) := read_decimal body 0 0 in
        match count with
        | O => 0
        | S _ => if neg then - value else value
        end%Z
      else 0%Z
  | EmptyString => 0%Z
  end.

(** [parseFloat(string)] on a string: the longest prefix that is a
    decimal literal, after leading white space. *)
Definition parseFloat_string (s : string) : number :=
  let '(neg, body) := read_sign (trimStart s) in
  if prefix "Infinity" body then negate_if neg Infinity
  else
    let '(int_value, int_count, after_int) := read_decimal body 0 0 in
    let '(mantissa, frac_count, after_frac) :=
      match after_int with
      | String "." rest => read_decimal rest int_value 0
      | _ => (int_value, O, after_int)
      end in
    match int_count, frac_count with
    | O, O => NaN
    | _, _ =>
        let e10 := (read_exponent after_frac - Z.of_nat frac_count)%Z in
        negate_if neg (of_decimal mantissa e10)
    end.

(** The Number [parseFloat(value)] returns. *)
Definition parseFloat (v : JSValue) : number :=
  parseFloat_string (to_string v).

(** A call [f(value)] of [parseInt] or of [parseFloat]: [ToString]
    converts the argument first and may throw; [f value] is the Number the
    call returns.  A text, a Number, a boolean, [null] and [undefined] are
    always converted. *)
Definition call (f : JSValue -> number) (value : JSValue) : Exn number :=
  _ <- ToString value ;;
  Ok (f value).

End JS.

(** ** [JSON.parse]

    A lexer that walks the text once, then a recursive descent parser over
    the tokens.  Escapes of characters beyond ASCII are kept as the UTF-8
    bytes of their code. *)

Module JSON.

Import JSNumber JSString.

Inductive token : Type :=
| TLBrace | TRBrace | TLBracket | TRBracket | TColon | TComma
| TString (s : string)
| TNumber (n : number)
| TLiteral (v : JSValue).

Inductive lex_state : Type :=
| LIdle
| LWord (rev_word : string)
| LString (rev_text : string)
| LEscape (rev_text : string)
| LUnicode (rev_text : string) (hex : list Z).

Fixpoint rev_append (s acc : string) : string :=
  match s with
  | EmptyString => acc
  | String c rest => rev_append rest (String c acc)
  end.

Definition rev_string (s : string) : string := rev_append s EmptyString.

(** JSON white space: space, tab, line feed, carriage return. *)
Definition is_json_space (c : ascii) : bool :=
  let n := nat_of_ascii c in
  ((n =? 32) || (n =? 9) || (n =? 10) || (n =? 13))%nat.

Definition is_digit (c : ascii) : bool :=
  let n := nat_of_ascii c in ((48 <=? n) && (n <=? 57))%nat.

(** Characters of numbers and of the words [true], [false], [null]. *)
Definition is_word_char (c : ascii) : bool :=
  let n := nat_of_ascii c in
  (is_digit c || ((97 <=? n) && (n <=? 122)) || ((65 <=? n) && (n <=? 90))
   || (n =? 43) || (n =? 45) || (n =? 46))%nat.

Definition punctuation (c : ascii) : option token :=
  if Ascii.eqb c "{" then Some TLBrace
  else if Ascii.eqb c "}" then Some TRBrace
  else if Ascii.eqb c "[" then Some TLBracket
  else if Ascii.eqb c "]" then Some TRBracket
  else if Ascii.eqb c ":" then Some TColon
  else if Ascii.eqb c "," then Some TComma
  else None.

(** The exponent of a JSON number, which must reach the end of the text. *)
Definition json_exponent (s : string) : option Z :=
  match s with
  | EmptyString => Some 0%Z
  | String c rest =>
      if Ascii.eqb c "e" || Ascii.eqb c "E" then
        let '(neg, body) := JS.read_sign rest in
        match JS.read_decimal body 0 0 with
        | (value, S _, EmptyString) => Some (if neg then - value else value)%Z
        | _ => None
        end
      else None
  end.

(** A JSON number: an optional minus, an integer part without a leading
    zero (unless it is 0 itself), an optional fraction with at least one
    digit, an optional exponent. *)
Definition json_number (w : string) : option number :=
  let '(neg, body) :=
    match w with
    | String "-" rest => (true, rest)
    | _ => (false, w)
    end in
  let '(int_value, int_count, after_int) := JS.read_decimal body 0 0 in
  let leading_zero := prefix "0" body && negb (Nat.eqb int_count 1) in
  if Nat.eqb int_count 0 || leading_zero then None
  else
    let fraction :=
      match after_int with
      | String "." rest =>
          match JS.read_decimal rest int_value 0 with
          | (_, O, _) => None
          | (mantissa, S k, after_frac) => Some (mantissa, S k, after_frac)
          end
      | _ => Some (int_value, O, after_int)
      end in
    match fraction with
    | None => None
    | Some (mantissa, frac_count, after_frac) =>
        match json_exponent after_frac with
        | None => None
        | Some e =>
            Some (negate_if neg (of_decimal mantissa (e - Z.of_nat frac_count)))
        end
    end.

Definition word_token (rev_word : string) : option token :=
  let w := rev_string rev_word in
  if String.eqb w "true" then Some (TLiteral (VBool true))
  else if String.eqb w "false" then Some (TLiteral (VBool false))
  else if String.eqb w "null" then Some (TLiteral VNull)
  else match json_number w with
       | Some n => Some (TNumber n)
       | None => None
       end.

Definition hex_value (c : ascii) : option Z :=
  match JS.digit_value c with
  | Some d => if (d <? 16)%Z then Some d else None
  | None => None
  end.

Definition byte (z : Z) : ascii := ascii_of_N (Z.to_N z).

(** The UTF-8 bytes of code [u], last byte first, in front of [acc]. *)
Definition push_code (u : Z) (acc : string) : string :=
  (if u <? 128 then String (byte u) acc
   else if u <? 2048 then
     String (byte (128 + u mod 64)) (String (byte (192 + u / 64)) acc)
   else
     String (byte (128 + u mod 64))
       (String (byte (128 + (u / 64) mod 64))
          (String (byte (224 + u / 4096)) acc)))%Z.

Definition simple_escape (c : ascii) : option ascii :=
  if Ascii.eqb c DQUOTE then Some DQUOTE
  else if Ascii.eqb c BACKSLASH then Some BACKSLASH
  else if Ascii.eqb c "/" then Some "/"%char
  else if Ascii.eqb c "b" then Some "008"%char
  else if Ascii.eqb c "f" then Some "012"%char
  else if Ascii.eqb c "n" then Some "010"%char
  else if Ascii.eqb c "r" then Some "013"%char
  else if Ascii.eqb c "t" then Some "009"%char
  else None.

(** What a character does outside of strings and words. *)
Definition lex_idle (c : ascii) (out : list token)
  : option (lex_state * list token) :=
  if is_json_space c then Some (LIdle, out)
  else if Ascii.eqb c DQUOTE then Some (LString EmptyString, out)
  else if is_word_char c then Some (LWord (String c EmptyString), out)
  else match punctuation c with
       | Some t => Some (LIdle, t :: out)
       | None => None
       end.

(** The tokens of [s], last token first. *)
Fixpoint lex (s : string) (st : lex_state) (out : list token)
  : option (list token) :=
  match s with
  | EmptyString =>
      match st with
      | LIdle => Some out
      | LWord w =>
          match word_token w with
          | Some t => Some (t :: out)
          | None => None
          end
      | _ => None
      end
  | String c rest =>
      match st with
      | LIdle =>
          match lex_idle c out with
          | Some (st', out') => lex rest st' out'
          | None => None
          end
      | LWord w =>
          if is_word_char c then lex rest (LWord (String c w)) out
          else match word_token w with
               | Some t =>
                   match lex_idle c (t :: out) with
                   | Some (st', out') => lex rest st' out'
                   | None => None
                   end
               | None => None
               end
      | LString text =>
          if Ascii.eqb c DQUOTE then
            lex rest LIdle (TString (rev_string text) :: out)
          else if Ascii.eqb c BACKSLASH then lex rest (LEscape text) out
          else if (nat_of_ascii c <? 32)%nat then None
          else lex rest (LString (String c text)) out
      | LEscape text =>
          if Ascii.eqb c "u" then lex rest (LUnicode text []) out
          else match simple_escape c with
               | Some c' => lex rest (LString (String c' text)) out
               | None => None
               end
      | LUnicode text hex =>
          match hex_value c, hex with
          | Some d, [c2; c1; c0] =>
              lex rest
                (LString (push_code (((c0 * 16 + c1) * 16 + c2) * 16 + d) text))
                out
          | Some d, _ => lex rest (LUnicode text (d :: hex)) out
          | None, _ => None
          end
      end
  end.

(** Sets property [key], in place when the object already has it. *)
Fixpoint set_property (key : string) (v : JSValue)
  (properties : list (string * JSValue)) : list (string * JSValue) :=
  match properties with
  | [] => [(key, v)]
  | (k, old) :: rest =>
      if String.eqb k key then (k, v) :: rest
      else (k, old) :: set_property key v rest
  end.

Fixpoint parse_value (fuel : nat) (ts : list token)
  : option (JSValue * list token) :=
  match fuel with
  | O => None
  | S fuel' =>
      match ts with
      | TLiteral v :: rest => Some (v, rest)
      | TNumber n :: rest => Some (VNum n, rest)
      | TString s :: rest => Some (VStr s, rest)
      | TLBracket :: TRBracket :: rest => Some (VArr [], rest)
      | TLBracket :: rest => parse_elements fuel' rest []
      | TLBrace :: TRBrace :: rest => Some (VObj [], rest)
      | TLBrace :: rest => parse_members fuel' rest []
      | _ => None
      end
  end
with parse_elements (fuel : nat) (ts : list token) (rev_done : list JSValue)
  : option (JSValue * list token) :=
  match fuel with
  | O => None
  | S fuel' =>
      match parse_value fuel' ts with
      | Some (v, TComma :: rest) => parse_elements fuel' rest (v :: rev_done)
      | Some (v, TRBracket :: rest) => Some (VArr (rev (v :: rev_done)), rest)
      | _ => None
      end
  end
with parse_members (fuel : nat) (ts : list token)
  (done : list (string * JSValue)) : option (JSValue * list token) :=
  match fuel with
  | O => None
  | S fuel' =>
      match ts with
      | TString key :: TColon :: rest =>
          match parse_value fuel' rest with
          | Some (v, TComma :: rest') =>
              parse_members fuel' rest' (set_property key v done)
          | Some (v, TRBrace :: rest') =>
              Some (VObj (set_property key v done), rest')
          | _ => None
          end
      | _ => None
      end
  end.

(** [JSON.parse(text)]: the value, or a SyntaxError. *)
Definition parse (text : string) : Exn JSValue :=
  match lex text LIdle [] with
  | None => Throw (SyntaxError "Unexpected token in JSON")
  | Some rev_tokens =>
      let ts := rev rev_tokens in
      match parse_value (2 * List.length ts + 2) ts with
      | Some (v, []) => Ok v
      | _ => Throw (SyntaxError "Unexpected token in JSON")
      end
  end.

End JSON.

(** ** The records of the response *)

Module Utilization.
Record t : Type := make { gpu : JSNumber.number; memory : JSNumber.number }.
End Utilization.

Module Memory.
Record t : Type :=
  make { total : JSNumber.number; free : JSNumber.number;
         used : JSNumber.number }.
End Memory.

Module Power.
Record t : Type := make { draw : JSNumber.number; limit : JSNumber.number }.
End Power.

Module Clocks.
Record t : Type :=
  make { graphics : JSNumber.number; memory : JSNumber.number }.
End Clocks.

Module Fan.
Record t : Type := make { speed : JSNumber.number }.
End Fan.

(** One device of the [gpus] list.  [name] and [driverVersion] are dynamic:
    the NVIDIA path leaves them [undefined] on a short line, the AMD path
    passes on whatever truthy value the tool printed. *)
Record GpuStats : Type := {
  index : JSNumber.number;
  name : JSValue;
  driverVersion : JSValue;
  temperature : JSNumber.number;
  utilization : Utilization.t;
  memory : Memory.t;
  power : Power.t;
  clocks : Clocks.t;
  fan : Fan.t
}.

(** What [systeminformation.cpu()] resolves to, as far as the route reads
    it. *)
Record CpuData : Type := {
  manufacturer : string;
  brand : string;
  cores : JSNumber.number;
  speed : JSNumber.number;
  temp : JSValue
}.

Record CpuStats : Type := {
  cpu_name : string;
  cpu_cores : JSNumber.number;
  cpu_speed : JSNumber.number;
  cpu_temperature : JSValue
}.

(** The body and status handed to [NextResponse.json].  A key the body
    does not have is [None]; [cpu] is [Some None] when the key is present
    with value [null]. *)
Record Response : Type := {
  hasNvidiaSmi : bool;
  hasAmdSmi : bool;
  gpus : list GpuStats;
  cpu : option (option CpuStats);
  error : option string;
  status : Z
}.

(** The host as the route sees it: [os.platform()], the outcome of each
    command given to [execAsync], and the outcome of
    [systeminformation.cpu()]. *)
Record Env : Type := {
  platform : string;
  execAsync : string -> Exn string;
  systeminformation_cpu : Exn CpuData
}.

(** The text of one field of a destructured array, [undefined] past the
    end. *)
Definition element (items : list string) (position : nat) : JSValue :=
  match nth_error items position with
  | Some s => VStr s
  | None => VUndefined
  end.

(** [a || b] on two Numbers. *)
Definition number_or (a b : JSNumber.number) : JSNumber.number :=
  if JS.truthy (VNum a) then a else b.

Definition elements_of (v : JSValue) : list JSValue :=
  match v with
  | VArr elements => elements
  | _ => []
  end.

Definition empty_object : JSValue := VObj [].

Definition number_zero : JSValue := VNum JSNumber.zero.

(** ** The route, [ui/src/app/api/gpu/route.ts] *)

Module Route.

Import JSNumber.
Local Open Scope string_scope.

(** The Numbers the two helpers return. *)
Definition amdParseInt (value : JSValue) : number :=
  JS.parseInt (JS.or value number_zero).

Definition amdParseFloat (value : JSValue) : number :=
  JS.parseFloat (JS.or value number_zero).

(** A call [helper(value)] of one of the two helpers: it hands [value || 0]
    to [parseInt] or [parseFloat], whose [ToString] may throw. *)
Definition call (helper : JSValue -> number) (value : JSValue) : Exn number :=
  _ <- JS.ToString (JS.or value number_zero) ;;
  Ok (helper value).

Definition nvidia_command : string :=
  "nvidia-smi --query-gpu=index,name,driver_version,temperature.gpu,utilization.gpu,utilization.memory,memory.total,memory.free,memory.used,power.draw,power.limit,clocks.current.graphics,clocks.current.memory,fan.speed --format=csv,noheader,nounits".

Definition amd_command : string :=
  "rocm-smi static --json && echo "
  ++ String JSString.DQUOTE (";" ++ String JSString.DQUOTE
  " && rocm-smi metric --json").

(** The callback of [getGpuStats]: one line of the CSV output. *)
Definition parse_line (line : string) : GpuStats :=
  let items := map JSString.trim (JSString.split ", " line) in
  {| index := JS.parseInt (element items 0);
     name := element items 1;
     driverVersion := element items 2;
     temperature := JS.parseInt (element items 3);
     utilization :=
       {| Utilization.gpu := JS.parseInt (element items 4);
          Utilization.memory := JS.parseInt (element items 5) |};
     memory :=
       {| Memory.total := JS.parseInt (element items 6);
          Memory.free := JS.parseInt (element items 7);
          Memory.used := JS.parseInt (element items 8) |};
     power :=
       {| Power.draw := JS.parseFloat (element items 9);
          Power.limit := JS.parseFloat (element items 10) |};
     clocks :=
       {| Clocks.graphics := JS.parseInt (element items 11);
          Clocks.memory := JS.parseInt (element items 12) |};
     fan :=
       {| Fan.speed := number_or (JS.parseInt (element items 13)) zero |} |}.

(** [getGpuStats] after the command has printed [stdout]. *)
Definition parse_gpu_stats (stdout : string) : list GpuStats :=
  map parse_line
    (JSString.split (String JSString.LF EmptyString) (JSString.trim stdout)).

(** The callback of the [map] in [getAMDGpuStats]: static record [d] at
    position [position], joined with [metricGpus]. *)
Definition join_record (metricGpus : list JSValue) (d : JSValue)
  (position : nat) : Exn GpuStats :=
  let leaf v a := JS.or (JS.get_opt (JS.get_opt v a) "value") number_zero in
  d_gpu <- JS.get d "gpu" ;;
  i <- call amdParseInt (JS.or d_gpu (VNum (of_nat position))) ;;
  let gpu_data := JS.or (JS.at_number metricGpus i) empty_object in
  mem_usage <- JS.get gpu_data "mem_usage" ;;
  mem_total <- call amdParseFloat (leaf mem_usage "total_vram") ;;
  mem_used <- call amdParseFloat (leaf mem_usage "used_vram") ;;
  mem_free <- call amdParseFloat (leaf mem_usage "free_visible_vram") ;;
  let mem_util :=
    if (0 <? mem_total)%float
    then (mem_used / mem_total * 100)%float
    else 0%float in
  d_asic <- JS.get d "asic" ;;
  d_driver <- JS.get d "driver" ;;
  temperature_ <- JS.get gpu_data "temperature" ;;
  temperature_value <- call amdParseInt (leaf temperature_ "hotspot") ;;
  usage <- JS.get gpu_data "usage" ;;
  gpu_util <- call amdParseInt (leaf usage "gfx_activity") ;;
  power_ <- JS.get gpu_data "power" ;;
  power_draw <- call amdParseFloat (leaf power_ "socket_power") ;;
  d_limit <- JS.get d "limit" ;;
  power_limit <- call amdParseFloat (leaf d_limit "max_power") ;;
  clock <- JS.get gpu_data "clock" ;;
  let clk unit :=
    JS.or (JS.get_opt (JS.get_opt (JS.get_opt clock unit) "clk") "value")
          number_zero in
  clock_graphics <- call amdParseInt (clk "gfx_0") ;;
  clock_memory <- call amdParseInt (clk "mem_0") ;;
  fan_ <- JS.get gpu_data "fan" ;;
  fan_speed <- call amdParseFloat (leaf fan_ "usage") ;;
  Ok {| index := i;
        name := JS.or (JS.get_opt d_asic "market_name") (VStr "AMD GPU");
        driverVersion := JS.or (JS.get_opt d_driver "version") (VStr "N/A");
        temperature := temperature_value;
        utilization :=
          {| Utilization.gpu := gpu_util; Utilization.memory := mem_util |};
        memory :=
          {| Memory.total := mem_total;
             Memory.used := mem_used;
             Memory.free := mem_free |};
        power := {| Power.draw := power_draw; Power.limit := power_limit |};
        clocks :=
          {| Clocks.graphics := clock_graphics;
             Clocks.memory := clock_memory |};
        fan := {| Fan.speed := fan_speed |} |}.

(** The sequence of devices in a parsed output: the [gpu_data] field when
    it is an array, else the value itself when it is an array, else
    nothing. *)
Definition device_list (data : JSValue) : Exn (list JSValue) :=
  gpu_data <- JS.get data "gpu_data" ;;
  Ok (if JS.isArray gpu_data then elements_of gpu_data
      else if JS.isArray data then elements_of data
      else []).

(** [getAMDGpuStats] from the two parsed outputs on. *)
Definition join_stats (sdata mdata : JSValue) : Exn (list GpuStats) :=
  staticGpus <- device_list sdata ;;
  metricGpus <- device_list mdata ;;
  records <- map_indexed (join_record metricGpus) staticGpus 0 ;;
  Ok (filter (fun g => JS.is_not_undefined (VNum (index g))) records).

(** The [try] block around the two [JSON.parse] calls. *)
Definition parse_both (static_text metric_text : string)
  : Exn (JSValue * JSValue) :=
  sdata <- JSON.parse static_text ;;
  mdata <- JSON.parse metric_text ;;
  Ok (sdata, mdata).

(** [getAMDGpuStats] after the command has printed [stdout]. *)
Definition parse_amd_stats (stdout : string) : Exn (list GpuStats) :=
  match JSString.split ";" (JSString.trim stdout) with
  | static_text :: metric_text :: _ =>
      match parse_both static_text metric_text with
      | Throw _ => Ok []
      | Ok (sdata, mdata) => join_stats sdata mdata
      end
  | _ => Ok []
  end.

Section Requests.

Variable env : Env.

Definition checkNvidiaSmi (isWindows : bool) : bool :=
  try_catch
    (_ <- execAsync env
            (if isWindows then "nvidia-smi -L" else "which nvidia-smi") ;;
     Ok true)
    (fun _ => false).

Definition checkAmdSmi (isWindows : bool) : bool :=
  try_catch
    (_ <- execAsync env
            (if isWindows then "amd-smi --help"
             else "which rocm-smi || which amd-smi") ;;
     Ok true)
    (fun _ => false).

Definition getGpuStats (isWindows : bool) : Exn (list GpuStats) :=
  stdout <- execAsync env nvidia_command ;;
  Ok (parse_gpu_stats stdout).

Definition getAMDGpuStats (isWindows : bool) : Exn (list GpuStats) :=
  stdout <- execAsync env amd_command ;;
  parse_amd_stats stdout.

Definition getCpuStats : option CpuStats :=
  try_catch
    (cpuData <- systeminformation_cpu env ;;
     Ok (Some {| cpu_name := manufacturer cpuData ++ " " ++ brand cpuData;
                 cpu_cores := cores cpuData;
                 cpu_speed := speed cpuData;
                 cpu_temperature := JS.or (temp cpuData) number_zero |}))
    (fun _ => None).

(** The body of the [try] block of [GET]. *)
Definition respond : Exn Response :=
  let isWindows := String.eqb (platform env) "win32" in
  if checkNvidiaSmi isWindows then
    gpuStats <- getGpuStats isWindows ;;
    Ok {| hasNvidiaSmi := true; hasAmdSmi := false; gpus := gpuStats;
          cpu := None; error := None; status := 200 |}
  else if checkAmdSmi isWindows then
    gpuStats <- getAMDGpuStats isWindows ;;
    Ok {| hasNvidiaSmi := false; hasAmdSmi := true; gpus := gpuStats;
          cpu := None; error := None; status := 200 |}
  else
    Ok {| hasNvidiaSmi := false; hasAmdSmi := false; gpus := [];
          cpu := Some getCpuStats; error := None; status := 200 |}.

Definition GET : Response :=
  try_catch respond
    (fun e =>
       {| hasNvidiaSmi := false; hasAmdSmi := false; gpus := [];
          cpu := None;
          error := Some ("Failed to fetch GPU stats: " ++ error_message e);
          status := 500 |}).

End Requests.

End Route.

(** ** The later revision of the route

    The revision that queries [amd-smi] rewrites the two AMD helpers and
    the AMD adapter with optional chaining and [Number.isFinite]; the rest
    of the file is unchanged. *)

Module Hardened.

Import JSNumber.
Local Open Scope string_scope.

(** The Numbers the two helpers return.  [String(value)] converts as
    [ToString] does, and throws on the same values; the revision is
    modelled where the conversion returns, as its properties state. *)
Definition amdParseInt (value : JSValue) : number :=
  let n := JS.parseInt_radix (VStr (JS.to_string (JS.coalesce value (VStr "0"))))
             10 in
  if isFinite n then n else zero.

Definition amdParseFloat (value : JSValue) : number :=
  let n := JS.parseFloat (VStr (JS.to_string (JS.coalesce value (VStr "0")))) in
  if isFinite n then n else zero.

(** [Array.isArray(data) ? data : Array.isArray(data?.gpu_data) ?
    data.gpu_data : []] *)
Definition device_list (data : JSValue) : list JSValue :=
  if JS.isArray data then elements_of data
  else if JS.isArray (JS.get_opt data "gpu_data")
       then elements_of (JS.get_opt data "gpu_data")
       else [].

Definition join_record (metricGpus : list JSValue) (d : JSValue) : GpuStats :=
  let i := amdParseInt (JS.get_opt d "gpu") in
  let gpu_data := JS.or (JS.at_number metricGpus i) empty_object in
  let leaf v a b := JS.get_opt (JS.get_opt (JS.get_opt v a) b) "value" in
  let clk unit :=
    JS.get_opt
      (JS.get_opt (JS.get_opt (JS.get_opt gpu_data "clock") unit) "clk")
      "value" in
  let mem_total := amdParseFloat (leaf gpu_data "mem_usage" "total_vram") in
  let mem_used := amdParseFloat (leaf gpu_data "mem_usage" "used_vram") in
  let mem_free :=
    amdParseFloat (leaf gpu_data "mem_usage" "free_visible_vram") in
  let mem_utilization :=
    if (0 <? mem_total)%float
    then (mem_used / mem_total * 100)%float
    else 0%float in
  {| index := i;
     name :=
       JS.coalesce (JS.get_opt (JS.get_opt d "asic") "market_name")
                   (VStr "AMD GPU");
     driverVersion :=
       JS.coalesce (JS.get_opt (JS.get_opt d "driver") "version")
                   (VStr "N/A");
     temperature :=
       amdParseInt
         (JS.coalesce (leaf gpu_data "temperature" "hotspot")
            (JS.coalesce (leaf gpu_data "temperature" "edge") number_zero));
     utilization :=
       {| Utilization.gpu :=
            amdParseInt
              (JS.coalesce (leaf gpu_data "usage" "gfx_activity") number_zero);
          Utilization.memory := mem_utilization |};
     memory :=
       {| Memory.total := mem_total;
          Memory.used := mem_used;
          Memory.free := mem_free |};
     power :=
       {| Power.draw :=
            amdParseFloat
              (JS.coalesce (leaf gpu_data "power" "socket_power") number_zero);
          Power.limit :=
            amdParseFloat
              (JS.coalesce (leaf d "limit" "max_power") number_zero) |};
     clocks :=
       {| Clocks.graphics :=
            amdParseInt (JS.coalesce (clk "gfx_0") number_zero);
          Clocks.memory :=
            amdParseInt (JS.coalesce (clk "mem_0") number_zero) |};
     fan :=
       {| Fan.speed :=
            amdParseFloat
              (JS.coalesce (leaf gpu_data "fan" "usage") number_zero) |} |}.

(** [getAMDGpuStats] from the two parsed outputs on. *)
Definition join_stats (sdata mdata : JSValue) : list GpuStats :=
  let staticGpus := device_list sdata in
  let metricGpus := device_list mdata in
  let gpus := map (join_record metricGpus) staticGpus in
  filter (fun g => isFinite (index g)) gpus.

(** [getAMDGpuStats] after the command has printed [stdout]. *)
Definition parse_amd_stats (stdout : string) : list GpuStats :=
  match JSString.split ";" stdout with
  | static_text :: metric_text :: _ =>
      match Route.parse_both static_text metric_text with
      | Throw _ => []
      | Ok (sdata, mdata) => join_stats sdata mdata
      end
  | _ => []
  end.

Definition amd_command : string :=
  "amd-smi static --json && echo "
  ++ String JSString.DQUOTE (";" ++ String JSString.DQUOTE
  " && amd-smi metric --json").

Section Requests.

Variable env : Env.

Definition checkAmdSmi (isWindows : bool) : bool :=
  try_catch
    (_ <- execAsync env (if isWindows then "amd-smi version" else "which amd-smi") ;;
     Ok true)
    (fun _ => false).

Definition getAMDGpuStats (isWindows : bool) : Exn (list GpuStats) :=
  stdout <- execAsync env amd_command ;;
  Ok (parse_amd_stats stdout).

(** The body of the [try] block of [GET]; [checkNvidiaSmi], [getGpuStats]
    and [getCpuStats] are those of [Route], word for word. *)
Definition respond : Exn Response :=
  let isWindows := String.eqb (platform env) "win32" in
  if Route.checkNvidiaSmi env isWindows then
    gpuStats <- Route.getGpuStats env isWindows ;;
    Ok {| hasNvidiaSmi := true; hasAmdSmi := false; gpus := gpuStats;
          cpu := None; error := None; status := 200 |}
  else if checkAmdSmi isWindows then
    gpuStats <- getAMDGpuStats isWindows ;;
    Ok {| hasNvidiaSmi := false; hasAmdSmi := true; gpus := gpuStats;
          cpu := None; error := None; status := 200 |}
  else
    Ok {| hasNvidiaSmi := false; hasAmdSmi := false; gpus := [];
          cpu := Some (Route.getCpuStats env); error := None; status := 200 |}.

Definition GET : Response :=
  try_catch respond
    (fun e =>
       {| hasNvidiaSmi := false; hasAmdSmi := false; gpus := [];
          cpu := None;
          error := Some ("Failed to fetch GPU stats: " ++ error_message e);
          status := 500 |}).

End Requests.

End Hardened.

(** ** The first revision of the AMD adapter

    Before the two-query form, [getAMDGpuStats] ran one [rocm-smi] command
    and read flat keys from each device; the index of a record was its
    position. *)

Module Legacy.

Import JSNumber.
Local Open Scope string_scope.

Definition amd_command : string :=
  "rocm-smi --showname --showhw --showmeminfo vram --showpower --showtemp --showclocks --showfan --json".

(** [Array.isArray(data) ? data : (data.gpu_devices || [])], as the
    receiver of [.map]: a value that is not an array has no [map] to
    call. *)
Definition device_list (data : JSValue) : Exn (list JSValue) :=
  if JS.isArray data then Ok (elements_of data)
  else
    gpu_devices <- JS.get data "gpu_devices" ;;
    match JS.or gpu_devices (VArr []) with
    | VArr elements => Ok elements
    | _ => Throw (TypeError "gpus.map is not a function")
    end.

(** The callback of the [map]. *)
Definition device_record (gpu : JSValue) (position : nat) : Exn GpuStats :=
  product_name <- JS.get gpu "product_name" ;;
  driver_version <- JS.get gpu "driver_version" ;;
  temperature_edge <- JS.get gpu "temperature_edge" ;;
  temperature_gpu <- JS.get gpu "temperature_gpu" ;;
  temperature_value <-
    JS.call JS.parseInt
      (JS.or temperature_edge (JS.or temperature_gpu number_zero)) ;;
  gpu_util <- JS.get gpu "gpu_util" ;;
  gpu_util_value <- JS.call JS.parseInt (JS.or gpu_util number_zero) ;;
  vram_util <- JS.get gpu "vram_util" ;;
  vram_util_value <- JS.call JS.parseInt (JS.or vram_util number_zero) ;;
  vram_total <- JS.get gpu "vram_total" ;;
  vram_total_value <- JS.call JS.parseFloat (JS.or vram_total number_zero) ;;
  vram_used <- JS.get gpu "vram_used" ;;
  vram_used_value <- JS.call JS.parseFloat (JS.or vram_used number_zero) ;;
  vram_free <- JS.get gpu "vram_free" ;;
  vram_free_value <- JS.call JS.parseFloat (JS.or vram_free number_zero) ;;
  power_current <- JS.get gpu "power_current" ;;
  power_draw <- JS.call JS.parseFloat (JS.or power_current number_zero) ;;
  power_limit <- JS.get gpu "power_limit" ;;
  power_limit_value <- JS.call JS.parseFloat (JS.or power_limit number_zero) ;;
  gfx_clock <- JS.get gpu "gfx_clock" ;;
  gfx_clock_value <- JS.call JS.parseInt (JS.or gfx_clock number_zero) ;;
  mem_clock <- JS.get gpu "mem_clock" ;;
  mem_clock_value <- JS.call JS.parseInt (JS.or mem_clock number_zero) ;;
  fan_speed <- JS.get gpu "fan_speed" ;;
  fan_speed_value <- JS.call JS.parseFloat (JS.or fan_speed number_zero) ;;
  Ok {| index := of_nat position;
        name := JS.or product_name (VStr "AMD GPU");
        driverVersion := JS.or driver_version (VStr "N/A");
        temperature := temperature_value;
        utilization :=
          {| Utilization.gpu := gpu_util_value;
             Utilization.memory := vram_util_value |};
        memory :=
          {| Memory.total := vram_total_value;
             Memory.used := vram_used_value;
             Memory.free := vram_free_value |};
        power :=
          {| Power.draw := power_draw; Power.limit := power_limit_value |};
        clocks :=
          {| Clocks.graphics := gfx_clock_value;
             Clocks.memory := mem_clock_value |};
        fan := {| Fan.speed := fan_speed_value |} |}.

(** [getAMDGpuStats] from the parsed output on. *)
Definition device_stats (data : JSValue) : Exn (list GpuStats) :=
  gpus <- device_list data ;;
  records <- map_indexed device_record gpus 0 ;;
  Ok (filter (fun g => JS.is_not_undefined (VNum (index g))) records).

(** [getAMDGpuStats] after the command has printed [stdout]. *)
Definition parse_amd_stats (stdout : string) : Exn (list GpuStats) :=
  match JSON.parse stdout with
  | Throw _ => Ok []
  | Ok data => device_stats data
  end.

Definition getAMDGpuStats (env : Env) (isWindows : bool)
  : Exn (list GpuStats) :=
  stdout <- execAsync env amd_command ;;
  parse_amd_stats stdout.

End Legacy.

(** ** Hosts

    What [execAsync] answers on a host follows from what the tools on it
    do.  A command line [a && b && c] runs its commands in order for as
    long as they exit with status 0; [execAsync] rejects when the command
    line exits with another status and resolves with everything printed
    otherwise. *)

Module Host.

Local Open Scope string_scope.

(** One run of a tool: it prints and exits with status 0, or fails. *)
Inductive ToolRun : Type :=
| Exits0 (stdout : string)
| Fails (code : Z).

Fixpoint and_chain (command : string) (runs : list ToolRun) : Exn string :=
  match runs with
  | [] => Ok ""
  | Exits0 out :: rest =>
      rest_out <- and_chain command rest ;;
      Ok (out ++ rest_out)
  | Fails _ :: _ => Throw (ExecError ("Command failed: " ++ command))
  end.

Definition not_found (command : string) : Exn string :=
  Throw (ExecError ("Command failed: " ++ command)).

Definition no_cpu_data : Exn CpuData :=
  Throw (ExecError "systeminformation: no data").

(** A Linux host with the NVIDIA tool only; the query prints [stdout]. *)
Definition nvidia (query : ToolRun) : Env :=
  {| platform := "linux";
     execAsync := fun command =>
       if String.eqb command "which nvidia-smi"
       then Ok "/usr/bin/nvidia-smi"
       else if String.eqb command Route.nvidia_command
       then and_chain command [query]
       else not_found command;
     systeminformation_cpu := no_cpu_data |}.

(** A Linux host with the AMD tool only; [static] and [metric] are the
    runs of the two queries of [Route.amd_command]. *)
Definition amd (static metric : ToolRun) : Env :=
  {| platform := "linux";
     execAsync := fun command =>
       if String.eqb command "which rocm-smi || which amd-smi"
       then Ok "/opt/rocm/bin/rocm-smi"
       else if String.eqb command Route.amd_command
       then and_chain command
              [static; Exits0 (String ";" (String JSString.LF "")); metric]
       else not_found command;
     systeminformation_cpu := no_cpu_data |}.

(** A Linux host with neither tool. *)
Definition bare (cpu : Exn CpuData) : Env :=
  {| platform := "linux";
     execAsync := not_found;
     systeminformation_cpu := cpu |}.

Fixpoint answer (answers : list (string * Exn string)) (command : string)
  : Exn string :=
  match answers with
  | [] => not_found command
  | (c, result) :: rest =>
      if String.eqb c command then result else answer rest command
  end.

(** A host given by its platform, what it answers to each command it
    knows, and its CPU data; any other command is not found. *)
Definition scripted (os : string) (answers : list (string * Exn string))
  (cpu : Exn CpuData) : Env :=
  {| platform := os;
     execAsync := answer answers;
     systeminformation_cpu := cpu |}.

End Host.

(** ** Vocabulary of the properties *)

Module Spec.

Import JSNumber.
Local Open Scope string_scope.

Fixpoint all_whitespace (s : string) : bool :=
  match s with
  | EmptyString => true
  | String c rest => JSString.is_whitespace c && all_whitespace rest
  end.

Fixpoint has_char (c : ascii) (s : string) : bool :=
  match s with
  | EmptyString => false
  | String c' rest => Ascii.eqb c' c || has_char c rest
  end.

(** The text starts with a character that is not white space. *)
Definition starts_clean (s : string) : bool :=
  match s with
  | EmptyString => false
  | String c _ => negb (JSString.is_whitespace c)
  end.

(** The text ends with a character that is not white space. *)
Fixpoint ends_clean (s : string) : bool :=
  match s with
  | EmptyString => false
  | String c rest =>
      if JSString.is_empty rest then negb (JSString.is_whitespace c)
      else ends_clean rest
  end.

(** A field of the NVIDIA tool's CSV output: not empty, no white space
    around it, no comma and no line feed in it. *)
Definition well_formed_field (f : string) : bool :=
  starts_clean f && ends_clean f
  && negb (has_char "," f) && negb (has_char JSString.LF f).

(** A line of fourteen such fields. *)
Definition well_formed_row (row : list string) : Prop :=
  List.length row = 14 /\ Forall (fun f => well_formed_field f = true) row.

(** The text of a row, and of the rows, as the tool prints them. *)
Definition line_of (row : list string) : string := String.concat ", " row.

Definition text_of (rows : list (list string)) : string :=
  String.concat (String JSString.LF "") (map line_of rows).

(** The record of a line whose fields are [items]. *)
Definition record_of_items (items : list string) : GpuStats :=
  {| index := JS.parseInt (element items 0);
     name := element items 1;
     driverVersion := element items 2;
     temperature := JS.parseInt (element items 3);
     utilization :=
       {| Utilization.gpu := JS.parseInt (element items 4);
          Utilization.memory := JS.parseInt (element items 5) |};
     memory :=
       {| Memory.total := JS.parseInt (element items 6);
          Memory.free := JS.parseInt (element items 7);
          Memory.used := JS.parseInt (element items 8) |};
     power :=
       {| Power.draw := JS.parseFloat (element items 9);
          Power.limit := JS.parseFloat (element items 10) |};
     clocks :=
       {| Clocks.graphics := JS.parseInt (element items 11);
          Clocks.memory := JS.parseInt (element items 12) |};
     fan :=
       {| Fan.speed := number_or (JS.parseInt (element items 13)) zero |} |}.

(** The line of the first end-to-end scenario and its record. *)
Definition rtx4090_line : string :=
  "0, RTX 4090, 535.1, 45, 12, 3, 24576, 20000, 4576, 120.5, 450.0, 2500, 10000, 55".

Definition rtx4090_record : GpuStats :=
  {| index := 0%float;
     name := VStr "RTX 4090";
     driverVersion := VStr "535.1";
     temperature := 45%float;
     utilization :=
       {| Utilization.gpu := 12%float; Utilization.memory := 3%float |};
     memory :=
       {| Memory.total := 24576%float;
          Memory.free := 20000%float;
          Memory.used := 4576%float |};
     power := {| Power.draw := 120.5%float; Power.limit := 450%float |};
     clocks :=
       {| Clocks.graphics := 2500%float; Clocks.memory := 10000%float |};
     fan := {| Fan.speed := 55%float |} |}.

(** Decimal digits and the text they make. *)
Definition digit_char (d : nat) : ascii := ascii_of_nat (48 + d).

Fixpoint digits_text (ds : list nat) : string :=
  match ds with
  | [] => EmptyString
  | d :: rest => String (digit_char d) (digits_text rest)
  end.

(** The integer the digits [ds] denote after the digits of [acc]. *)
Fixpoint digits_value (ds : list nat) (acc : Z) : Z :=
  match ds with
  | [] => acc
  | d :: rest => digits_value rest (acc * 10 + Z.of_nat d)
  end.

Definition decimal_digits (ds : list nat) : Prop :=
  ds <> [] /\ Forall (fun d => d < 10) ds.

(** The fields of an output with two devices. *)
Definition two_gpu_rows : list (list string) :=
  [ ["0"; "RTX 4090"; "535.1"; "45"; "12"; "3"; "24576"; "20000"; "4576";
     "120.5"; "450.0"; "2500"; "10000"; "55"];
    ["1"; "RTX 3060"; "535.1"; "38"; "0"; "0"; "12288"; "12000"; "288";
     "15.25"; "170.0"; "210"; "405"; "0"] ].

(** The record [getGpuStats] builds from an empty line: the one field is
    the empty text, the thirteen others are [undefined]. *)
Definition blank_record : GpuStats :=
  {| index := NaN;
     name := VUndefined;
     driverVersion := VUndefined;
     temperature := NaN;
     utilization := {| Utilization.gpu := NaN; Utilization.memory := NaN |};
     memory :=
       {| Memory.total := NaN; Memory.free := NaN; Memory.used := NaN |};
     power := {| Power.draw := NaN; Power.limit := NaN |};
     clocks := {| Clocks.graphics := NaN; Clocks.memory := NaN |};
     fan := {| Fan.speed := zero |} |}.

(** The body [GET] answers with from its [catch] block. *)
Definition failure_response (e : JSError) : Response :=
  {| hasNvidiaSmi := false;
     hasAmdSmi := false;
     gpus := [];
     cpu := None;
     error := Some ("Failed to fetch GPU stats: " ++ error_message e);
     status := 500 |}.

(** The body [GET] answers with when no GPU tool is present. *)
Definition cpu_response (stats : option CpuStats) : Response :=
  {| hasNvidiaSmi := false;
     hasAmdSmi := false;
     gpus := [];
     cpu := Some stats;
     error := None;
     status := 200 |}.

Definition cpu_summary (data : CpuData) : CpuStats :=
  {| cpu_name := manufacturer data ++ " " ++ brand data;
     cpu_cores := cores data;
     cpu_speed := speed data;
     cpu_temperature := JS.or (temp data) number_zero |}.

Definition quoted (s : string) : string :=
  String JSString.DQUOTE (s ++ String JSString.DQUOTE "").

(** The JSON text of a static answer with one MI300. *)
Definition mi300_static_text : string :=
  "{" ++ quoted "gpu_data" ++ ":[{" ++ quoted "gpu" ++ ":" ++ quoted "0"
  ++ "," ++ quoted "asic" ++ ":{" ++ quoted "market_name" ++ ":"
  ++ quoted "MI300" ++ "}}]}" ++ String JSString.LF "".

(** The same answer once parsed. *)
Definition mi300_static : JSValue :=
  VObj [("gpu_data",
         VArr [VObj [("gpu", VStr "0");
                     ("asic", VObj [("market_name", VStr "MI300")])]])].

Definition is_windows (env : Env) : bool := String.eqb (platform env) "win32".

(** The two shapes a tool gives to a sequence of devices. *)
Definition bare (devices : list JSValue) : JSValue := VArr devices.

Definition wrapped (devices : list JSValue) : JSValue :=
  VObj [("gpu_data", VArr devices)].

(** [d.gpu || position], parsed: the index of the static record [d]. *)
Definition looked_up_index (d : JSValue) (position : nat) : number :=
  Route.amdParseInt (JS.or (JS.get_opt d "gpu") (VNum (of_nat position))).

(** [metricGpus[i] || {}] *)
Definition metric_of (metricGpus : list JSValue) (i : number) : JSValue :=
  JS.or (JS.at_number metricGpus i) empty_object.

(** [v.a?.b?.value || 0] on a value [v] that is neither [null] nor
    [undefined]. *)
Definition leaf (v : JSValue) (a b : string) : JSValue :=
  JS.or (JS.get_opt (JS.get_opt (JS.get_opt v a) b) "value") number_zero.

(** [v.clock?.unit?.clk?.value || 0] *)
Definition clock_leaf (v : JSValue) (unit : string) : JSValue :=
  JS.or
    (JS.get_opt (JS.get_opt (JS.get_opt (JS.get_opt v "clock") unit) "clk")
       "value")
    number_zero.

(** The record the callback of [getAMDGpuStats] returns when it does not
    throw. *)
Definition joined (metricGpus : list JSValue) (d : JSValue) (position : nat)
  : GpuStats :=
  let i := looked_up_index d position in
  let g := metric_of metricGpus i in
  let mem_total := Route.amdParseFloat (leaf g "mem_usage" "total_vram") in
  let mem_used := Route.amdParseFloat (leaf g "mem_usage" "used_vram") in
  let mem_free := Route.amdParseFloat (leaf g "mem_usage" "free_visible_vram") in
  {| index := i;
     name :=
       JS.or (JS.get_opt (JS.get_opt d "asic") "market_name") (VStr "AMD GPU");
     driverVersion :=
       JS.or (JS.get_opt (JS.get_opt d "driver") "version") (VStr "N/A");
     temperature := Route.amdParseInt (leaf g "temperature" "hotspot");
     utilization :=
       {| Utilization.gpu := Route.amdParseInt (leaf g "usage" "gfx_activity");
          Utilization.memory :=
            if (0 <? mem_total)%float
            then (mem_used / mem_total * 100)%float
            else 0%float |};
     memory :=
       {| Memory.total := mem_total;
          Memory.used := mem_used;
          Memory.free := mem_free |};
     power :=
       {| Power.draw := Route.amdParseFloat (leaf g "power" "socket_power");
          Power.limit := Route.amdParseFloat (leaf d "limit" "max_power") |};
     clocks :=
       {| Clocks.graphics := Route.amdParseInt (clock_leaf g "gfx_0");
          Clocks.memory := Route.amdParseInt (clock_leaf g "mem_0") |};
     fan := {| Fan.speed := Route.amdParseFloat (leaf g "fan" "usage") |} |}.

Fixpoint joined_from (metricGpus devices : list JSValue) (position : nat)
  : list GpuStats :=
  match devices with
  | [] => []
  | d :: rest =>
      joined metricGpus d position :: joined_from metricGpus rest (S position)
  end.

Definition not_nullish (v : JSValue) : Prop := JS.is_nullish v = false.

(** The Number [i] names no element of [metricGpus]. *)
Definition out_of_range (metricGpus : list JSValue) (i : number) : Prop :=
  match to_index i with
  | Some position => (N.of_nat (List.length metricGpus) <= position)%N
  | None => True
  end.

(** Every field the adapter reads from the metric record is 0. *)
Definition telemetry_zeroed (r : GpuStats) : Prop :=
  temperature r = zero
  /\ utilization r = {| Utilization.gpu := zero; Utilization.memory := zero |}
  /\ memory r =
       {| Memory.total := zero; Memory.free := zero; Memory.used := zero |}
  /\ Power.draw (power r) = zero
  /\ clocks r = {| Clocks.graphics := zero; Clocks.memory := zero |}
  /\ fan r = {| Fan.speed := zero |}.

(** One MI300 with no name for the driver and no metric at all. *)
Definition mi300_zeroed : GpuStats :=
  {| index := zero;
     name := VStr "MI300";
     driverVersion := VStr "N/A";
     temperature := zero;
     utilization := {| Utilization.gpu := zero; Utilization.memory := zero |};
     memory :=
       {| Memory.total := zero; Memory.free := zero; Memory.used := zero |};
     power := {| Power.draw := zero; Power.limit := zero |};
     clocks := {| Clocks.graphics := zero; Clocks.memory := zero |};
     fan := {| Fan.speed := zero |} |}.

(** A static record whose device index reads "-1". *)
Definition minus_one_static : JSValue := VObj [("gpu", VStr "-1")].

Definition minus_one_record : GpuStats :=
  {| index := (-1)%float;
     name := VStr "AMD GPU";
     driverVersion := VStr "N/A";
     temperature := zero;
     utilization := {| Utilization.gpu := zero; Utilization.memory := zero |};
     memory :=
       {| Memory.total := zero; Memory.free := zero; Memory.used := zero |};
     power := {| Power.draw := zero; Power.limit := zero |};
     clocks := {| Clocks.graphics := zero; Clocks.memory := zero |};
     fan := {| Fan.speed := zero |} |}.

(** What [systeminformation.cpu()] answers on one host. *)
Definition ryzen : CpuData :=
  {| manufacturer := "AMD";
     brand := "Ryzen 9 7950X";
     cores := 32%float;
     speed := 4.5%float;
     temp := VUndefined |}.

(** A device the hardened adapter indexes 0 for want of a number. *)
Definition unnamed_zeroed : GpuStats :=
  {| index := zero;
     name := VStr "AMD GPU";
     driverVersion := VStr "N/A";
     temperature := zero;
     utilization := {| Utilization.gpu := zero; Utilization.memory := zero |};
     memory :=
       {| Memory.total := zero; Memory.free := zero; Memory.used := zero |};
     power := {| Power.draw := zero; Power.limit := zero |};
     clocks := {| Clocks.graphics := zero; Clocks.memory := zero |};
     fan := {| Fan.speed := zero |} |}.

(** *** Further vocabulary *)

(** The command each probe runs. *)
Definition nvidia_probe (isWindows : bool) : string :=
  if isWindows then "nvidia-smi -L" else "which nvidia-smi".

Definition amd_probe (isWindows : bool) : string :=
  if isWindows then "amd-smi --help" else "which rocm-smi || which amd-smi".

Fixpoint count_char (c : ascii) (s : string) : nat :=
  match s with
  | EmptyString => 0
  | String c' rest => (if Ascii.eqb c' c then 1 else 0) + count_char c rest
  end.

(** The trimmed fields of a line, and [parseInt] of the field at
    [position], [undefined] when the line has no such field. *)
Definition fields_of (line : string) : list string :=
  map JSString.trim (JSString.split ", " line).

Definition parsed_column (line : string) (position : nat) : number :=
  JS.parseInt (element (fields_of line) position).

(** [d.asic?.market_name] and [d.driver?.version] on a static record [d]
    that is not [null]. *)
Definition market_name (d : JSValue) : JSValue :=
  JS.get_opt (JS.get_opt d "asic") "market_name".

Definition driver_version (d : JSValue) : JSValue :=
  JS.get_opt (JS.get_opt d "driver") "version".

(** The record of a line that holds one field only. *)
Definition lone_field_record (field : string) : GpuStats :=
  {| index := JS.parseInt (VStr field);
     name := VUndefined;
     driverVersion := VUndefined;
     temperature := NaN;
     utilization := {| Utilization.gpu := NaN; Utilization.memory := NaN |};
     memory :=
       {| Memory.total := NaN; Memory.free := NaN; Memory.used := NaN |};
     power := {| Power.draw := NaN; Power.limit := NaN |};
     clocks := {| Clocks.graphics := NaN; Clocks.memory := NaN |};
     fan := {| Fan.speed := zero |} |}.

(** A field with white space before and after it. *)
Record Padded : Type := {
  pad_before : string;
  pad_field : string;
  pad_after : string
}.

Definition padded_text (p : Padded) : string :=
  pad_before p ++ pad_field p ++ pad_after p.

Definition well_padded (p : Padded) : Prop :=
  all_whitespace (pad_before p) = true
  /\ well_formed_field (pad_field p) = true
  /\ all_whitespace (pad_after p) = true.

(** The rows as a tool prints them on Windows: every line ends with a
    carriage return and a line feed. *)
Definition crlf : string := String JSString.CR (String JSString.LF "").

Definition text_crlf (rows : list (list string)) : string :=
  String.concat crlf (map line_of rows) ++ crlf.

(** A value with no [undefined] in it, as [JSON.parse] builds them. *)
Fixpoint defined_value (v : JSValue) : bool :=
  match v with
  | VUndefined => false
  | VArr elements => forallb defined_value elements
  | VObj properties => forallb (fun kv => defined_value (snd kv)) properties
  | _ => true
  end.

Definition defined_token (t : JSON.token) : bool :=
  match t with
  | JSON.TLiteral v => defined_value v
  | _ => true
  end.

(** A value in which no object has a key named [toString], which would
    hide the method every object inherits: [ToString] converts such a value
    and every value read from it. *)
Fixpoint printable (v : JSValue) : bool :=
  match v with
  | VArr elements => forallb printable elements
  | VObj properties =>
      forallb (fun kv => negb (String.eqb (fst kv) "toString")
                         && printable (snd kv)) properties
  | _ => true
  end.

(** A static answer whose one record has, for device index, an object with
    a key named [toString]: as the tool prints it, and parsed. *)
Definition toString_static_text : string :=
  "[{" ++ quoted "gpu" ++ ":{" ++ quoted "toString" ++ ":1}}]".

Definition toString_static : JSValue :=
  VArr [VObj [("gpu", VObj [("toString", VNum 1%float)])]].

(** The TypeError of [ToString] on such an object. *)
Definition conversion_error : JSError :=
  TypeError "Cannot convert object to primitive value".

(** The two answers in [pieces], when both are JSON, are printable. *)
Definition printable_answers (pieces : list string) : Prop :=
  forall static_text metric_text others sdata mdata,
    pieces = static_text :: metric_text :: others ->
    JSON.parse static_text = Ok sdata ->
    JSON.parse metric_text = Ok mdata ->
    printable sdata = true /\ printable mdata = true.

(** The TypeError of a property read on [null] or [undefined]. *)
Definition null_read (key : string) : JSError :=
  TypeError ("Cannot read properties of null (reading '" ++ key ++ "')").

Definition undefined_read (key : string) : JSError :=
  TypeError ("Cannot read properties of undefined (reading '" ++ key ++ "')").

(** The fields of a record that are read from the metric record [m]. *)
Definition telemetry_from (m : JSValue) (r : GpuStats) : Prop :=
  temperature r = Route.amdParseInt (leaf m "temperature" "hotspot")
  /\ Utilization.gpu (utilization r)
     = Route.amdParseInt (leaf m "usage" "gfx_activity")
  /\ Memory.total (memory r)
     = Route.amdParseFloat (leaf m "mem_usage" "total_vram")
  /\ Memory.used (memory r)
     = Route.amdParseFloat (leaf m "mem_usage" "used_vram")
  /\ Memory.free (memory r)
     = Route.amdParseFloat (leaf m "mem_usage" "free_visible_vram")
  /\ Power.draw (power r) = Route.amdParseFloat (leaf m "power" "socket_power")
  /\ Clocks.graphics (clocks r) = Route.amdParseInt (clock_leaf m "gfx_0")
  /\ Clocks.memory (clocks r) = Route.amdParseInt (clock_leaf m "mem_0")
  /\ Fan.speed (fan r) = Route.amdParseFloat (leaf m "fan" "usage").

(** Every Number the hardened adapter parses is finite. *)
Definition parsed_fields_finite (r : GpuStats) : Prop :=
  isFinite (index r) = true
  /\ isFinite (temperature r) = true
  /\ isFinite (Utilization.gpu (utilization r)) = true
  /\ isFinite (Memory.total (memory r)) = true
  /\ isFinite (Memory.used (memory r)) = true
  /\ isFinite (Memory.free (memory r)) = true
  /\ isFinite (Power.draw (power r)) = true
  /\ isFinite (Power.limit (power r)) = true
  /\ isFinite (Clocks.graphics (clocks r)) = true
  /\ isFinite (Clocks.memory (clocks r)) = true
  /\ isFinite (Fan.speed (fan r)) = true.

(** Two static records listed in the reverse order of their indices, and
    two metric records with their temperatures. *)
Definition swapped_static : list JSValue :=
  [ VObj [("gpu", VStr "1"); ("asic", VObj [("market_name", VStr "MI300X")])];
    VObj [("gpu", VStr "0"); ("asic", VObj [("market_name", VStr "MI210")])] ].

Definition hotspot (degrees : number) : JSValue :=
  VObj [("temperature", VObj [("hotspot", VObj [("value", VNum degrees)])])].

Definition two_metrics : list JSValue := [hotspot 40%float; hotspot 55%float].

(** The record the first revision builds from a device without any
    key. *)
Definition legacy_blank (position : nat) : GpuStats :=
  {| index := of_nat position;
     name := VStr "AMD GPU";
     driverVersion := VStr "N/A";
     temperature := zero;
     utilization := {| Utilization.gpu := zero; Utilization.memory := zero |};
     memory :=
       {| Memory.total := zero; Memory.free := zero; Memory.used := zero |};
     power := {| Power.draw := zero; Power.limit := zero |};
     clocks := {| Clocks.graphics := zero; Clocks.memory := zero |};
     fan := {| Fan.speed := zero |} |}.

(** A host with both tools and a CPU that answers. *)
Definition host_with_both (nvidia_out amd_out : string) : Env :=
  Host.scripted "linux"
    [ ("which nvidia-smi", Ok "/usr/bin/nvidia-smi");
      (Route.nvidia_command, Ok nvidia_out);
      ("which rocm-smi || which amd-smi", Ok "/opt/rocm/bin/rocm-smi");
      (Route.amd_command, Ok amd_out) ]
    (Ok ryzen).

(** A host with the AMD tool of [route.ts] only, whose one command prints
    [amd_out]. *)
Definition host_with_amd (amd_out : string) : Env :=
  Host.scripted "linux"
    [ ("which rocm-smi || which amd-smi", Ok "/opt/rocm/bin/rocm-smi");
      (Route.amd_command, Ok amd_out) ]
    Host.no_cpu_data.


End Spec.

(** The ten cases of a decimal digit [d], under [H : d < 10]. *)
Ltac each_digit d H :=
  do 10 (destruct d as [|d]; [vm_compute; reflexivity|]);
  exfalso; cbn in H; lia.


(** * Properties *)

Unset Implicit Arguments.

(** ** Strings *)

Module StringFacts.

Import JSString Spec.

Lemma trimStart_blank (s : string) :
  all_whitespace s = true -> trimStart s = EmptyString.
Proof.
  induction s as [|c rest IH]; cbn [all_whitespace trimStart]; intro H.
  - reflexivity.
  - apply andb_true_iff in H as [Hc Hrest].
    rewrite Hc. exact (IH Hrest).
Qed.

Lemma trim_blank (s : string) :
  all_whitespace s = true -> trim s = EmptyString.
Proof.
  intro H. unfold trim. rewrite (trimStart_blank s H). reflexivity.
Qed.

Lemma trimStart_clean (s : string) :
  starts_clean s = true -> trimStart s = s.
Proof.
  destruct s as [|c rest]; cbn [starts_clean trimStart]; intro H.
  - reflexivity.
  - apply negb_true_iff in H. rewrite H. reflexivity.
Qed.

Lemma trimEnd_blank (s : string) :
  all_whitespace s = true -> trimEnd s = EmptyString.
Proof.
  induction s as [|c rest IH]; cbn [all_whitespace trimEnd]; intro H.
  - reflexivity.
  - apply andb_true_iff in H as [Hc Hrest].
    rewrite (IH Hrest), Hc. reflexivity.
Qed.

(** White space after a text that ends clean is all that [trimEnd]
    removes. *)
Lemma trimEnd_clean_tail (s tail : string) :
  ends_clean s = true ->
  all_whitespace tail = true ->
  trimEnd (s ++ tail) = s.
Proof.
  intros Hs Htail. induction s as [|c rest IH].
  - discriminate Hs.
  - cbn [ends_clean] in Hs. cbn [append trimEnd].
    destruct rest as [|c' rest'].
    + cbn [is_empty] in Hs. apply negb_true_iff in Hs.
      cbn [append]. rewrite (trimEnd_blank tail Htail), Hs. reflexivity.
    + cbn [is_empty] in Hs. rewrite (IH Hs).
      cbn [is_empty]. rewrite andb_false_r. reflexivity.
Qed.

Lemma append_empty (s : string) : (s ++ EmptyString)%string = s.
Proof.
  induction s as [|c rest IH]; cbn [append].
  - reflexivity.
  - rewrite IH. reflexivity.
Qed.

Lemma trim_clean (s : string) :
  starts_clean s = true -> ends_clean s = true -> trim s = s.
Proof.
  intros Hstart Hend. unfold trim. rewrite (trimStart_clean s Hstart).
  rewrite <- (append_empty s) at 1.
  apply trimEnd_clean_tail; [exact Hend | reflexivity].
Qed.

Lemma trim_clean_tail (s tail : string) :
  starts_clean s = true ->
  ends_clean s = true ->
  all_whitespace tail = true ->
  trim (s ++ tail) = s.
Proof.
  intros Hstart Hend Htail. unfold trim.
  rewrite trimStart_clean.
  - exact (trimEnd_clean_tail s tail Hend Htail).
  - destruct s; [discriminate Hstart | exact Hstart].
Qed.

Lemma starts_clean_append (s t : string) :
  starts_clean s = true -> starts_clean (s ++ t) = true.
Proof. destruct s; [discriminate | intro H; exact H]. Qed.

Lemma ends_clean_append (s t : string) :
  ends_clean t = true -> ends_clean (s ++ t) = true.
Proof.
  intro Ht. induction s as [|c rest IH]; cbn [append].
  - exact Ht.
  - cbn [ends_clean].
    destruct (rest ++ t)%string.
    + discriminate IH.
    + exact IH.
Qed.

Lemma has_char_append (c : ascii) (s t : string) :
  has_char c (s ++ t) = has_char c s || has_char c t.
Proof.
  induction s as [|c' rest IH]; cbn [append has_char].
  - reflexivity.
  - rewrite IH, orb_assoc. reflexivity.
Qed.

(** *** Splitting *)

Lemma prefix_mismatch (a : ascii) (sep : string) (c : ascii) (rest : string) :
  Ascii.eqb c a = false -> prefix (String a sep) (String c rest) = false.
Proof.
  intro H. cbn [prefix].
  destruct (ascii_dec a c) as [E | E].
  - subst c. rewrite Ascii.eqb_refl in H. discriminate H.
  - reflexivity.
Qed.

Lemma split_from_separator (a : ascii) (sep : string) (c : ascii)
  (rest : string) :
  Ascii.eqb c a = false ->
  split_from (String a sep) (String c rest) 0
  = cons_to_head c (split_from (String a sep) rest 0).
Proof.
  intro H. cbn [split_from]. rewrite (prefix_mismatch a sep c rest H).
  reflexivity.
Qed.

Lemma prefix_empty (s : string) : prefix "" s = true.
Proof. destruct s; reflexivity. Qed.

(** A piece with no comma in it, before a separator. *)
Lemma split_comma_field (f rest : string) :
  has_char "," f = false ->
  split_from ", " (f ++ ", " ++ rest) 0 = f :: split_from ", " rest 0.
Proof.
  intro H. induction f as [|c f' IH].
  - cbn [append split_from].
    assert (Hp : prefix ", " (String "," (String " " rest)) = true)
      by (cbn; apply prefix_empty).
    rewrite Hp. reflexivity.
  - cbn [has_char] in H. apply orb_false_iff in H as [Hc Hf].
    cbn [append]. rewrite (split_from_separator "," " " c _ Hc).
    cbn [append] in IH. rewrite (IH Hf). reflexivity.
Qed.

Lemma split_comma_last (f : string) :
  has_char "," f = false -> split_from ", " f 0 = [f].
Proof.
  intro H. induction f as [|c f' IH].
  - reflexivity.
  - cbn [has_char] in H. apply orb_false_iff in H as [Hc Hf].
    rewrite (split_from_separator "," " " c _ Hc), (IH Hf). reflexivity.
Qed.

(** Splitting a row that was joined with ", " gives back its fields. *)
Lemma split_line_of (row : list string) :
  row <> [] ->
  Forall (fun f => has_char "," f = false) row ->
  split ", " (line_of row) = row.
Proof.
  intros Hne H. unfold split, line_of. cbn [is_empty].
  induction H as [|f rest Hf Hrest IH]; [contradiction|].
  destruct rest as [|f' rest'].
  - cbn [concat]. exact (split_comma_last f Hf).
  - change (concat ", " (f :: f' :: rest'))
      with (f ++ ", " ++ concat ", " (f' :: rest'))%string.
    rewrite (split_comma_field f _ Hf), IH; [reflexivity | discriminate].
Qed.

(** A line with no line feed in it, before a line feed. *)
Lemma split_line_feed (l rest : string) :
  has_char LF l = false ->
  split_from (String LF "") (l ++ String LF rest) 0
  = l :: split_from (String LF "") rest 0.
Proof.
  intro H. induction l as [|c l' IH].
  - cbn [append split_from].
    assert (Hp : prefix (String LF "") (String LF rest) = true)
      by (cbn; apply prefix_empty).
    rewrite Hp. reflexivity.
  - cbn [has_char] in H. apply orb_false_iff in H as [Hc Hl].
    cbn [append]. rewrite (split_from_separator LF "" c _ Hc), (IH Hl).
    reflexivity.
Qed.

Lemma split_line_last (l : string) :
  has_char LF l = false -> split_from (String LF "") l 0 = [l].
Proof.
  intro H. induction l as [|c l' IH].
  - reflexivity.
  - cbn [has_char] in H. apply orb_false_iff in H as [Hc Hl].
    rewrite (split_from_separator LF "" c _ Hc), (IH Hl). reflexivity.
Qed.

(** Splitting lines that were joined with line feeds gives them back. *)
Lemma split_lines (lines : list string) :
  lines <> [] ->
  Forall (fun l => has_char LF l = false) lines ->
  split (String LF "") (concat (String LF "") lines) = lines.
Proof.
  intros Hne H. unfold split. cbn [is_empty].
  induction H as [|l rest Hl Hrest IH]; [contradiction|].
  destruct rest as [|l' rest'].
  - cbn [concat]. exact (split_line_last l Hl).
  - change (concat (String LF "") (l :: l' :: rest'))
      with (l ++ String LF (concat (String LF "") (l' :: rest')))%string.
    rewrite (split_line_feed l _ Hl), IH; [reflexivity | discriminate].
Qed.

(** *** Joined texts *)

Lemma concat_starts_clean (sep : string) (pieces : list string) :
  pieces <> [] ->
  Forall (fun p => starts_clean p = true) pieces ->
  starts_clean (concat sep pieces) = true.
Proof.
  intros Hne H. destruct H as [|p rest Hp Hrest]; [contradiction|].
  destruct rest as [|p' rest'].
  - exact Hp.
  - change (concat sep (p :: p' :: rest'))
      with (p ++ sep ++ concat sep (p' :: rest'))%string.
    apply starts_clean_append. exact Hp.
Qed.

Lemma concat_ends_clean (sep : string) (pieces : list string) :
  pieces <> [] ->
  Forall (fun p => ends_clean p = true) pieces ->
  ends_clean (concat sep pieces) = true.
Proof.
  intros Hne H. induction H as [|p rest Hp Hrest IH]; [contradiction|].
  destruct rest as [|p' rest'].
  - exact Hp.
  - change (concat sep (p :: p' :: rest'))
      with (p ++ sep ++ concat sep (p' :: rest'))%string.
    apply ends_clean_append, ends_clean_append, IH. discriminate.
Qed.

Lemma concat_has_char (c : ascii) (sep : string) (pieces : list string) :
  has_char c sep = false ->
  Forall (fun p => has_char c p = false) pieces ->
  has_char c (concat sep pieces) = false.
Proof.
  intros Hsep H. induction H as [|p rest Hp Hrest IH].
  - reflexivity.
  - destruct rest as [|p' rest'].
    + exact Hp.
    + change (concat sep (p :: p' :: rest'))
        with (p ++ sep ++ concat sep (p' :: rest'))%string.
      rewrite !has_char_append, Hp, Hsep, IH. reflexivity.
Qed.

End StringFacts.

(** ** The tolerant numeric parses *)

Module ParseFacts.

Import JSNumber Spec.
Local Open Scope string_scope.

(** The hardened helpers end in [Number.isFinite(n) ? n : 0]. *)
Lemma finite_or_zero (n : number) :
  isFinite (if isFinite n then n else zero) = true.
Proof.
  destruct (isFinite n) eqn:Hn.
  - exact Hn.
  - reflexivity.
Qed.

Lemma hardened_amdParseInt_finite (value : JSValue) :
  isFinite (Hardened.amdParseInt value) = true.
Proof. unfold Hardened.amdParseInt. apply finite_or_zero. Qed.

Lemma hardened_amdParseFloat_finite (value : JSValue) :
  isFinite (Hardened.amdParseFloat value) = true.
Proof. unfold Hardened.amdParseFloat. apply finite_or_zero. Qed.

(** *** Fields that hold decimal digits *)

Lemma digit_value_digit_char (d : nat) :
  d < 10 -> JS.digit_value (digit_char d) = Some (Z.of_nat d).
Proof. intro H. each_digit d H. Qed.

Lemma digit_char_not_whitespace (d : nat) :
  d < 10 -> JSString.is_whitespace (digit_char d) = false.
Proof. intro H. each_digit d H. Qed.

Lemma read_sign_digit (d : nat) (rest : string) :
  d < 10 ->
  JS.read_sign (String (digit_char d) rest)
  = (false, String (digit_char d) rest).
Proof. intro H. each_digit d H. Qed.

Lemma prefix_x_digit (x : ascii) (d : nat) (rest : string) :
  JS.digit_value x = Some 33%Z ->
  d < 10 ->
  prefix (String x "") (String (digit_char d) rest) = false.
Proof.
  intros Hx H. apply StringFacts.prefix_mismatch.
  destruct (Ascii.eqb_spec (digit_char d) x) as [E | E]; [|reflexivity].
  rewrite <- E, (digit_value_digit_char d H) in Hx.
  injection Hx as Hx. lia.
Qed.

Lemma no_hex_prefix (ds : list nat) :
  Forall (fun d => d < 10) ds -> JS.has_hex_prefix (digits_text ds) = false.
Proof.
  intro H. unfold JS.has_hex_prefix.
  destruct H as [|d1 rest H1 Hrest]; [reflexivity|].
  cbn [digits_text].
  assert (Hx : forall x, JS.digit_value x = Some 33%Z ->
                         prefix (String "0" (String x ""))
                                (String (digit_char d1) (digits_text rest))
                         = false).
  { intros x Hx. cbn [prefix].
    destruct (ascii_dec "0" (digit_char d1)) as [_ | _]; [|reflexivity].
    destruct Hrest as [|d2 rest' H2 _]; [reflexivity|].
    exact (prefix_x_digit x d2 (digits_text rest') Hx H2). }
  rewrite (Hx "x"%char), (Hx "X"%char); reflexivity.
Qed.

Lemma read_digits_text (ds : list nat) (acc : Z) :
  Forall (fun d => d < 10) ds ->
  JS.read_digits 10 (digits_text ds) (Some acc) = Some (digits_value ds acc).
Proof.
  intro H. revert acc.
  induction H as [|d rest Hd _ IH]; intro acc;
    cbn [digits_text JS.read_digits digits_value].
  - reflexivity.
  - rewrite (digit_value_digit_char d Hd).
    replace (Z.of_nat d <? 10)%Z with true by (symmetry; apply Z.ltb_lt; lia).
    apply IH.
Qed.

(** [parseInt] of a field of decimal digits is the Number nearest to the
    integer they denote. *)
Lemma parseInt_digits (ds : list nat) :
  decimal_digits ds ->
  JS.parseInt (VStr (digits_text ds)) = of_Z (digits_value ds 0).
Proof.
  intros [Hne H].
  pose proof (no_hex_prefix ds H) as Hhex.
  destruct H as [|d rest Hd Hrest]; [contradiction|].
  unfold JS.parseInt, JS.parseInt_radix, JS.parseInt_string.
  cbn [JS.to_string digits_text JSString.trimStart] in *.
  rewrite (digit_char_not_whitespace d Hd), (read_sign_digit d _ Hd).
  cbn [Z.eqb negb andb orb]. rewrite Hhex.
  cbn [JS.read_digits]. rewrite (digit_value_digit_char d Hd).
  replace (Z.of_nat d <? 10)%Z with true by (symmetry; apply Z.ltb_lt; lia).
  rewrite (read_digits_text rest (Z.of_nat d) Hrest).
  reflexivity.
Qed.

Lemma nat_of_digit_char (d : nat) :
  d < 10 -> nat_of_ascii (digit_char d) = 48 + d.
Proof. intro H. each_digit d H. Qed.

(** [read_decimal] reads the digits and stops at the text [rest] when
    [rest] does not start with a digit. *)
Lemma read_decimal_text (ds : list nat) (rest : string) (value : Z)
  (count : nat) :
  Forall (fun d => d < 10) ds ->
  (forall v c, JS.read_decimal rest v c = (v, c, rest)) ->
  JS.read_decimal (digits_text ds ++ rest) value count
  = (digits_value ds value, count + List.length ds, rest).
Proof.
  intros H Hrest. revert value count.
  induction H as [|d ds' Hd _ IH]; intros value count;
    cbn [digits_text append digits_value List.length].
  - rewrite Nat.add_0_r. apply Hrest.
  - cbn [JS.read_decimal]. rewrite (nat_of_digit_char d Hd).
    replace ((48 <=? 48 + d) && (48 + d <=? 57))%nat with true.
    + replace (48 + d - 48) with d by lia.
      rewrite IH. f_equal. f_equal. lia.
    + symmetry. apply andb_true_iff. split; apply Nat.leb_le; lia.
Qed.

Lemma not_infinity_text (d : nat) (rest : string) :
  d < 10 -> prefix "Infinity" (String (digit_char d) rest) = false.
Proof.
  intro H. apply StringFacts.prefix_mismatch.
  destruct (Ascii.eqb_spec (digit_char d) "I") as [E | E]; [|reflexivity].
  pose proof (nat_of_digit_char d H) as Hn. rewrite E in Hn.
  cbn in Hn. lia.
Qed.

(** [parseFloat] of a field [digits.digits] is the Number nearest to the
    decimal it denotes. *)
Lemma parseFloat_decimal (ip fp : list nat) :
  decimal_digits ip ->
  decimal_digits fp ->
  JS.parseFloat (VStr (digits_text ip ++ "." ++ digits_text fp))
  = of_decimal (digits_value fp (digits_value ip 0))
               (- Z.of_nat (List.length fp)).
Proof.
  intros [Hne Hip] [Hnf Hfp].
  unfold JS.parseFloat, JS.parseFloat_string. cbn [JS.to_string].
  destruct Hip as [|d ip' Hd Hip']; [contradiction|].
  cbn [digits_text append JSString.trimStart].
  rewrite (digit_char_not_whitespace d Hd), (read_sign_digit d _ Hd).
  rewrite (not_infinity_text d _ Hd).
  change (String (digit_char d) (digits_text ip' ++ String "." (digits_text fp)))
    with (digits_text (d :: ip') ++ String "." (digits_text fp))%string.
  rewrite read_decimal_text;
    [ | constructor; assumption | intros v c; reflexivity ].
  rewrite <- (StringFacts.append_empty (digits_text fp)).
  rewrite read_decimal_text; [ | exact Hfp | intros v c; reflexivity ].
  destruct fp as [|f fp']; [contradiction|].
  cbn [List.length Nat.add JS.read_exponent Z.sub].
  reflexivity.
Qed.

(** *** What the helpers of the route do tolerate *)

Lemma or_falsy (v fallback : JSValue) :
  JS.truthy v = false -> JS.or v fallback = fallback.
Proof. intro H. unfold JS.or. rewrite H. reflexivity. Qed.

(** A missing key, [null], the empty text, 0 and NaN parse to 0. *)
Lemma amdParseInt_falsy (value : JSValue) :
  JS.truthy value = false -> Route.amdParseInt value = zero.
Proof.
  intro H. unfold Route.amdParseInt. rewrite (or_falsy value _ H).
  vm_compute. reflexivity.
Qed.

Lemma amdParseFloat_falsy (value : JSValue) :
  JS.truthy value = false -> Route.amdParseFloat value = zero.
Proof.
  intro H. unfold Route.amdParseFloat. rewrite (or_falsy value _ H).
  vm_compute. reflexivity.
Qed.

(** C3: on the text "N/A" the helpers of [route.ts] return NaN, and on
    "Infinity" [amdParseFloat] returns an infinity: both are non-finite,
    where the tolerant parse is to substitute 0.  The hardened helpers
    return 0 on the same inputs. *)
Theorem amdParse_not_tolerant :
  Route.amdParseInt (VStr "N/A") = NaN
  /\ Route.amdParseFloat (VStr "N/A") = NaN
  /\ Route.amdParseFloat (VStr "Infinity") = Infinity
  /\ isFinite (Route.amdParseInt (VStr "N/A")) = false
  /\ Hardened.amdParseInt (VStr "N/A") = zero
  /\ Hardened.amdParseFloat (VStr "N/A") = zero
  /\ Hardened.amdParseFloat (VStr "Infinity") = zero.
Proof. vm_compute. repeat split; reflexivity. Qed.

End ParseFacts.

(** ** The NVIDIA adapter *)

Module NvidiaFacts.

Import JSNumber Spec.
Local Open Scope string_scope.

Lemma well_formed_field_inv (f : string) :
  well_formed_field f = true ->
  starts_clean f = true /\ ends_clean f = true
  /\ has_char "," f = false /\ has_char JSString.LF f = false.
Proof.
  unfold well_formed_field. intro H.
  apply andb_true_iff in H as [H Hlf].
  apply andb_true_iff in H as [H Hcomma].
  apply andb_true_iff in H as [Hstart Hend].
  apply negb_true_iff in Hlf, Hcomma. repeat split; assumption.
Qed.

Lemma well_formed_row_fields (row : list string) (P : string -> Prop) :
  (forall f, well_formed_field f = true -> P f) ->
  well_formed_row row -> Forall P row.
Proof.
  intros HP [_ H]. induction H as [|f rest Hf _ IH]; constructor.
  - exact (HP f Hf).
  - exact IH.
Qed.

Lemma well_formed_row_nonempty (row : list string) :
  well_formed_row row -> row <> [].
Proof. intros [Hlen _] ->. discriminate Hlen. Qed.

Lemma map_trim_row (row : list string) :
  well_formed_row row -> map JSString.trim row = row.
Proof.
  intros [_ H]. induction H as [|f rest Hf _ IH]; cbn [map].
  - reflexivity.
  - destruct (well_formed_field_inv f Hf) as (Hs & He & _ & _).
    rewrite (StringFacts.trim_clean f Hs He), IH. reflexivity.
Qed.

(** The callback of [getGpuStats] on the text of a well-formed row. *)
Lemma parse_line_row (row : list string) :
  well_formed_row row ->
  Route.parse_line (line_of row) = record_of_items row.
Proof.
  intro H. unfold Route.parse_line.
  rewrite (StringFacts.split_line_of row (well_formed_row_nonempty row H)).
  - rewrite (map_trim_row row H). reflexivity.
  - apply (well_formed_row_fields row); [|exact H].
    intros f Hf. apply (well_formed_field_inv f Hf).
Qed.

Lemma line_of_clean (row : list string) :
  well_formed_row row ->
  starts_clean (line_of row) = true
  /\ ends_clean (line_of row) = true
  /\ has_char JSString.LF (line_of row) = false.
Proof.
  intro H. pose proof (well_formed_row_nonempty row H) as Hne.
  unfold line_of. repeat split.
  - apply StringFacts.concat_starts_clean; [exact Hne|].
    apply (well_formed_row_fields row); [|exact H].
    intros f Hf. apply (well_formed_field_inv f Hf).
  - apply StringFacts.concat_ends_clean; [exact Hne|].
    apply (well_formed_row_fields row); [|exact H].
    intros f Hf. apply (well_formed_field_inv f Hf).
  - apply StringFacts.concat_has_char; [reflexivity|].
    apply (well_formed_row_fields row); [|exact H].
    intros f Hf. apply (well_formed_field_inv f Hf).
Qed.

Lemma lines_of_rows (rows : list (list string)) (P : string -> Prop) :
  (forall row, well_formed_row row -> P (line_of row)) ->
  Forall well_formed_row rows -> Forall P (map line_of rows).
Proof.
  intros HP H. induction H as [|row rest Hrow _ IH]; cbn [map]; constructor.
  - exact (HP row Hrow).
  - exact IH.
Qed.

Lemma map_parse_line_rows (rows : list (list string)) :
  Forall well_formed_row rows ->
  map Route.parse_line (map line_of rows) = map record_of_items rows.
Proof.
  intro H. induction H as [|row rest Hrow _ IH]; cbn [map].
  - reflexivity.
  - rewrite (parse_line_row row Hrow), IH. reflexivity.
Qed.

(** The records of a well-formed output, after any trailing white space
    (the tool ends its last line with a line feed). *)
Lemma parse_gpu_stats_rows (rows : list (list string)) (tail : string) :
  rows <> [] ->
  Forall well_formed_row rows ->
  all_whitespace tail = true ->
  Route.parse_gpu_stats (text_of rows ++ tail) = map record_of_items rows.
Proof.
  intros Hne Hrows Htail. unfold Route.parse_gpu_stats, text_of.
  assert (Hlines : map line_of rows <> []).
  { destruct rows; [contradiction | discriminate]. }
  rewrite StringFacts.trim_clean_tail.
  - rewrite StringFacts.split_lines.
    + exact (map_parse_line_rows rows Hrows).
    + exact Hlines.
    + apply (lines_of_rows rows); [|exact Hrows].
      intros row Hrow. apply (line_of_clean row Hrow).
  - apply StringFacts.concat_starts_clean; [exact Hlines|].
    apply (lines_of_rows rows); [|exact Hrows].
    intros row Hrow. apply (line_of_clean row Hrow).
  - apply StringFacts.concat_ends_clean; [exact Hlines|].
    apply (lines_of_rows rows); [|exact Hrows].
    intros row Hrow. apply (line_of_clean row Hrow).
  - exact Htail.
Qed.

Lemma element_at (row : list string) (k : nat) (f : string) :
  nth_error row k = Some f -> element row k = VStr f.
Proof. intro H. unfold element. rewrite H. reflexivity. Qed.

(** C9, as the claim states it, fails for N = 0: the output without any
    line is the empty text, all its lines (there is none) are well formed,
    and [getGpuStats] returns one record for it, not none. *)
Lemma no_line_one_record :
  Forall well_formed_row []
  /\ text_of [] = ""
  /\ Route.getGpuStats (Host.nvidia (Host.Exits0 (text_of []))) false
     = Ok [blank_record]
  /\ List.length [blank_record] = 1
  /\ List.length (@nil (list string)) = 0.
Proof.
  split; [constructor|]. split; [reflexivity|].
  split; [vm_compute; reflexivity|]. split; reflexivity.
Qed.

(** C9, amended: when the NVIDIA tool prints N well-formed lines, N being
    at least 1 (fourteen fields a line, joined with ", ", each field free of
    commas, line feeds and surrounding white space), [getGpuStats] returns
    N records, in the order of the lines, the record of a line being its
    fields parsed by
    [parseInt] and [parseFloat] (the name and the driver version are kept as
    text): a field of decimal digits parses to the Number of that integer,
    a field [digits.digits] to the Number nearest to that decimal.  In
    particular the line of the RTX 4090 gives one record with index 0, name
    "RTX 4090", temperature 45, GPU utilisation 12, 4576 MiB used and a
    power draw of 120.5 W. *)
Theorem well_formed_output_records
  (env : Env) (isWindows : bool) (rows : list (list string)) (tail : string) :
  rows <> [] ->
  Forall well_formed_row rows ->
  all_whitespace tail = true ->
  execAsync env Route.nvidia_command = Ok (text_of rows ++ tail) ->
  Route.getGpuStats env isWindows = Ok (map record_of_items rows)
  /\ List.length (map record_of_items rows) = List.length rows
  /\ (forall row k ds,
        nth_error row k = Some (digits_text ds) ->
        decimal_digits ds ->
        JS.parseInt (element row k) = of_Z (digits_value ds 0))
  /\ (forall row k ip fp,
        nth_error row k = Some (digits_text ip ++ "." ++ digits_text fp) ->
        decimal_digits ip ->
        decimal_digits fp ->
        JS.parseFloat (element row k)
        = of_decimal (digits_value fp (digits_value ip 0))
                     (- Z.of_nat (List.length fp)))
  /\ Route.parse_gpu_stats rtx4090_line = [rtx4090_record].
Proof.
  intros Hne Hrows Htail Hexec. split; [|split; [|split; [|split]]].
  - unfold Route.getGpuStats. rewrite Hexec. cbn [bind].
    rewrite (parse_gpu_stats_rows rows tail Hne Hrows Htail). reflexivity.
  - apply length_map.
  - intros row k ds Hk Hds. rewrite (element_at row k _ Hk).
    exact (ParseFacts.parseInt_digits ds Hds).
  - intros row k ip fp Hk Hip Hfp. rewrite (element_at row k _ Hk).
    exact (ParseFacts.parseFloat_decimal ip fp Hip Hfp).
  - vm_compute. reflexivity.
Qed.

(** Two devices, the second line ended by a line feed. *)
Lemma well_formed_output_records_witness :
  Route.getGpuStats
    (Host.nvidia
       (Host.Exits0 (text_of two_gpu_rows ++ String JSString.LF "")))
    false
  = Ok (map record_of_items two_gpu_rows)
  /\ List.length (map record_of_items two_gpu_rows) = List.length two_gpu_rows
  /\ (forall row k ds,
        nth_error row k = Some (digits_text ds) ->
        decimal_digits ds ->
        JS.parseInt (element row k) = of_Z (digits_value ds 0))
  /\ (forall row k ip fp,
        nth_error row k = Some (digits_text ip ++ "." ++ digits_text fp) ->
        decimal_digits ip ->
        decimal_digits fp ->
        JS.parseFloat (element row k)
        = of_decimal (digits_value fp (digits_value ip 0))
                     (- Z.of_nat (List.length fp)))
  /\ Route.parse_gpu_stats rtx4090_line = [rtx4090_record].
Proof.
  apply (well_formed_output_records
           (Host.nvidia
              (Host.Exits0 (text_of two_gpu_rows ++ String JSString.LF "")))
           false two_gpu_rows (String JSString.LF "")).
  - discriminate.
  - repeat constructor.
  - reflexivity.
  - vm_compute. reflexivity.
Defined.

(** The two devices of [two_gpu_rows], as [getGpuStats] returns them. *)
Example two_gpu_records :
  map record_of_items two_gpu_rows
  = [ rtx4090_record;
      {| index := 1%float;
         name := VStr "RTX 3060";
         driverVersion := VStr "535.1";
         temperature := 38%float;
         utilization :=
           {| Utilization.gpu := 0%float; Utilization.memory := 0%float |};
         memory :=
           {| Memory.total := 12288%float;
              Memory.free := 12000%float;
              Memory.used := 288%float |};
         power := {| Power.draw := 15.25%float; Power.limit := 170%float |};
         clocks :=
           {| Clocks.graphics := 210%float; Clocks.memory := 405%float |};
         fan := {| Fan.speed := 0%float |} |} ].
Proof. vm_compute. reflexivity. Qed.

(** The power draw of the RTX 4090 line, read digit by digit. *)
Example power_draw_digits :
  JS.parseFloat (VStr (digits_text [1; 2; 0] ++ "." ++ digits_text [5]))
  = 120.5%float
  /\ JS.parseInt (VStr (digits_text [2; 4; 5; 7; 6])) = 24576%float.
Proof.
  rewrite ParseFacts.parseFloat_decimal, ParseFacts.parseInt_digits.
  - vm_compute. split; reflexivity.
  - split; [discriminate | repeat constructor].
  - split; [discriminate | repeat constructor].
  - split; [discriminate | repeat constructor].
Qed.

(** C10: when the NVIDIA tool prints nothing but white space,
    [getGpuStats] returns exactly one record, built from an empty first
    field and thirteen missing ones: NaN in every numeric field except the
    fan speed, which is 0, and no name. *)
Theorem blank_output_one_record (env : Env) (isWindows : bool) (stdout : string) :
  execAsync env Route.nvidia_command = Ok stdout ->
  all_whitespace stdout = true ->
  Route.getGpuStats env isWindows = Ok [blank_record].
Proof.
  intros Hexec Hblank.
  unfold Route.getGpuStats, Route.parse_gpu_stats.
  rewrite Hexec. cbn [bind].
  rewrite (StringFacts.trim_blank stdout Hblank).
  vm_compute. reflexivity.
Qed.

Lemma blank_output_one_record_witness :
  Route.getGpuStats (Host.nvidia (Host.Exits0 (String " " (String JSString.LF ""))))
    false = Ok [blank_record].
Proof.
  apply (blank_output_one_record
           (Host.nvidia (Host.Exits0 (String " " (String JSString.LF ""))))
           false (String " " (String JSString.LF ""))).
  - vm_compute. reflexivity.
  - vm_compute. reflexivity.
Defined.

(** C5: a line whose temperature column reads "N/A" gives a record whose
    temperature is NaN, not 0; the other fields are those of the line and
    the record is kept.  Only the fan speed, parsed with [|| 0], falls back
    to 0. *)
Theorem malformed_field_is_nan :
  Route.parse_gpu_stats
    "0, RTX 4090, 535.1, N/A, 12, 3, 24576, 20000, 4576, 120.5, 450.0, 2500, 10000, N/A"
  = [ {| index := of_Z 0;
         name := VStr "RTX 4090";
         driverVersion := VStr "535.1";
         temperature := NaN;
         utilization :=
           {| Utilization.gpu := of_Z 12; Utilization.memory := of_Z 3 |};
         memory :=
           {| Memory.total := of_Z 24576;
              Memory.free := of_Z 20000;
              Memory.used := of_Z 4576 |};
         power :=
           {| Power.draw := of_decimal 1205 (-1); Power.limit := of_Z 450 |};
         clocks :=
           {| Clocks.graphics := of_Z 2500; Clocks.memory := of_Z 10000 |};
         fan := {| Fan.speed := zero |} |} ].
Proof. vm_compute. reflexivity. Qed.

End NvidiaFacts.

(** ** The orchestrator *)

Module OrchestratorFacts.

Import JSNumber Spec.
Local Open Scope string_scope.

Lemma getCpuStats_ok (env : Env) (data : CpuData) :
  systeminformation_cpu env = Ok data ->
  Route.getCpuStats env = Some (cpu_summary data).
Proof. intro H. unfold Route.getCpuStats. rewrite H. reflexivity. Qed.

Lemma GET_of_throw (env : Env) (e : JSError) :
  Route.respond env = Throw e -> Route.GET env = failure_response e.
Proof. intro H. unfold Route.GET. rewrite H. reflexivity. Qed.

(** A detector answers [true] exactly when its probe command succeeds. *)
Lemma checkNvidiaSmi_probe (env : Env) (w : bool) :
  Route.checkNvidiaSmi env w = true
  <-> exists out, execAsync env (nvidia_probe w) = Ok out.
Proof.
  unfold Route.checkNvidiaSmi, nvidia_probe.
  destruct (execAsync env (if w then "nvidia-smi -L" else "which nvidia-smi"))
    as [out|e]; cbn [bind try_catch]; split.
  - intros _. exists out. reflexivity.
  - reflexivity.
  - discriminate.
  - intros [out H]. discriminate H.
Qed.

Lemma checkAmdSmi_probe (env : Env) (w : bool) :
  Route.checkAmdSmi env w = true
  <-> exists out, execAsync env (amd_probe w) = Ok out.
Proof.
  unfold Route.checkAmdSmi, amd_probe.
  destruct (execAsync env (if w then "amd-smi --help"
                           else "which rocm-smi || which amd-smi"))
    as [out|e]; cbn [bind try_catch]; split.
  - intros _. exists out. reflexivity.
  - reflexivity.
  - discriminate.
  - intros [out H]. discriminate H.
Qed.

Lemma checkNvidiaSmi_absent (env : Env) (w : bool) (e : JSError) :
  execAsync env (nvidia_probe w) = Throw e ->
  Route.checkNvidiaSmi env w = false.
Proof.
  unfold Route.checkNvidiaSmi, nvidia_probe. intros ->. reflexivity.
Qed.

Lemma checkAmdSmi_absent (env : Env) (w : bool) (e : JSError) :
  execAsync env (amd_probe w) = Throw e ->
  Route.checkAmdSmi env w = false.
Proof.
  unfold Route.checkAmdSmi, amd_probe. intros ->. reflexivity.
Qed.

(** C8: [GET] always returns an envelope, with at most one capability flag
    set.  A tool is detected exactly when its probe command succeeds
    ([which nvidia-smi] or [nvidia-smi -L]; [which rocm-smi || which
    amd-smi] or [amd-smi --help]).  When the adapter of the detected tool
    throws (a query that is rejected, for one), the envelope has both flags
    false, no device, the error message and status 500.  When both probe
    commands are rejected, no tool is present: the envelope has both flags
    false, no device, no error, status 200 and the [cpu] key set to what the
    CPU adapter returned, which is the summary of the host's CPU whenever
    [systeminformation] answers. *)
Theorem GET_envelope (env : Env) :
  let w := is_windows env in
  hasNvidiaSmi (Route.GET env) && hasAmdSmi (Route.GET env) = false
  /\ (Route.checkNvidiaSmi env w = true
      <-> exists out, execAsync env (nvidia_probe w) = Ok out)
  /\ (Route.checkAmdSmi env w = true
      <-> exists out, execAsync env (amd_probe w) = Ok out)
  /\ (forall e,
        (Route.checkNvidiaSmi env w = true
         /\ Route.getGpuStats env w = Throw e)
        \/ (Route.checkNvidiaSmi env w = false
            /\ Route.checkAmdSmi env w = true
            /\ Route.getAMDGpuStats env w = Throw e) ->
        Route.GET env = failure_response e)
  /\ (forall out e,
        execAsync env (nvidia_probe w) = Ok out ->
        execAsync env Route.nvidia_command = Throw e ->
        Route.GET env = failure_response e)
  /\ (forall e_nvidia out e,
        execAsync env (nvidia_probe w) = Throw e_nvidia ->
        execAsync env (amd_probe w) = Ok out ->
        execAsync env Route.amd_command = Throw e ->
        Route.GET env = failure_response e)
  /\ (Route.checkNvidiaSmi env w = false ->
      Route.checkAmdSmi env w = false ->
      Route.GET env = cpu_response (Route.getCpuStats env)
      /\ forall data, systeminformation_cpu env = Ok data ->
                      Route.GET env = cpu_response (Some (cpu_summary data)))
  /\ (forall e_nvidia e_amd,
        execAsync env (nvidia_probe w) = Throw e_nvidia ->
        execAsync env (amd_probe w) = Throw e_amd ->
        Route.GET env = cpu_response (Route.getCpuStats env)
        /\ (forall data, systeminformation_cpu env = Ok data ->
                         Route.GET env = cpu_response (Some (cpu_summary data)))
        /\ (forall e, systeminformation_cpu env = Throw e ->
                      Route.GET env = cpu_response None)).
Proof.
  intro w.
  assert (Hfail : forall e,
            (Route.checkNvidiaSmi env w = true
             /\ Route.getGpuStats env w = Throw e)
            \/ (Route.checkNvidiaSmi env w = false
                /\ Route.checkAmdSmi env w = true
                /\ Route.getAMDGpuStats env w = Throw e) ->
            Route.GET env = failure_response e).
  { unfold Route.GET, Route.respond. fold (is_windows env). fold w.
    intros e [[Hn Hq] | [Hn [Ha Hq]]].
    - rewrite Hn, Hq. reflexivity.
    - rewrite Hn, Ha, Hq. reflexivity. }
  assert (Habsent : Route.checkNvidiaSmi env w = false ->
                    Route.checkAmdSmi env w = false ->
                    Route.GET env = cpu_response (Route.getCpuStats env)).
  { unfold Route.GET, Route.respond. fold (is_windows env). fold w.
    intros Hn Ha. rewrite Hn, Ha. reflexivity. }
  split; [|split; [|split; [|split; [|split; [|split; [|split]]]]]].
  - unfold Route.GET, Route.respond. fold (is_windows env). fold w.
    destruct (Route.checkNvidiaSmi env w).
    + destruct (Route.getGpuStats env w); reflexivity.
    + destruct (Route.checkAmdSmi env w).
      * destruct (Route.getAMDGpuStats env w); reflexivity.
      * reflexivity.
  - apply checkNvidiaSmi_probe.
  - apply checkAmdSmi_probe.
  - exact Hfail.
  - intros out e Hprobe Hquery. apply Hfail. left. split.
    + apply checkNvidiaSmi_probe. exists out. exact Hprobe.
    + unfold Route.getGpuStats. rewrite Hquery. reflexivity.
  - intros e_nvidia out e Hn Hprobe Hquery. apply Hfail. right.
    split; [|split].
    + exact (checkNvidiaSmi_absent env w e_nvidia Hn).
    + apply checkAmdSmi_probe. exists out. exact Hprobe.
    + unfold Route.getAMDGpuStats. rewrite Hquery. reflexivity.
  - intros Hn Ha. split; [exact (Habsent Hn Ha)|].
    intros data Hcpu. rewrite (Habsent Hn Ha).
    rewrite (getCpuStats_ok env data Hcpu). reflexivity.
  - intros e_nvidia e_amd Hn Ha.
    pose proof (Habsent (checkNvidiaSmi_absent env w e_nvidia Hn)
                        (checkAmdSmi_absent env w e_amd Ha)) as HGET.
    split; [exact HGET|]. split.
    + intros data Hcpu. rewrite HGET.
      rewrite (getCpuStats_ok env data Hcpu). reflexivity.
    + intros e Hcpu. rewrite HGET. unfold Route.getCpuStats.
      rewrite Hcpu. reflexivity.
Qed.

(** A host without any tool, whose CPU answers: the CPU response.  A host
    whose NVIDIA tool is found and whose query exits with status 9: the
    error envelope. *)
Lemma GET_envelope_witness :
  Route.GET (Host.bare (Ok ryzen)) = cpu_response (Some (cpu_summary ryzen))
  /\ Route.GET (Host.nvidia (Host.Fails 9))
     = failure_response
         (ExecError ("Command failed: " ++ Route.nvidia_command)).
Proof.
  split.
  - pose proof (GET_envelope (Host.bare (Ok ryzen))) as H. cbv zeta in H.
    destruct H as (_ & _ & _ & _ & _ & _ & _ & Habsent).
    destruct (Habsent
                (ExecError "Command failed: which nvidia-smi")
                (ExecError "Command failed: which rocm-smi || which amd-smi")
                eq_refl eq_refl)
      as (_ & Hcpu & _).
    exact (Hcpu ryzen eq_refl).
  - pose proof (GET_envelope (Host.nvidia (Host.Fails 9))) as H.
    cbv zeta in H.
    destruct H as (_ & _ & _ & _ & Hquery & _).
    exact (Hquery "/usr/bin/nvidia-smi"
             (ExecError ("Command failed: " ++ Route.nvidia_command))
             eq_refl eq_refl).
Defined.

(** The three ways of the orchestrator, on hosts. *)

(** No tool: the CPU summary (scenario 2). *)
Example GET_without_tools :
  Route.GET (Host.bare (Ok ryzen))
  = cpu_response
      (Some {| cpu_name := "AMD Ryzen 9 7950X";
               cpu_cores := 32%float;
               cpu_speed := 4.5%float;
               cpu_temperature := VNum 0%float |})
  /\ Route.GET (Host.bare Host.no_cpu_data) = cpu_response None.
Proof. vm_compute. split; reflexivity. Qed.

(** The NVIDIA tool: its devices (scenario 1), or the error envelope when
    the query fails. *)
Example GET_with_nvidia :
  Route.GET (Host.nvidia (Host.Exits0 (rtx4090_line ++ String JSString.LF "")))
  = {| hasNvidiaSmi := true; hasAmdSmi := false; gpus := [rtx4090_record];
       cpu := None; error := None; status := 200 |}
  /\ Route.GET (Host.nvidia (Host.Fails 9))
    = failure_response
        (ExecError ("Command failed: " ++ Route.nvidia_command)).
Proof. vm_compute. split; reflexivity. Qed.

(** The AMD tool: one MI300 and an empty metric answer (scenario 3). *)
Example GET_with_amd :
  Route.GET
    (Host.amd (Host.Exits0 mi300_static_text)
              (Host.Exits0 ("[]" ++ String JSString.LF "")))
  = {| hasNvidiaSmi := false; hasAmdSmi := true; gpus := [mi300_zeroed];
       cpu := None; error := None; status := 200 |}.
Proof. vm_compute. reflexivity. Qed.

End OrchestratorFacts.

(** ** The AMD adapter *)

Module AmdFacts.

Import JSNumber Spec.
Local Open Scope string_scope.

Lemma truthy_not_nullish (v : JSValue) :
  JS.truthy v = true -> not_nullish v.
Proof. destruct v; cbn; intro H; reflexivity || discriminate H. Qed.

Lemma get_not_nullish (v : JSValue) (key : string) :
  not_nullish v -> JS.get v key = Ok (JS.get_opt v key).
Proof. destruct v; cbn; intro H; reflexivity || discriminate H. Qed.

Lemma or_truthy (v fallback : JSValue) :
  JS.truthy fallback = true -> JS.truthy (JS.or v fallback) = true.
Proof.
  intro H. unfold JS.or. destruct (JS.truthy v) eqn:Hv; assumption.
Qed.

Lemma metric_of_not_nullish (metricGpus : list JSValue) (i : number) :
  not_nullish (metric_of metricGpus i).
Proof. apply truthy_not_nullish, or_truthy. reflexivity. Qed.

(** *** Values that [ToString] converts *)

Lemma printable_stringifiable :
  forall v, printable v = true -> JS.stringifiable v = true.
Proof.
  fix IH 1. intros [ | | b | n | s | elements | properties] H;
    try reflexivity.
  - cbn [printable JS.stringifiable] in *.
    induction elements as [|element rest IHrest]; [reflexivity|].
    cbn [forallb] in *. apply andb_true_iff in H as [He Hrest].
    rewrite (IH element He). exact (IHrest Hrest).
  - cbn [printable JS.stringifiable] in *.
    induction properties as [|[key value] rest IHrest]; [reflexivity|].
    cbn [forallb existsb fst snd] in *.
    apply andb_true_iff in H as [Hkv Hrest].
    apply andb_true_iff in Hkv as [Hkey _].
    apply negb_true_iff in Hkey. rewrite Hkey. exact (IHrest Hrest).
Qed.

Lemma printable_lookup (key : string) (properties : list (string * JSValue)) :
  printable (VObj properties) = true ->
  printable (JS.lookup key properties) = true.
Proof.
  cbn [printable].
  induction properties as [|[k v] rest IH]; cbn [forallb JS.lookup fst snd];
    intro H; [reflexivity|].
  apply andb_true_iff in H as [Hkv Hrest].
  apply andb_true_iff in Hkv as [_ Hv].
  destruct (String.eqb k key); [exact Hv | exact (IH Hrest)].
Qed.

Lemma printable_get_opt (v : JSValue) (key : string) :
  printable v = true -> printable (JS.get_opt v key) = true.
Proof.
  destruct v; intro H; try reflexivity.
  exact (printable_lookup key properties H).
Qed.

Lemma printable_or (a b : JSValue) :
  printable a = true -> printable b = true -> printable (JS.or a b) = true.
Proof. intros Ha Hb. unfold JS.or. destruct (JS.truthy a); assumption. Qed.

Lemma printable_nth_N (l : list JSValue) (i : N) (v : JSValue) :
  forallb printable l = true -> JS.nth_N l i = Some v -> printable v = true.
Proof.
  revert i. induction l as [|a rest IH]; intros i H Hi; cbn [JS.nth_N] in Hi.
  - discriminate Hi.
  - cbn [forallb] in H. apply andb_true_iff in H as [Ha Hrest].
    destruct (N.eqb i 0).
    + injection Hi as <-. exact Ha.
    + exact (IH (N.pred i) Hrest Hi).
Qed.

Lemma printable_metric_of (metricGpus : list JSValue) (i : number) :
  forallb printable metricGpus = true ->
  printable (metric_of metricGpus i) = true.
Proof.
  intro H. unfold metric_of. apply printable_or; [|reflexivity].
  unfold JS.at_number. destruct (to_index i) as [position|]; [|reflexivity].
  destruct (JS.nth_N metricGpus position) as [v|] eqn:Hv; [|reflexivity].
  exact (printable_nth_N metricGpus position v H Hv).
Qed.

(** The devices of a printable answer are printable. *)
Lemma printable_device_list (data : JSValue) (devices : list JSValue) :
  printable data = true ->
  Route.device_list data = Ok devices ->
  forallb printable devices = true.
Proof.
  intros Hp H. unfold Route.device_list in H.
  destruct data; cbn [JS.get bind JS.isArray elements_of] in H;
    try discriminate H; try (injection H as <-; reflexivity).
  - injection H as <-. exact Hp.
  - injection H as <-.
    pose proof (printable_lookup "gpu_data" properties Hp) as Hg.
    destruct (JS.lookup "gpu_data" properties); try reflexivity.
    exact Hg.
Qed.

(** *** Calls of the two helpers *)

Lemma call_printable (helper : JSValue -> number) (value : JSValue) :
  printable value = true -> Route.call helper value = Ok (helper value).
Proof.
  intro H. unfold Route.call, JS.ToString.
  rewrite (printable_stringifiable _
             (printable_or value number_zero H eq_refl)).
  reflexivity.
Qed.

Lemma call_returned (helper : JSValue -> number) (value : JSValue)
  (n : number) :
  Route.call helper value = Ok n -> n = helper value.
Proof.
  unfold Route.call, JS.ToString.
  destruct (JS.stringifiable (JS.or value number_zero)); cbn [bind]; intro H.
  - injection H as <-. reflexivity.
  - discriminate H.
Qed.

Lemma call_thrown (helper : JSValue -> number) (value : JSValue)
  (e : JSError) :
  Route.call helper value = Throw e ->
  e = TypeError "Cannot convert object to primitive value".
Proof.
  unfold Route.call, JS.ToString.
  destruct (JS.stringifiable (JS.or value number_zero)); cbn [bind]; intro H.
  - discriminate H.
  - injection H as <-. reflexivity.
Qed.

(** One step of the callback, in a hypothesis that it returned: a property
    read on a value that is not [null], or a call of a helper. *)
Ltac callback_returned H :=
  cbn [bind] in H;
  lazymatch type of H with
  | bind (JS.get ?v ?key) _ = _ =>
      rewrite (get_not_nullish v key) in H by assumption
  | bind (Route.call ?helper ?value) _ = _ =>
      let n := fresh "n" in
      let E := fresh "E" in
      destruct (Route.call helper value) as [n|] eqn:E;
      [apply call_returned in E; subst n | discriminate H]
  end.

(** What the callback returned, when it returned. *)
Lemma join_record_returned (metricGpus : list JSValue) (d : JSValue)
  (p : nat) (r : GpuStats) :
  Route.join_record metricGpus d p = Ok r ->
  not_nullish d /\ r = joined metricGpus d p.
Proof.
  intro H.
  assert (Hd : not_nullish d).
  { destruct d; try reflexivity; discriminate H. }
  split; [exact Hd|].
  pose proof (metric_of_not_nullish metricGpus (looked_up_index d p)) as Hg.
  unfold metric_of, looked_up_index in Hg.
  unfold Route.join_record in H.
  repeat callback_returned H.
  cbn [bind] in H. injection H as <-. reflexivity.
Qed.

(** Past the first access [d.gpu], the callback throws only where
    [ToString] does: on a printable record and printable metrics it
    returns. *)
Lemma join_record_joined (metricGpus : list JSValue) (d : JSValue) (p : nat) :
  not_nullish d ->
  printable d = true ->
  forallb printable metricGpus = true ->
  Route.join_record metricGpus d p = Ok (joined metricGpus d p).
Proof.
  intros Hd Hpd Hpm.
  pose proof (metric_of_not_nullish metricGpus (looked_up_index d p)) as Hg.
  pose proof (printable_metric_of metricGpus (looked_up_index d p) Hpm) as Hpg.
  unfold metric_of, looked_up_index in Hg, Hpg.
  unfold Route.join_record.
  repeat
    (cbn [bind];
     lazymatch goal with
     | |- bind (JS.get ?v ?key) _ = _ =>
         rewrite (get_not_nullish v key) by assumption
     | |- bind (Route.call ?helper ?value) _ = _ =>
         rewrite (call_printable helper value)
           by (apply printable_or;
               [repeat apply printable_get_opt; assumption | reflexivity])
     end).
  cbn [bind]. reflexivity.
Qed.

Lemma join_record_null (metricGpus : list JSValue) (p : nat) :
  Route.join_record metricGpus VNull p
  = Throw (TypeError "Cannot read properties of null (reading 'gpu')").
Proof. reflexivity. Qed.

Lemma map_indexed_joined (metricGpus devices : list JSValue) (p : nat) :
  Forall not_nullish devices ->
  forallb printable devices = true ->
  forallb printable metricGpus = true ->
  map_indexed (Route.join_record metricGpus) devices p
  = Ok (joined_from metricGpus devices p).
Proof.
  intros H Hpd Hpm. revert p.
  induction H as [|d rest Hd _ IH]; intro p; cbn [map_indexed joined_from].
  - reflexivity.
  - cbn [forallb] in Hpd. apply andb_true_iff in Hpd as [Hp Hprest].
    rewrite (join_record_joined metricGpus d p Hd Hp Hpm). cbn [bind].
    rewrite (IH Hprest). reflexivity.
Qed.

Lemma map_indexed_returned (metricGpus devices : list JSValue) (p : nat)
  (records : list GpuStats) :
  map_indexed (Route.join_record metricGpus) devices p = Ok records ->
  Forall not_nullish devices /\ records = joined_from metricGpus devices p.
Proof.
  revert p records.
  induction devices as [|d rest IH]; intros p records H;
    cbn [map_indexed joined_from] in *.
  - injection H as <-. split; [constructor | reflexivity].
  - destruct (Route.join_record metricGpus d p) as [r|e] eqn:Hr;
      [|discriminate H].
    cbn [bind] in H.
    destruct (map_indexed (Route.join_record metricGpus) rest (S p))
      as [rs|e] eqn:Hrest; [|discriminate H].
    cbn [bind] in H. injection H as <-.
    destruct (join_record_returned metricGpus d p r Hr) as [Hd ->].
    destruct (IH (S p) rs Hrest) as [Hds ->].
    split; [constructor; assumption | reflexivity].
Qed.

(** The filter [g.index !== undefined] keeps every record: an index is a
    Number. *)
Lemma filter_keeps_all (records : list GpuStats) :
  filter (fun g => JS.is_not_undefined (VNum (index g))) records = records.
Proof.
  induction records as [|r rest IH]; simpl.
  - reflexivity.
  - f_equal. exact IH.
Qed.

Lemma joined_from_length (metricGpus devices : list JSValue) (p : nat) :
  List.length (joined_from metricGpus devices p) = List.length devices.
Proof.
  revert p. induction devices as [|d rest IH]; intro p; cbn.
  - reflexivity.
  - rewrite IH. reflexivity.
Qed.

Lemma joined_from_nth (metricGpus devices : list JSValue) (p k : nat) :
  nth_error (joined_from metricGpus devices p) k
  = option_map (fun d => joined metricGpus d (p + k)) (nth_error devices k).
Proof.
  revert p k. induction devices as [|d rest IH]; intros p k.
  - destruct k; reflexivity.
  - destruct k as [|k]; cbn [joined_from nth_error option_map].
    + rewrite Nat.add_0_r. reflexivity.
    + rewrite IH. rewrite Nat.add_succ_comm. reflexivity.
Qed.

Lemma nth_N_past_end {A : Type} (l : list A) (n : N) :
  (N.of_nat (List.length l) <= n)%N -> JS.nth_N l n = None.
Proof.
  revert n. induction l as [|a rest IH]; intros n Hn; cbn [JS.nth_N].
  - reflexivity.
  - cbn [List.length] in Hn.
    destruct (N.eqb_spec n 0) as [Hz | Hz].
    + lia.
    + apply IH. lia.
Qed.

Lemma metric_of_out_of_range (metricGpus : list JSValue) (i : number) :
  out_of_range metricGpus i -> metric_of metricGpus i = empty_object.
Proof.
  unfold out_of_range, metric_of, JS.at_number.
  destruct (to_index i) as [position|]; intro H.
  - rewrite (nth_N_past_end metricGpus position H). reflexivity.
  - reflexivity.
Qed.

(** Indices of a sequence of two metric records: 0 and 1 name an element,
    2, -1, 0.5 and NaN do not. *)
Example to_index_examples :
  map to_index [0%float; 1%float; 2%float; (-1)%float; 0.5%float; NaN]
  = [Some 0%N; Some 1%N; Some 2%N; None; None; None]
  /\ out_of_range [empty_object; empty_object] 2%float
  /\ out_of_range [empty_object; empty_object] NaN.
Proof. vm_compute. repeat split; discriminate. Qed.

(** A record joined with no metric has every metric field at 0. *)
Lemma joined_out_of_range (metricGpus : list JSValue) (d : JSValue) (p : nat) :
  out_of_range metricGpus (looked_up_index d p) ->
  telemetry_zeroed (joined metricGpus d p).
Proof.
  intro H. unfold telemetry_zeroed, joined.
  cbn [temperature utilization memory power clocks fan Power.draw].
  rewrite (metric_of_out_of_range metricGpus _ H).
  vm_compute. repeat split; reflexivity.
Qed.

(** *** The two shapes *)

Lemma device_list_bare (devices : list JSValue) :
  Route.device_list (bare devices) = Ok devices.
Proof. reflexivity. Qed.

Lemma device_list_wrapped (devices : list JSValue) :
  Route.device_list (wrapped devices) = Ok devices.
Proof. reflexivity. Qed.

(** Any other value than [null] and [undefined] that has neither shape is
    an empty sequence. *)
Lemma device_list_unrecognized (data : JSValue) :
  not_nullish data ->
  JS.isArray data = false ->
  JS.isArray (JS.get_opt data "gpu_data") = false ->
  Route.device_list data = Ok [].
Proof.
  intros Hn Ha Hg. unfold Route.device_list.
  rewrite (get_not_nullish data "gpu_data" Hn). cbn [bind].
  rewrite Hg, Ha. reflexivity.
Qed.

Lemma device_list_null :
  Route.device_list VNull
  = Throw (TypeError "Cannot read properties of null (reading 'gpu_data')").
Proof. reflexivity. Qed.

(** The hardened normalisation is total and agrees on the two shapes. *)
Lemma hardened_device_list_shapes (devices : list JSValue) :
  Hardened.device_list (bare devices) = devices
  /\ Hardened.device_list (wrapped devices) = devices
  /\ Hardened.device_list VNull = [].
Proof. repeat split; reflexivity. Qed.

(** [getAMDGpuStats] on two printable outputs that carry device
    sequences. *)
Lemma join_stats_joined (sdata mdata : JSValue) (static metric : list JSValue) :
  Route.device_list sdata = Ok static ->
  Route.device_list mdata = Ok metric ->
  Forall not_nullish static ->
  printable sdata = true ->
  printable mdata = true ->
  Route.join_stats sdata mdata = Ok (joined_from metric static 0).
Proof.
  intros Hs Hm Hd Hps Hpm. unfold Route.join_stats.
  rewrite Hs, Hm. cbn [bind].
  rewrite (map_indexed_joined metric static 0 Hd
             (printable_device_list sdata static Hps Hs)
             (printable_device_list mdata metric Hpm Hm)).
  cbn [bind]. rewrite filter_keeps_all. reflexivity.
Qed.

(** Both shapes of the same devices give the same records. *)
Lemma join_stats_shapes (static metric : list JSValue) :
  Route.join_stats (bare static) (bare metric)
  = Route.join_stats (wrapped static) (wrapped metric)
  /\ Route.join_stats (bare static) (wrapped metric)
    = Route.join_stats (wrapped static) (bare metric).
Proof. split; reflexivity. Qed.

Lemma map_indexed_ok_inv (metricGpus devices : list JSValue) (p : nat)
  (records : list GpuStats) :
  map_indexed (Route.join_record metricGpus) devices p = Ok records ->
  Forall not_nullish devices.
Proof.
  intro H. exact (proj1 (map_indexed_returned metricGpus devices p records H)).
Qed.

(** What a successful call returned. *)
Lemma join_stats_ok_inv (sdata mdata : JSValue) (records : list GpuStats) :
  Route.join_stats sdata mdata = Ok records ->
  exists static metric,
    Route.device_list sdata = Ok static
    /\ Route.device_list mdata = Ok metric
    /\ Forall not_nullish static
    /\ records = joined_from metric static 0.
Proof.
  intro H. unfold Route.join_stats in H.
  destruct (Route.device_list sdata) as [static|e] eqn:Hs; [|discriminate H].
  destruct (Route.device_list mdata) as [metric|e] eqn:Hm; [|discriminate H].
  cbn [bind] in H.
  destruct (map_indexed (Route.join_record metric) static 0)
    as [rs|e] eqn:Hmap; [|discriminate H].
  destruct (map_indexed_returned metric static 0 rs Hmap) as [Hd ->].
  cbn [bind] in H. rewrite filter_keeps_all in H.
  exists static, metric. repeat split; try assumption. congruence.
Qed.

(** C1, as the claim states it, fails: one static record whose device
    index is an object with a key named [toString], joined with an empty
    metric sequence (N = 1, M = 0), makes [parseInt] throw in the callback,
    outside of any [try] block, and [GET] answers with the error
    envelope. *)
Lemma toString_key_throws :
  JSON.parse toString_static_text = Ok toString_static
  /\ Route.join_stats toString_static (bare []) = Throw conversion_error
  /\ Route.GET
       (Host.amd (Host.Exits0 toString_static_text) (Host.Exits0 "[]"))
     = failure_response conversion_error.
Proof. vm_compute. repeat split; reflexivity. Qed.

(** C1, amended: joining a sequence of static records with a metric
    sequence of any length, a shorter one in particular, does not throw and
    returns one record per static record, when no object in the two answers
    has a key named [toString] and the static records are device objects
    (any value but [null]); every record whose index names no element of
    the metric sequence (it is past its end, or is no array index at all) is
    joined with the empty object and has 0 in all the fields read from the
    metric record.  In particular one MI300 joined with an empty metric
    sequence gives one record named "MI300" with every telemetry field at
    0. *)
Theorem short_metric_sequence_zeroed
  (sdata mdata : JSValue) (static metric : list JSValue) :
  Route.device_list sdata = Ok static ->
  Route.device_list mdata = Ok metric ->
  Forall not_nullish static ->
  printable sdata = true ->
  printable mdata = true ->
  (exists records,
      Route.join_stats sdata mdata = Ok records
      /\ List.length records = List.length static
      /\ forall p r,
           nth_error records p = Some r ->
           out_of_range metric (index r) ->
           telemetry_zeroed r)
  /\ Route.join_stats mi300_static (bare []) = Ok [mi300_zeroed].
Proof.
  intros Hs Hm Hd Hps Hpm. split.
  - exists (joined_from metric static 0). split; [|split].
    + exact (join_stats_joined sdata mdata static metric Hs Hm Hd Hps Hpm).
    + apply joined_from_length.
    + intros p r Hr Hout.
      rewrite joined_from_nth in Hr.
      destruct (nth_error static p) as [d|]; [|discriminate Hr].
      cbn [option_map] in Hr. injection Hr as <-.
      exact (joined_out_of_range metric d (0 + p) Hout).
  - vm_compute. reflexivity.
Qed.

Lemma short_metric_sequence_zeroed_witness :
  (exists records,
      Route.join_stats mi300_static (bare []) = Ok records
      /\ List.length records = 1
      /\ forall p r,
           nth_error records p = Some r ->
           out_of_range [] (index r) ->
           telemetry_zeroed r)
  /\ Route.join_stats mi300_static (bare []) = Ok [mi300_zeroed].
Proof.
  apply (short_metric_sequence_zeroed
           mi300_static (bare [])
           [VObj [("gpu", VStr "0");
                  ("asic", VObj [("market_name", VStr "MI300")])]]
           []).
  - reflexivity.
  - reflexivity.
  - repeat constructor.
  - reflexivity.
  - reflexivity.
Defined.

(** A static record that is [null] makes the callback throw at [d.gpu];
    the later revision, which reads [d?.gpu], gives it a record. *)
Example null_static_record :
  Route.join_stats (bare [VObj [("gpu", VStr "0")]; VNull]) (bare [])
  = Throw (TypeError "Cannot read properties of null (reading 'gpu')")
  /\ Hardened.join_stats (bare [VObj [("gpu", VStr "0")]; VNull]) (bare [])
     = [unnamed_zeroed; unnamed_zeroed].
Proof. vm_compute. split; reflexivity. Qed.

Lemma in_joined_from (metricGpus devices : list JSValue) (p : nat)
  (r : GpuStats) :
  In r (joined_from metricGpus devices p) ->
  exists d k, nth_error devices k = Some d /\ r = joined metricGpus d (p + k).
Proof.
  revert p. induction devices as [|d rest IH]; intros p H.
  - destruct H.
  - destruct H as [H | H].
    + exists d, 0. split; [reflexivity|]. rewrite Nat.add_0_r. symmetry. exact H.
    + destruct (IH (S p) H) as (d' & k & Hk & Hr).
      exists d', (S k). split; [exact Hk|].
      rewrite <- Nat.add_succ_comm. exact Hr.
Qed.

(** *** The derived memory utilisation *)

Lemma not_positive_of_zero (x : number) :
  (x =? 0)%float = true -> (0 <? x)%float = false.
Proof.
  rewrite FloatAxioms.eqb_spec, FloatAxioms.ltb_spec.
  change (Prim2SF 0%float) with (S754_zero false).
  destruct (Prim2SF x) as [s|s| |s m e]; cbn; intro H;
    try reflexivity; try discriminate H.
  all: destruct s; try reflexivity; discriminate H.
Qed.

(** C6: in every record the AMD adapter returns, [utilization.memory] is
    [used / total * 100] (in the arithmetic of JavaScript Numbers) when
    [memory.total] is greater than 0, and 0 when it is not; when
    [memory.total] is 0 it is 0, and nothing is divided. *)
Theorem memory_utilization_derived
  (sdata mdata : JSValue) (records : list GpuStats) (r : GpuStats) :
  Route.join_stats sdata mdata = Ok records ->
  In r records ->
  let total := Memory.total (memory r) in
  let used := Memory.used (memory r) in
  ((0 <? total)%float = true ->
   Utilization.memory (utilization r) = (used / total * 100)%float)
  /\ ((0 <? total)%float = false ->
      Utilization.memory (utilization r) = 0%float)
  /\ ((total =? 0)%float = true ->
      Utilization.memory (utilization r) = 0%float).
Proof.
  intros Hok Hin.
  destruct (join_stats_ok_inv sdata mdata records Hok)
    as (static & metric & _ & _ & _ & ->).
  destruct (in_joined_from metric static 0 r Hin) as (d & k & _ & ->).
  unfold joined. cbn [memory utilization Memory.total Memory.used
                      Utilization.memory].
  set (total := Route.amdParseFloat _).
  set (used := Route.amdParseFloat _).
  repeat split.
  - intros ->. reflexivity.
  - intros ->. reflexivity.
  - intro Hz. rewrite (not_positive_of_zero total Hz). reflexivity.
Qed.

(** One device that reports 1000 MiB of memory, 250 of them used. *)
Lemma memory_utilization_derived_witness :
  let r :=
    joined [VObj [("mem_usage",
                   VObj [("total_vram", VObj [("value", VNum 1000%float)]);
                         ("used_vram", VObj [("value", VStr "250")])])]]
           (VObj [("gpu", VStr "0")]) 0 in
  let total := Memory.total (memory r) in
  let used := Memory.used (memory r) in
  ((0 <? total)%float = true ->
   Utilization.memory (utilization r) = (used / total * 100)%float)
  /\ ((0 <? total)%float = false ->
      Utilization.memory (utilization r) = 0%float)
  /\ ((total =? 0)%float = true ->
      Utilization.memory (utilization r) = 0%float).
Proof.
  apply (memory_utilization_derived
           (bare [VObj [("gpu", VStr "0")]])
           (bare [VObj [("mem_usage",
                         VObj [("total_vram", VObj [("value", VNum 1000%float)]);
                               ("used_vram", VObj [("value", VStr "250")])])]])
           [joined [VObj [("mem_usage",
                           VObj [("total_vram",
                                  VObj [("value", VNum 1000%float)]);
                                 ("used_vram", VObj [("value", VStr "250")])])]]
                   (VObj [("gpu", VStr "0")]) 0]).
  - vm_compute. reflexivity.
  - left. reflexivity.
Defined.

(** *** The index of a record *)

(** C4, as the claim states it, fails: a device index field that reads "-1"
    gives a returned record whose index is -1. *)
Lemma negative_index_is_returned :
  Route.join_stats (bare [minus_one_static]) (bare []) = Ok [minus_one_record]
  /\ (index minus_one_record <? 0)%float = true.
Proof. vm_compute. split; reflexivity. Qed.

(** C4, amended: the index of every returned record is the Number
    [amdParseInt(d.gpu || position)] of a static record [d] at place
    [position]; and every static record for which that Number is finite is
    returned, in place, with that index, whatever its sign. *)
Theorem index_is_parsed_device_index
  (sdata mdata : JSValue) (records : list GpuStats) :
  Route.join_stats sdata mdata = Ok records ->
  exists static,
    Route.device_list sdata = Ok static
    /\ (forall r, In r records ->
                  exists d p, nth_error static p = Some d
                              /\ index r = looked_up_index d p)
    /\ (forall d p, nth_error static p = Some d ->
                    isFinite (looked_up_index d p) = true ->
                    exists r, nth_error records p = Some r
                              /\ index r = looked_up_index d p
                              /\ isFinite (index r) = true).
Proof.
  intro Hok.
  destruct (join_stats_ok_inv sdata mdata records Hok)
    as (static & metric & Hs & _ & _ & ->).
  exists static. split; [exact Hs|]. split.
  - intros r Hin.
    destruct (in_joined_from metric static 0 r Hin) as (d & k & Hk & ->).
    exists d, k. split; [exact Hk|]. reflexivity.
  - intros d p Hp Hfin.
    exists (joined metric d p). rewrite joined_from_nth, Hp.
    repeat split. exact Hfin.
Qed.

Lemma index_is_parsed_device_index_witness :
  exists static,
    Route.device_list (bare [minus_one_static]) = Ok static
    /\ (forall r, In r [minus_one_record] ->
                  exists d p, nth_error static p = Some d
                              /\ index r = looked_up_index d p)
    /\ (forall d p, nth_error static p = Some d ->
                    isFinite (looked_up_index d p) = true ->
                    exists r, nth_error [minus_one_record] p = Some r
                              /\ index r = looked_up_index d p
                              /\ isFinite (index r) = true).
Proof.
  apply (index_is_parsed_device_index
           (bare [minus_one_static]) (bare []) [minus_one_record]).
  vm_compute. reflexivity.
Defined.

(** The hardened adapter drops the records whose index is not finite; it
    checks no sign either. *)
Lemma hardened_index_finite (sdata mdata : JSValue) (r : GpuStats) :
  In r (Hardened.join_stats sdata mdata) -> isFinite (index r) = true.
Proof.
  unfold Hardened.join_stats. intro H.
  apply filter_In in H. exact (proj2 H).
Qed.

Example hardened_negative_index :
  Hardened.join_stats (bare [minus_one_static]) (bare []) = [minus_one_record].
Proof. vm_compute. reflexivity. Qed.

(** In [route.ts] a device index field that is no number gives a record
    whose index is NaN. *)
Example unparsable_index :
  Route.join_stats (bare [VObj [("gpu", VStr "N/A")]]) (bare [])
  = Ok [ {| index := NaN;
            name := VStr "AMD GPU";
            driverVersion := VStr "N/A";
            temperature := zero;
            utilization :=
              {| Utilization.gpu := zero; Utilization.memory := zero |};
            memory :=
              {| Memory.total := zero; Memory.free := zero;
                 Memory.used := zero |};
            power := {| Power.draw := zero; Power.limit := zero |};
            clocks := {| Clocks.graphics := zero; Clocks.memory := zero |};
            fan := {| Fan.speed := zero |} |} ]
  /\ Hardened.join_stats (bare [VObj [("gpu", VStr "N/A")]]) (bare [])
    = [unnamed_zeroed].
Proof. vm_compute. split; reflexivity. Qed.

(** *** A static answer that is [null] *)

(** C2: when the static query prints [null], [getAMDGpuStats] throws a
    TypeError at [sdata.gpu_data], outside of its [try] block, and [GET]
    answers with the error envelope; the hardened revision, which reads
    [sdata?.gpu_data], returns no device. *)
Theorem null_shape_throws :
  Route.parse_amd_stats "null;[]"
  = Throw (TypeError "Cannot read properties of null (reading 'gpu_data')")
  /\ Route.GET (Host.amd (Host.Exits0 "null") (Host.Exits0 "[]"))
    = failure_response
        (TypeError "Cannot read properties of null (reading 'gpu_data')")
  /\ Hardened.parse_amd_stats "null;[]" = [].
Proof. vm_compute. repeat split; reflexivity. Qed.

(** *** A metric query that fails *)

Lemma getAMDGpuStats_rejected (env : Env) (w : bool) (e : JSError) :
  execAsync env Route.amd_command = Throw e ->
  Route.getAMDGpuStats env w = Throw e.
Proof. intro H. unfold Route.getAMDGpuStats. rewrite H. reflexivity. Qed.

(** C7, as the claim states it, fails: with a static query that prints one
    MI300 and a metric query that exits with status 1, the adapter throws
    and [GET] answers with the error envelope, not with the MI300. *)
Lemma metric_failure_fails_the_call :
  Route.getAMDGpuStats
    (Host.amd (Host.Exits0 mi300_static_text) (Host.Fails 1)) false
  = Throw (ExecError ("Command failed: " ++ Route.amd_command))
  /\ Route.GET (Host.amd (Host.Exits0 mi300_static_text) (Host.Fails 1))
    = failure_response (ExecError ("Command failed: " ++ Route.amd_command)).
Proof. vm_compute. split; reflexivity. Qed.

(** A metric query that succeeds but prints no JSON gives no device at
    all. *)
Example metric_garbage_gives_no_device :
  Route.getAMDGpuStats
    (Host.amd (Host.Exits0 mi300_static_text) (Host.Exits0 "Segmentation fault"))
    false
  = Ok [].
Proof. vm_compute. reflexivity. Qed.

(** C7, amended: whatever the static query printed, when the metric query
    fails the one command line that runs both fails, [getAMDGpuStats]
    throws, and [GET] answers with both flags false, no device, the error
    message and status 500. *)
Theorem metric_failure_is_total (static_out : string) (code : Z) :
  let env := Host.amd (Host.Exits0 static_out) (Host.Fails code) in
  Route.getAMDGpuStats env (is_windows env)
  = Throw (ExecError ("Command failed: " ++ Route.amd_command))
  /\ Route.GET env
    = failure_response (ExecError ("Command failed: " ++ Route.amd_command)).
Proof.
  intro env.
  assert (Hexec : execAsync env Route.amd_command
                  = Throw (ExecError ("Command failed: " ++ Route.amd_command))).
  { reflexivity. }
  split.
  - exact (getAMDGpuStats_rejected env _ _ Hexec).
  - apply OrchestratorFacts.GET_of_throw.
    unfold Route.respond.
    change (Route.checkNvidiaSmi env (String.eqb (platform env) "win32"))
      with false.
    change (Route.checkAmdSmi env (String.eqb (platform env) "win32"))
      with true.
    cbn iota.
    rewrite (getAMDGpuStats_rejected env _ _ Hexec). reflexivity.
Qed.

End AmdFacts.

(** ** Integers as Numbers *)

Module NumberFacts.

Import JSNumber.
Local Open Scope Z_scope.

(** The binary64 value of a Number made from an integer below 2^63. *)
Lemma Prim2SF_of_Z (z : Z) :
  0 <= z < 2 ^ 63 -> Prim2SF (of_Z z) = binary_normalize prec emax z 0 false.
Proof.
  intro H. unfold of_Z.
  assert (Hn : Uint63.to_Z (Uint63.of_Z z) = z).
  { rewrite Uint63.of_Z_spec. apply Z.mod_small. exact H. }
  rewrite <- Hn at 1.
  rewrite <- FloatAxioms.of_uint63_spec, FloatAxioms.SF2Prim_Prim2SF.
  rewrite FloatAxioms.of_uint63_spec, Hn. reflexivity.
Qed.

Lemma digits2_pos_iter (p k : positive) :
  digits2_pos (Pos.iter xO p k) = (digits2_pos p + k)%positive.
Proof.
  rewrite (Pos.iter_swap_gen _ _ digits2_pos xO Pos.succ) by reflexivity.
  induction k using Pos.peano_ind.
  - cbn. lia.
  - rewrite Pos.iter_succ, IHk. lia.
Qed.

Lemma Zpos_iter_xO (p k : positive) :
  Zpos (Pos.iter xO p k) = Zpos p * 2 ^ Zpos k.
Proof.
  rewrite (Pos.iter_swap_gen _ _ Zpos xO (Z.mul 2)) by reflexivity.
  induction k using Pos.peano_ind.
  - cbn. lia.
  - rewrite Pos.iter_succ, IHk, Pos2Z.inj_succ, Z.pow_succ_r by lia. lia.
Qed.

Lemma digits2_pos_bound (p : positive) (n : Z) :
  0 <= n -> Zpos p < 2 ^ n -> Zpos (digits2_pos p) <= n.
Proof.
  revert n. induction p as [p IH | p IH |]; intros n Hn H; cbn [digits2_pos].
  - assert (0 < n) by (destruct (Z.eq_dec n 0); [subst; cbn in H; lia | lia]).
    rewrite Pos2Z.inj_succ. specialize (IH (n - 1)).
    replace n with (Z.succ (n - 1)) in H by lia.
    rewrite Z.pow_succ_r in H by lia. lia.
  - assert (0 < n) by (destruct (Z.eq_dec n 0); [subst; cbn in H; lia | lia]).
    rewrite Pos2Z.inj_succ. specialize (IH (n - 1)).
    replace n with (Z.succ (n - 1)) in H by lia.
    rewrite Z.pow_succ_r in H by lia. lia.
  - destruct (Z.eq_dec n 0); [subst; cbn in H; lia | lia].
Qed.

(** A positive integer below 2^52 is the mantissa shifted to 53 bits, with
    the opposite exponent: nothing is rounded. *)
Lemma binary_normalize_small (p : positive) :
  Zpos p < 2 ^ 52 ->
  exists k : positive,
    binary_normalize prec emax (Zpos p) 0 false
    = S754_finite false (Pos.iter xO p k) (Zneg k).
Proof.
  intro H.
  pose proof (digits2_pos_bound p 52 ltac:(lia) H) as Hd.
  set (d := digits2_pos p) in *.
  assert (Hk : exists k,
             Zpos d - 53 = Zneg k /\ (d + k)%positive = 53%positive).
  { exists (Z.to_pos (53 - Zpos d)). split; [|lia].
    destruct (Zpos d - 53) eqn:E; lia. }
  destruct Hk as (k & Hk & Hdk). exists k.
  unfold binary_normalize, binary_round.
  fold d.
  assert (Hf : fexp prec emax (Zpos d + 0) = Zneg k).
  { unfold fexp, SpecFloat.emin, prec, emax. lia. }
  rewrite Hf. unfold shl_align. cbn [Z.sub Z.add Z.opp Z.pos_sub].
  unfold binary_round_aux, shr_fexp.
  assert (Hz : Zdigits2 (Zpos (Pos.iter xO p k)) = 53).
  { cbn [Zdigits2]. rewrite digits2_pos_iter. fold d. lia. }
  rewrite Hz.
  assert (Hf2 : fexp prec emax (53 + Zneg k) - Zneg k = 0).
  { unfold fexp, SpecFloat.emin, prec, emax. lia. }
  rewrite Hf2.
  cbn [shr shr_record_of_loc shr_m loc_of_shr_record shr_r shr_s
       round_nearest_even].
  rewrite Hz, Hf2. cbn [shr shr_m].
  replace (Zneg k <=? emax - prec) with true; [reflexivity|].
  symmetry. apply Z.leb_le. unfold emax, prec. lia.
Qed.

(** The Number of a natural below 2^32 - 1 is the array index of that
    natural. *)
Lemma to_index_of_nat (n : nat) :
  Z.of_nat n < 2 ^ 32 - 1 -> to_index (of_nat n) = Some (N.of_nat n).
Proof.
  intro H. unfold to_index, of_nat.
  rewrite Prim2SF_of_Z by lia.
  destruct (Z.of_nat n) as [|p|p] eqn:E; try lia.
  - cbn. f_equal. lia.
  - destruct (binary_normalize_small p ltac:(lia)) as (k & ->).
    cbn [Z.leb Z.compare Z.opp].
    rewrite Zpos_iter_xO.
    rewrite Z.mod_mul by lia. cbn [Z.eqb].
    rewrite Z.div_mul by lia.
    replace ((0 <=? Zpos p) && (Zpos p <? 2 ^ 32 - 1)) with true.
    + f_equal. lia.
    + symmetry. apply andb_true_iff.
      split; [apply Z.leb_le | apply Z.ltb_lt]; lia.
Qed.

(** Such a Number is finite. *)
Lemma isFinite_of_nat (n : nat) :
  Z.of_nat n < 2 ^ 32 - 1 -> isFinite (of_nat n) = true.
Proof.
  intro H. unfold isFinite, is_finite, is_nan, is_infinity, of_nat.
  rewrite !FloatAxioms.eqb_spec, FloatAxioms.abs_spec.
  rewrite Prim2SF_of_Z by lia.
  change (Prim2SF infinity) with (S754_infinity false).
  destruct (Z.of_nat n) as [|p|p] eqn:E; try lia.
  - reflexivity.
  - destruct (binary_normalize_small p ltac:(lia)) as (k & ->).
    unfold SFeqb, SFabs, SFcompare.
    rewrite Z.compare_refl, Pos.compare_cont_refl. reflexivity.
Qed.

End NumberFacts.

(** ** More on the orchestrator *)

Module EnvelopeFacts.

Import JSNumber Spec.
Local Open Scope string_scope.

(** Whatever the host, the keys of the answer of [GET] agree with each
    other: either there is no error and the status is 200, or the answer is
    the error envelope; the [cpu] key comes only with both flags false, no
    device and no error; a device comes only with exactly one flag set, no
    error and no [cpu] key. *)
Theorem envelope_keys_agree (env : Env) :
  ((error (Route.GET env) = None /\ status (Route.GET env) = 200%Z)
   \/ exists e, Route.GET env = failure_response e)
  /\ (forall stats,
        cpu (Route.GET env) = Some stats ->
        Route.GET env = cpu_response stats)
  /\ (forall g,
        In g (gpus (Route.GET env)) ->
        xorb (hasNvidiaSmi (Route.GET env)) (hasAmdSmi (Route.GET env)) = true
        /\ error (Route.GET env) = None
        /\ cpu (Route.GET env) = None).
Proof.
  unfold Route.GET, Route.respond.
  set (w := String.eqb (platform env) "win32").
  destruct (Route.checkNvidiaSmi env w).
  - destruct (Route.getGpuStats env w) as [gs | e]; cbn.
    + split; [left; split; reflexivity|].
      split; [intros stats H; discriminate H|].
      intros g _. repeat split.
    + split; [right; exists e; reflexivity|].
      split; [intros stats H; discriminate H | intros g []].
  - destruct (Route.checkAmdSmi env w).
    + destruct (Route.getAMDGpuStats env w) as [gs | e]; cbn.
      * split; [left; split; reflexivity|].
        split; [intros stats H; discriminate H|].
        intros g _. repeat split.
      * split; [right; exists e; reflexivity|].
        split; [intros stats H; discriminate H | intros g []].
    + cbn. split; [left; split; reflexivity|].
      split; [|intros g []].
      intros stats H. injection H as <-. reflexivity.
Qed.

Lemma checkNvidiaSmi_reads_probe (env env' : Env) (w : bool) :
  execAsync env (nvidia_probe w) = execAsync env' (nvidia_probe w) ->
  Route.checkNvidiaSmi env w = Route.checkNvidiaSmi env' w.
Proof.
  unfold Route.checkNvidiaSmi, nvidia_probe. intro H. rewrite H. reflexivity.
Qed.

Lemma checkAmdSmi_reads_probe (env env' : Env) (w : bool) :
  execAsync env (amd_probe w) = execAsync env' (amd_probe w) ->
  Route.checkAmdSmi env w = Route.checkAmdSmi env' w.
Proof.
  unfold Route.checkAmdSmi, amd_probe. intro H. rewrite H. reflexivity.
Qed.

(** [GET] reads nothing but the first tool it detects: two hosts with the
    same platform give the same answer as soon as they agree on the NVIDIA
    probe and, when it succeeds, on the NVIDIA query; when it fails, on the
    AMD probe and, when that succeeds, on the AMD command; and, when both
    probes fail, on the CPU data.  In particular an AMD tool or a CPU is
    never consulted on a host where the NVIDIA probe succeeds. *)
Theorem GET_reads_detected_tool_only (env env' : Env) :
  platform env = platform env' ->
  execAsync env (nvidia_probe (is_windows env))
  = execAsync env' (nvidia_probe (is_windows env)) ->
  (Route.checkNvidiaSmi env (is_windows env) = true ->
   execAsync env Route.nvidia_command = execAsync env' Route.nvidia_command) ->
  (Route.checkNvidiaSmi env (is_windows env) = false ->
   execAsync env (amd_probe (is_windows env))
   = execAsync env' (amd_probe (is_windows env))
   /\ (Route.checkAmdSmi env (is_windows env) = true ->
       execAsync env Route.amd_command = execAsync env' Route.amd_command)
   /\ (Route.checkAmdSmi env (is_windows env) = false ->
       systeminformation_cpu env = systeminformation_cpu env')) ->
  Route.GET env = Route.GET env'.
Proof.
  intros Hos Hprobe Hnvidia Hamd.
  unfold Route.GET, Route.respond. rewrite <- Hos.
  fold (is_windows env). set (w := is_windows env) in *.
  rewrite <- (checkNvidiaSmi_reads_probe env env' w Hprobe).
  destruct (Route.checkNvidiaSmi env w) eqn:Hn.
  - unfold Route.getGpuStats. rewrite (Hnvidia eq_refl). reflexivity.
  - destruct (Hamd eq_refl) as (Hp & Hc & Hcpu).
    rewrite <- (checkAmdSmi_reads_probe env env' w Hp).
    destruct (Route.checkAmdSmi env w) eqn:Ha.
    + unfold Route.getAMDGpuStats. rewrite (Hc eq_refl). reflexivity.
    + unfold Route.getCpuStats. rewrite (Hcpu eq_refl). reflexivity.
Qed.

(** A host with the NVIDIA tool only and a host with both tools, a CPU
    and an AMD command that prints [null]. *)
Lemma GET_reads_detected_tool_only_witness :
  Route.GET (Host.nvidia (Host.Exits0 rtx4090_line))
  = Route.GET (host_with_both rtx4090_line "null;[]").
Proof.
  apply (GET_reads_detected_tool_only
           (Host.nvidia (Host.Exits0 rtx4090_line))
           (host_with_both rtx4090_line "null;[]")).
  - reflexivity.
  - reflexivity.
  - intros _. vm_compute. reflexivity.
  - intro H. vm_compute in H. discriminate H.
Defined.

End EnvelopeFacts.

(** ** More on the NVIDIA adapter *)

Module LineFacts.

Import JSNumber JSString Spec.
Local Open Scope string_scope.

Lemma cons_to_head_length (c : ascii) (pieces : list string) :
  pieces <> [] ->
  List.length (cons_to_head c pieces) = List.length pieces.
Proof. destruct pieces; [contradiction | reflexivity]. Qed.

(** Splitting at a one-character separator gives one piece more than the
    text has separators. *)
Lemma split_from_count (a : ascii) (s : string) :
  List.length (split_from (String a "") s 0) = S (count_char a s).
Proof.
  induction s as [|c rest IH]; [reflexivity|].
  cbn [count_char]. destruct (Ascii.eqb c a) eqn:E.
  - apply Ascii.eqb_eq in E. subst c. cbn [split_from].
    replace (prefix (String a "") (String a rest)) with true.
    + cbn [List.length String.length Nat.sub]. rewrite IH. reflexivity.
    + symmetry. cbn [prefix].
      destruct (ascii_dec a a) as [_ | N]; [|contradiction].
      apply StringFacts.prefix_empty.
  - rewrite (StringFacts.split_from_separator a "" c rest E).
    rewrite cons_to_head_length, IH; [reflexivity|].
    intro H. rewrite H in IH. discriminate IH.
Qed.

(** [getGpuStats] returns one record more than the trimmed output has line
    feeds: whatever the tool printed, the list is never empty. *)
Theorem one_record_per_line_feed
  (env : Env) (isWindows : bool) (stdout : string) :
  execAsync env Route.nvidia_command = Ok stdout ->
  exists records,
    Route.getGpuStats env isWindows = Ok records
    /\ List.length records = S (count_char LF (trim stdout))
    /\ records <> [].
Proof.
  intro Hexec. unfold Route.getGpuStats. rewrite Hexec. cbn [bind].
  exists (Route.parse_gpu_stats stdout).
  assert (Hlen : List.length (Route.parse_gpu_stats stdout)
                 = S (count_char LF (trim stdout))).
  { unfold Route.parse_gpu_stats, split. cbn [is_empty].
    rewrite length_map. apply split_from_count. }
  split; [reflexivity|]. split; [exact Hlen|].
  intro H. rewrite H in Hlen. discriminate Hlen.
Qed.

(** A message of two lines gives two records. *)
Lemma one_record_per_line_feed_witness :
  exists records,
    Route.getGpuStats
      (Host.nvidia
         (Host.Exits0 ("No devices were found" ++ String LF "Exiting")))
      false
    = Ok records
    /\ List.length records = 2
    /\ records <> [].
Proof.
  apply (one_record_per_line_feed
           (Host.nvidia
              (Host.Exits0 ("No devices were found" ++ String LF "Exiting")))
           false
           ("No devices were found" ++ String LF "Exiting")).
  vm_compute. reflexivity.
Defined.

Lemma parsed_column_missing (line : string) (position : nat) :
  nth_error (fields_of line) position = None ->
  PrimFloat.is_nan (parsed_column line position) = true.
Proof.
  intro H. unfold parsed_column, element. rewrite H. vm_compute. reflexivity.
Qed.

(** The fan speed of an NVIDIA record is never NaN: it is read with
    [parseInt(fanSpeed) || 0], and so is 0 when the fan column of the line
    is missing, or parses to NaN (a text that is no number) or to 0, and
    the parsed Number otherwise.  The temperature, for one, is read without
    that default: it is [parseInt] of its column, NaN included. *)
Theorem fan_speed_never_nan
  (env : Env) (isWindows : bool) (records : list GpuStats) (r : GpuStats) :
  Route.getGpuStats env isWindows = Ok records ->
  In r records ->
  PrimFloat.is_nan (Fan.speed (fan r)) = false
  /\ exists line,
       r = Route.parse_line line
       /\ (nth_error (fields_of line) 13 = None -> Fan.speed (fan r) = zero)
       /\ (PrimFloat.is_nan (parsed_column line 13) = true ->
           Fan.speed (fan r) = zero)
       /\ (PrimFloat.is_zero (parsed_column line 13) = true ->
           Fan.speed (fan r) = zero)
       /\ (PrimFloat.is_nan (parsed_column line 13) = false ->
           PrimFloat.is_zero (parsed_column line 13) = false ->
           Fan.speed (fan r) = parsed_column line 13)
       /\ temperature r = parsed_column line 3.
Proof.
  unfold Route.getGpuStats.
  destruct (execAsync env Route.nvidia_command) as [stdout | e];
    cbn [bind]; intros H Hin; [|discriminate H].
  injection H as <-. unfold Route.parse_gpu_stats in Hin.
  apply in_map_iff in Hin as (line & <- & _).
  assert (Hspeed : Fan.speed (fan (Route.parse_line line))
                   = number_or (parsed_column line 13) zero) by reflexivity.
  assert (Hnan : PrimFloat.is_nan (parsed_column line 13) = true ->
                 Fan.speed (fan (Route.parse_line line)) = zero).
  { intro Hn. rewrite Hspeed. unfold number_or. cbn [JS.truthy].
    rewrite Hn, orb_true_r. reflexivity. }
  split.
  - rewrite Hspeed. unfold number_or.
    destruct (JS.truthy (VNum (parsed_column line 13))) eqn:Ht.
    + cbn [JS.truthy] in Ht. apply negb_true_iff, orb_false_iff in Ht.
      exact (proj2 Ht).
    + reflexivity.
  - exists line. split; [reflexivity|].
    split; [|split; [|split; [|split]]].
    + intro Hmissing. exact (Hnan (parsed_column_missing line 13 Hmissing)).
    + exact Hnan.
    + intro Hz. rewrite Hspeed. unfold number_or. cbn [JS.truthy].
      rewrite Hz. reflexivity.
    + intros Hn Hz. rewrite Hspeed. unfold number_or. cbn [JS.truthy].
      rewrite Hn, Hz. reflexivity.
    + reflexivity.
Qed.

(** A line that reads "N/A": no fan column at all. *)
Lemma fan_speed_never_nan_witness :
  PrimFloat.is_nan (Fan.speed (fan (lone_field_record "N/A"))) = false
  /\ exists line,
       lone_field_record "N/A" = Route.parse_line line
       /\ (nth_error (fields_of line) 13 = None ->
           Fan.speed (fan (lone_field_record "N/A")) = zero)
       /\ (PrimFloat.is_nan (parsed_column line 13) = true ->
           Fan.speed (fan (lone_field_record "N/A")) = zero)
       /\ (PrimFloat.is_zero (parsed_column line 13) = true ->
           Fan.speed (fan (lone_field_record "N/A")) = zero)
       /\ (PrimFloat.is_nan (parsed_column line 13) = false ->
           PrimFloat.is_zero (parsed_column line 13) = false ->
           Fan.speed (fan (lone_field_record "N/A")) = parsed_column line 13)
       /\ temperature (lone_field_record "N/A") = parsed_column line 3.
Proof.
  apply (fan_speed_never_nan
           (Host.nvidia (Host.Exits0 "N/A")) false
           [lone_field_record "N/A"] (lone_field_record "N/A")).
  - vm_compute. reflexivity.
  - left. reflexivity.
Defined.

(** A fan column that is no number, beside a temperature that is none
    either. *)
Example fan_and_temperature_not_available :
  map (fun r => (Fan.speed (fan r), PrimFloat.is_nan (temperature r)))
    (Route.parse_gpu_stats
       "0, RTX 4090, 535.1, N/A, 12, 3, 24576, 20000, 4576, 120.5, 450.0, 2500, 10000, N/A")
  = [(zero, true)].
Proof. vm_compute. reflexivity. Qed.

(** *** Lines that are not CSV *)

Lemma has_char_trimStart (c : ascii) (s : string) :
  has_char c s = false -> has_char c (trimStart s) = false.
Proof.
  induction s as [|c' rest IH]; cbn [trimStart]; intro H; [exact H|].
  destruct (is_whitespace c'); [|exact H].
  cbn [has_char] in H. apply orb_false_iff in H. exact (IH (proj2 H)).
Qed.

Lemma has_char_trimEnd (c : ascii) (s : string) :
  has_char c s = false -> has_char c (trimEnd s) = false.
Proof.
  induction s as [|c' rest IH]; cbn [trimEnd]; intro H; [exact H|].
  cbn [has_char] in H. apply orb_false_iff in H as [Hc Hrest].
  destruct (is_whitespace c' && is_empty (trimEnd rest)); [reflexivity|].
  cbn [has_char]. rewrite Hc, (IH Hrest). reflexivity.
Qed.

Lemma has_char_trim (c : ascii) (s : string) :
  has_char c s = false -> has_char c (trim s) = false.
Proof.
  intro H. unfold trim. apply has_char_trimEnd, has_char_trimStart, H.
Qed.

(** The pieces of a text without [c] are without [c]. *)
Lemma split_from_has_char (c : ascii) (sep s : string) (skip : nat) :
  has_char c s = false ->
  Forall (fun piece => has_char c piece = false) (split_from sep s skip).
Proof.
  revert skip. induction s as [|c' rest IH]; intros skip H; cbn [split_from].
  - repeat constructor.
  - cbn [has_char] in H. apply orb_false_iff in H as [Hc Hrest].
    destruct skip as [|skip']; [|exact (IH skip' Hrest)].
    destruct (prefix sep (String c' rest)).
    + constructor; [reflexivity | exact (IH _ Hrest)].
    + specialize (IH 0 Hrest).
      destruct (split_from sep rest 0) as [|piece others]; cbn [cons_to_head].
      * repeat constructor. cbn [has_char]. rewrite Hc. reflexivity.
      * inversion IH as [|? ? Hpiece Hothers]; subst.
        constructor; [|exact Hothers].
        cbn [has_char]. rewrite Hc, Hpiece. reflexivity.
Qed.

(** The callback of [getGpuStats] on a line without a comma: the whole
    line is the index field and the thirteen other fields are missing. *)
Lemma parse_line_without_comma (line : string) :
  has_char "," line = false ->
  Route.parse_line line = lone_field_record (trim line).
Proof.
  intro H. unfold Route.parse_line, split. cbn [is_empty].
  rewrite (StringFacts.split_comma_last line H).
  cbn [map]. unfold lone_field_record, element. cbn [nth_error].
  f_equal; vm_compute; reflexivity.
Qed.

(** When the tool prints a text without any comma (a message such as
    "No devices were found", not CSV), [getGpuStats] does not fail: every
    line becomes a record whose index is [parseInt] of the line, whose
    name and driver version are [undefined], whose fan speed is 0 and whose
    other numeric fields are NaN. *)
Theorem output_without_comma
  (env : Env) (isWindows : bool) (stdout : string) :
  execAsync env Route.nvidia_command = Ok stdout ->
  has_char "," stdout = false ->
  Route.getGpuStats env isWindows
  = Ok (map (fun line => lone_field_record (trim line))
            (split (String LF "") (trim stdout))).
Proof.
  intros Hexec Hcomma. unfold Route.getGpuStats. rewrite Hexec. cbn [bind].
  unfold Route.parse_gpu_stats. f_equal.
  apply map_ext_in. intros line Hin.
  apply parse_line_without_comma.
  unfold split in Hin. cbn [is_empty] in Hin.
  pose proof (split_from_has_char "," (String LF "") (trim stdout) 0
                (has_char_trim "," stdout Hcomma)) as Hall.
  rewrite Forall_forall in Hall. exact (Hall line Hin).
Qed.

Lemma output_without_comma_witness :
  Route.getGpuStats (Host.nvidia (Host.Exits0 "No devices were found")) false
  = Ok (map (fun line => lone_field_record (trim line))
            (split (String LF "") (trim "No devices were found"))).
Proof.
  apply (output_without_comma
           (Host.nvidia (Host.Exits0 "No devices were found")) false
           "No devices were found").
  - vm_compute. reflexivity.
  - vm_compute. reflexivity.
Defined.

(** *** White space around the fields *)

Lemma whitespace_has_no_comma (s : string) :
  all_whitespace s = true -> has_char "," s = false.
Proof.
  induction s as [|c rest IH]; cbn [all_whitespace has_char]; intro H.
  - reflexivity.
  - apply andb_true_iff in H as [Hc Hrest]. rewrite (IH Hrest), orb_false_r.
    destruct (Ascii.eqb_spec c ",") as [E | _]; [|reflexivity].
    subst c. discriminate Hc.
Qed.

Lemma trimStart_whitespace (lead s : string) :
  all_whitespace lead = true -> trimStart (lead ++ s) = trimStart s.
Proof.
  induction lead as [|c rest IH]; cbn [all_whitespace append trimStart];
    intro H.
  - reflexivity.
  - apply andb_true_iff in H as [Hc Hrest]. rewrite Hc. exact (IH Hrest).
Qed.

Lemma trim_padded (p : Padded) :
  well_padded p -> trim (padded_text p) = pad_field p.
Proof.
  intros (Hb & Hf & Ha).
  destruct (NvidiaFacts.well_formed_field_inv _ Hf) as (Hs & He & _ & _).
  unfold trim, padded_text.
  rewrite (trimStart_whitespace _ _ Hb).
  rewrite StringFacts.trimStart_clean
    by (apply StringFacts.starts_clean_append; exact Hs).
  exact (StringFacts.trimEnd_clean_tail _ _ He Ha).
Qed.

Lemma padded_has_no_comma (p : Padded) :
  well_padded p -> has_char "," (padded_text p) = false.
Proof.
  intros (Hb & Hf & Ha).
  destruct (NvidiaFacts.well_formed_field_inv _ Hf) as (_ & _ & Hc & _).
  unfold padded_text.
  rewrite !StringFacts.has_char_append, Hc.
  rewrite (whitespace_has_no_comma _ Hb), (whitespace_has_no_comma _ Ha).
  reflexivity.
Qed.

(** White space before and after the fields of a line does not change its
    record: the callback of [getGpuStats] trims every field. *)
Theorem padding_is_ignored (fields : list Padded) :
  fields <> [] ->
  Forall well_padded fields ->
  Route.parse_line (line_of (map padded_text fields))
  = record_of_items (map pad_field fields).
Proof.
  intros Hne H. unfold Route.parse_line.
  rewrite StringFacts.split_line_of.
  - replace (map trim (map padded_text fields)) with (map pad_field fields);
      [reflexivity|].
    induction H as [|p rest Hp _ IH]; [contradiction|].
    cbn [map]. rewrite (trim_padded p Hp). f_equal.
    destruct rest as [|p' rest']; [reflexivity|].
    apply IH. discriminate.
  - destruct fields; [contradiction | discriminate].
  - induction H as [|p rest Hp _ IH]; cbn [map]; constructor.
    + exact (padded_has_no_comma p Hp).
    + destruct rest as [|p' rest']; [constructor|].
      apply IH. discriminate.
Qed.

(** A name and a temperature, aligned in columns. *)
Lemma padding_is_ignored_witness :
  Route.parse_line
    (line_of
       (map padded_text
          [ {| pad_before := " "; pad_field := "0"; pad_after := "" |};
            {| pad_before := "  "; pad_field := "RTX 4090";
               pad_after := String CR "" |} ]))
  = record_of_items ["0"; "RTX 4090"].
Proof.
  apply (padding_is_ignored
           [ {| pad_before := " "; pad_field := "0"; pad_after := "" |};
             {| pad_before := "  "; pad_field := "RTX 4090";
                pad_after := String CR "" |} ]).
  - discriminate.
  - repeat constructor.
Defined.

(** *** Lines that end with a carriage return *)

Lemma append_assoc (a b c : string) : ((a ++ b) ++ c = a ++ (b ++ c))%string.
Proof.
  induction a as [|x a' IH]; cbn [append].
  - reflexivity.
  - rewrite IH. reflexivity.
Qed.

(** Text after the last field of a row stays with the last field. *)
Lemma split_row_with_tail (init : list string) (final tail : string) :
  Forall (fun f => has_char "," f = false) init ->
  has_char "," final = false ->
  has_char "," tail = false ->
  split_from ", " (line_of (init ++ [final])%list ++ tail) 0
  = (init ++ [(final ++ tail)%string])%list.
Proof.
  intros Hinit Hfinal Htail. unfold line_of.
  induction Hinit as [|f rest Hf _ IH]; cbn [app].
  - cbn [concat]. apply StringFacts.split_comma_last.
    rewrite StringFacts.has_char_append, Hfinal, Htail. reflexivity.
  - destruct (rest ++ [final])%list as [|f' others] eqn:E.
    + destruct rest; discriminate E.
    + change (concat ", " (f :: f' :: others))
        with (f ++ ", " ++ concat ", " (f' :: others))%string.
      rewrite !append_assoc.
      rewrite (StringFacts.split_comma_field f _ Hf), IH. reflexivity.
Qed.

Lemma map_trim_with_tail (init : list string) (final tail : string) :
  Forall (fun f => well_formed_field f = true) (init ++ [final])%list ->
  all_whitespace tail = true ->
  map trim (init ++ [(final ++ tail)%string])%list = (init ++ [final])%list.
Proof.
  intros H Htail. apply Forall_app in H as [Hinit Hfinal].
  rewrite map_app. f_equal.
  - induction Hinit as [|f rest Hf _ IH]; cbn [map]; [reflexivity|].
    destruct (NvidiaFacts.well_formed_field_inv f Hf) as (Hs & He & _ & _).
    rewrite (StringFacts.trim_clean f Hs He), IH. reflexivity.
  - inversion Hfinal as [|? ? Hf _]; subst. cbn [map].
    destruct (NvidiaFacts.well_formed_field_inv final Hf) as (Hs & He & _ & _).
    rewrite (StringFacts.trim_clean_tail final tail Hs He Htail). reflexivity.
Qed.

(** White space after a well-formed line does not change its record. *)
Lemma parse_line_row_tail (row : list string) (tail : string) :
  well_formed_row row ->
  all_whitespace tail = true ->
  Route.parse_line (line_of row ++ tail) = record_of_items row.
Proof.
  intros Hrow Htail.
  destruct (exists_last (NvidiaFacts.well_formed_row_nonempty row Hrow))
    as (init & final & ->).
  destruct Hrow as [_ Hfields].
  unfold Route.parse_line, split. cbn [is_empty].
  assert (Hcomma : Forall (fun f => has_char "," f = false)
                          (init ++ [final])%list).
  { eapply Forall_impl; [|exact Hfields].
    intros f Hf. apply (NvidiaFacts.well_formed_field_inv f Hf). }
  apply Forall_app in Hcomma as [Hinit Hfinal].
  inversion Hfinal as [|? ? Hf _]; subst.
  rewrite (split_row_with_tail init final tail Hinit Hf
             (whitespace_has_no_comma tail Htail)).
  rewrite (map_trim_with_tail init final tail Hfields Htail). reflexivity.
Qed.

Lemma crlf_lines_records (rows : list (list string)) :
  rows <> [] ->
  Forall well_formed_row rows ->
  map Route.parse_line
    (split_from (String LF "") (concat crlf (map line_of rows)) 0)
  = map record_of_items rows.
Proof.
  intros Hne H. induction H as [|row rest Hrow _ IH]; [contradiction|].
  destruct (NvidiaFacts.line_of_clean row Hrow) as (_ & _ & Hlf).
  destruct rest as [|row' rest'].
  - cbn [map concat]. rewrite (StringFacts.split_line_last _ Hlf).
    cbn [map]. rewrite (NvidiaFacts.parse_line_row row Hrow). reflexivity.
  - change (concat crlf (map line_of (row :: row' :: rest')))
      with (line_of row ++ crlf ++ concat crlf (map line_of (row' :: rest')))%string.
    change (crlf ++ concat crlf (map line_of (row' :: rest')))%string
      with (String CR "" ++
            String LF (concat crlf (map line_of (row' :: rest'))))%string.
    rewrite <- append_assoc.
    rewrite StringFacts.split_line_feed
      by (rewrite StringFacts.has_char_append, Hlf; reflexivity).
    cbn [map]. rewrite (parse_line_row_tail row (String CR "") Hrow eq_refl).
    f_equal. apply IH. discriminate.
Qed.

(** On Windows the tool ends every line with a carriage return and a line
    feed; [getGpuStats] returns the same records as for line feeds alone,
    one a line and in order, because the callback trims every field. *)
Theorem crlf_output_records
  (env : Env) (isWindows : bool) (rows : list (list string)) :
  rows <> [] ->
  Forall well_formed_row rows ->
  execAsync env Route.nvidia_command = Ok (text_crlf rows) ->
  Route.getGpuStats env isWindows = Ok (map record_of_items rows).
Proof.
  intros Hne Hrows Hexec.
  unfold Route.getGpuStats. rewrite Hexec. cbn [bind]. f_equal.
  unfold Route.parse_gpu_stats, text_crlf.
  assert (Hlines : map line_of rows <> []).
  { destruct rows; [contradiction | discriminate]. }
  rewrite StringFacts.trim_clean_tail.
  - unfold split. cbn [is_empty]. exact (crlf_lines_records rows Hne Hrows).
  - apply StringFacts.concat_starts_clean; [exact Hlines|].
    apply (NvidiaFacts.lines_of_rows rows); [|exact Hrows].
    intros row Hrow. apply (NvidiaFacts.line_of_clean row Hrow).
  - apply StringFacts.concat_ends_clean; [exact Hlines|].
    apply (NvidiaFacts.lines_of_rows rows); [|exact Hrows].
    intros row Hrow. apply (NvidiaFacts.line_of_clean row Hrow).
  - reflexivity.
Qed.

Lemma crlf_output_records_witness :
  Route.getGpuStats
    (Host.scripted "win32"
       [ ("nvidia-smi -L", Ok "GPU 0: RTX 4090");
         (Route.nvidia_command, Ok (text_crlf two_gpu_rows)) ]
       Host.no_cpu_data)
    true
  = Ok (map record_of_items two_gpu_rows).
Proof.
  apply (crlf_output_records
           (Host.scripted "win32"
              [ ("nvidia-smi -L", Ok "GPU 0: RTX 4090");
                (Route.nvidia_command, Ok (text_crlf two_gpu_rows)) ]
              Host.no_cpu_data)
           true two_gpu_rows).
  - discriminate.
  - repeat constructor.
  - vm_compute. reflexivity.
Defined.

End LineFacts.

(** ** What [JSON.parse] builds *)

Module JsonFacts.

Import Spec.
Local Open Scope string_scope.

Lemma word_token_defined (w : string) (t : JSON.token) :
  JSON.word_token w = Some t -> defined_token t = true.
Proof.
  unfold JSON.word_token.
  destruct (String.eqb _ "true"); [intro H; injection H as <-; reflexivity|].
  destruct (String.eqb _ "false"); [intro H; injection H as <-; reflexivity|].
  destruct (String.eqb _ "null"); [intro H; injection H as <-; reflexivity|].
  destruct (JSON.json_number _); intro H; [|discriminate H].
  injection H as <-. reflexivity.
Qed.

Lemma punctuation_defined (c : ascii) (t : JSON.token) :
  JSON.punctuation c = Some t -> defined_token t = true.
Proof.
  unfold JSON.punctuation.
  repeat (destruct (Ascii.eqb c _);
          [intro H; injection H as <-; reflexivity|]).
  intro H. discriminate H.
Qed.

Lemma lex_idle_defined (c : ascii) (out out' : list JSON.token)
  (st : JSON.lex_state) :
  JSON.lex_idle c out = Some (st, out') ->
  forallb defined_token out = true ->
  forallb defined_token out' = true.
Proof.
  unfold JSON.lex_idle. intros H Hout.
  destruct (JSON.is_json_space c); [injection H as _ <-; exact Hout|].
  destruct (Ascii.eqb c JSString.DQUOTE); [injection H as _ <-; exact Hout|].
  destruct (JSON.is_word_char c); [injection H as _ <-; exact Hout|].
  destruct (JSON.punctuation c) as [t|] eqn:Ht; [|discriminate H].
  injection H as _ <-. cbn [forallb].
  rewrite (punctuation_defined c t Ht), Hout. reflexivity.
Qed.

Lemma lex_defined (s : string) (st : JSON.lex_state)
  (out ts : list JSON.token) :
  JSON.lex s st out = Some ts ->
  forallb defined_token out = true ->
  forallb defined_token ts = true.
Proof.
  revert st out. induction s as [|c rest IH]; intros st out H Hout.
  - cbn [JSON.lex] in H. destruct st; try discriminate H.
    + injection H as <-. exact Hout.
    + destruct (JSON.word_token rev_word) as [t|] eqn:Ht; [|discriminate H].
      injection H as <-. cbn [forallb].
      rewrite (word_token_defined _ t Ht), Hout. reflexivity.
  - cbn [JSON.lex] in H. destruct st.
    + destruct (JSON.lex_idle c out) as [[st' out']|] eqn:Hi; [|discriminate H].
      exact (IH _ _ H (lex_idle_defined c out out' st' Hi Hout)).
    + destruct (JSON.is_word_char c); [exact (IH _ _ H Hout)|].
      destruct (JSON.word_token rev_word) as [t|] eqn:Ht; [|discriminate H].
      destruct (JSON.lex_idle c (t :: out)) as [[st' out']|] eqn:Hi;
        [|discriminate H].
      apply (IH _ _ H). apply (lex_idle_defined c (t :: out) out' st' Hi).
      cbn [forallb]. rewrite (word_token_defined _ t Ht), Hout. reflexivity.
    + destruct (Ascii.eqb c JSString.DQUOTE); [exact (IH _ _ H Hout)|].
      destruct (Ascii.eqb c JSString.BACKSLASH); [exact (IH _ _ H Hout)|].
      destruct (nat_of_ascii c <? 32)%nat; [discriminate H|].
      exact (IH _ _ H Hout).
    + destruct (Ascii.eqb c "u"); [exact (IH _ _ H Hout)|].
      destruct (JSON.simple_escape c); [|discriminate H].
      exact (IH _ _ H Hout).
    + destruct (JSON.hex_value c); [|discriminate H].
      destruct hex as [|c2 [|c1 [|c0 [|]]]]; exact (IH _ _ H Hout).
Qed.

Lemma set_property_defined (key : string) (v : JSValue)
  (properties : list (string * JSValue)) :
  defined_value v = true ->
  forallb (fun kv => defined_value (snd kv)) properties = true ->
  forallb (fun kv => defined_value (snd kv))
    (JSON.set_property key v properties) = true.
Proof.
  intros Hv. induction properties as [|[k old] rest IH];
    cbn [JSON.set_property forallb snd]; intro H.
  - rewrite Hv. reflexivity.
  - apply andb_true_iff in H as [Hold Hrest].
    destruct (String.eqb k key); cbn [forallb snd].
    + rewrite Hv, Hrest. reflexivity.
    + rewrite Hold, (IH Hrest). reflexivity.
Qed.

Lemma forallb_rev_cons {A : Type} (f : A -> bool) (a : A) (l : list A) :
  f a = true -> forallb f l = true -> forallb f (rev (a :: l)) = true.
Proof.
  intros Ha Hl. apply forallb_forall. intros x Hx.
  apply in_rev in Hx. destruct Hx as [<- | Hx]; [exact Ha|].
  rewrite forallb_forall in Hl. exact (Hl x Hx).
Qed.

(** The three mutually recursive parsers build defined values from defined
    tokens and leave defined tokens. *)
Lemma parsers_defined (fuel : nat) :
  (forall ts v rest,
      JSON.parse_value fuel ts = Some (v, rest) ->
      forallb defined_token ts = true ->
      defined_value v = true /\ forallb defined_token rest = true)
  /\ (forall ts rev_done v rest,
        JSON.parse_elements fuel ts rev_done = Some (v, rest) ->
        forallb defined_token ts = true ->
        forallb defined_value rev_done = true ->
        defined_value v = true /\ forallb defined_token rest = true)
  /\ (forall ts done v rest,
        JSON.parse_members fuel ts done = Some (v, rest) ->
        forallb defined_token ts = true ->
        forallb (fun kv => defined_value (snd kv)) done = true ->
        defined_value v = true /\ forallb defined_token rest = true).
Proof.
  induction fuel as [|fuel (IHv & IHe & IHm)].
  - repeat split; intros; discriminate.
  - split; [|split].
    + intros ts v rest H Hts. cbn [JSON.parse_value] in H.
      destruct ts as [|t ts']; [discriminate H|].
      cbn [forallb] in Hts. apply andb_true_iff in Hts as [Ht Hts'].
      destruct t; try discriminate H.
      * destruct ts' as [|t' ts'']; [exact (IHm _ _ _ _ H Hts' eq_refl)|].
        destruct t'; try exact (IHm _ _ _ _ H Hts' eq_refl).
        injection H as <- <-. split; [reflexivity|].
        cbn [forallb] in Hts'. apply andb_true_iff in Hts'. exact (proj2 Hts').
      * destruct ts' as [|t' ts'']; [exact (IHe _ _ _ _ H Hts' eq_refl)|].
        destruct t'; try exact (IHe _ _ _ _ H Hts' eq_refl).
        injection H as <- <-. split; [reflexivity|].
        cbn [forallb] in Hts'. apply andb_true_iff in Hts'. exact (proj2 Hts').
      * injection H as <- <-. split; [reflexivity | exact Hts'].
      * injection H as <- <-. split; [reflexivity | exact Hts'].
      * injection H as <- <-. split; [exact Ht | exact Hts'].
    + intros ts rev_done v rest H Hts Hdone. cbn [JSON.parse_elements] in H.
      destruct (JSON.parse_value fuel ts) as [[v' rest']|] eqn:Hv;
        [|discriminate H].
      destruct (IHv _ _ _ Hv Hts) as [Hv' Hrest'].
      destruct rest' as [|t rest'']; [discriminate H|].
      cbn [forallb] in Hrest'. apply andb_true_iff in Hrest' as [_ Hrest''].
      destruct t; try discriminate H.
      * injection H as <- <-. split; [|exact Hrest''].
        cbn [defined_value]. exact (forallb_rev_cons _ v' rev_done Hv' Hdone).
      * apply (IHe _ _ _ _ H Hrest''). cbn [forallb]. rewrite Hv', Hdone.
        reflexivity.
    + intros ts done v rest H Hts Hdone. cbn [JSON.parse_members] in H.
      destruct ts as [|t ts']; [discriminate H|].
      destruct t; try discriminate H.
      destruct ts' as [|t' ts'']; [discriminate H|].
      destruct t'; try discriminate H.
      cbn [forallb defined_token andb] in Hts.
      destruct (JSON.parse_value fuel ts'') as [[v' rest']|] eqn:Hv;
        [|discriminate H].
      destruct (IHv _ _ _ Hv Hts) as [Hv' Hrest'].
      destruct rest' as [|t rest'']; [discriminate H|].
      cbn [forallb] in Hrest'. apply andb_true_iff in Hrest' as [_ Hrest''].
      destruct t; try discriminate H.
      * injection H as <- <-. split; [|exact Hrest''].
        cbn [defined_value]. exact (set_property_defined _ v' done Hv' Hdone).
      * exact (IHm _ _ _ _ H Hrest''
                 (set_property_defined _ v' done Hv' Hdone)).
Qed.

(** [JSON.parse] never builds [undefined], at any depth. *)
Lemma parse_defined (text : string) (v : JSValue) :
  JSON.parse text = Ok v -> defined_value v = true.
Proof.
  unfold JSON.parse.
  destruct (JSON.lex text JSON.LIdle []) as [rev_tokens|] eqn:Hlex;
    [|discriminate].
  destruct (JSON.parse_value _ (rev rev_tokens)) as [[v' rest]|] eqn:Hv;
    [|discriminate].
  destruct rest; [|discriminate]. intro H. injection H as <-.
  destruct (parsers_defined (2 * List.length (rev rev_tokens) + 2))
    as (IHv & _ & _).
  apply (IHv _ _ _ Hv).
  pose proof (lex_defined text JSON.LIdle [] rev_tokens Hlex eq_refl) as Hts.
  apply forallb_forall. intros t Ht. apply in_rev in Ht.
  rewrite forallb_forall in Hts. exact (Hts t Ht).
Qed.

End JsonFacts.

(** ** More on the AMD adapter *)

Module JoinFacts.

Import JSNumber JSString Spec.
Local Open Scope string_scope.

(** *** An output without separator *)

Lemma split_without_separator (a : ascii) (s : string) :
  has_char a s = false -> split_from (String a "") s 0 = [s].
Proof.
  intro H. induction s as [|c rest IH]; [reflexivity|].
  cbn [has_char] in H. apply orb_false_iff in H as [Hc Hrest].
  rewrite (StringFacts.split_from_separator a "" c rest Hc), (IH Hrest).
  reflexivity.
Qed.

(** When the command prints no ";" at all, [getAMDGpuStats] returns no
    device and parses nothing. *)
Theorem output_without_separator
  (env : Env) (isWindows : bool) (stdout : string) :
  execAsync env Route.amd_command = Ok stdout ->
  has_char ";" stdout = false ->
  Route.getAMDGpuStats env isWindows = Ok [].
Proof.
  intros Hexec H. unfold Route.getAMDGpuStats, Route.parse_amd_stats.
  rewrite Hexec. cbn [bind]. unfold split. cbn [is_empty].
  rewrite (split_without_separator ";" (trim stdout)
             (LineFacts.has_char_trim ";" stdout H)).
  reflexivity.
Qed.

Lemma output_without_separator_witness :
  Route.getAMDGpuStats (host_with_amd mi300_static_text) false = Ok [].
Proof.
  apply (output_without_separator
           (host_with_amd mi300_static_text) false mi300_static_text).
  - vm_compute. reflexivity.
  - vm_compute. reflexivity.
Defined.

(** *** Names *)

Lemma or_cases (v fallback : JSValue) :
  (JS.truthy v = true -> JS.or v fallback = v)
  /\ (JS.truthy v = false -> JS.or v fallback = fallback).
Proof. unfold JS.or. split; intros ->; reflexivity. Qed.

(** Every record of the AMD adapter has a truthy name and a truthy driver
    version.  The record at a place comes from the static record at that
    place: its name is what that record gives at [asic.market_name] when
    that is truthy, and "AMD GPU" when it is missing, [null], empty or
    otherwise falsy; its driver version is what the record gives at
    [driver.version], or "N/A" in the same way. *)
Theorem name_and_driver_truthy
  (sdata mdata : JSValue) (records : list GpuStats) (r : GpuStats) :
  Route.join_stats sdata mdata = Ok records ->
  In r records ->
  JS.truthy (name r) = true
  /\ JS.truthy (driverVersion r) = true
  /\ exists static place d,
       Route.device_list sdata = Ok static
       /\ nth_error static place = Some d
       /\ nth_error records place = Some r
       /\ (JS.truthy (market_name d) = true -> name r = market_name d)
       /\ (JS.truthy (market_name d) = false -> name r = VStr "AMD GPU")
       /\ (JS.truthy (driver_version d) = true ->
           driverVersion r = driver_version d)
       /\ (JS.truthy (driver_version d) = false ->
           driverVersion r = VStr "N/A").
Proof.
  intros Hok Hin.
  destruct (AmdFacts.join_stats_ok_inv sdata mdata records Hok)
    as (static & metric & Hs & _ & _ & ->).
  destruct (AmdFacts.in_joined_from metric static 0 r Hin) as (d & k & Hk & ->).
  split; [|split].
  - unfold joined. cbn [name]. apply AmdFacts.or_truthy. reflexivity.
  - unfold joined. cbn [driverVersion]. apply AmdFacts.or_truthy. reflexivity.
  - exists static, k, d. split; [exact Hs|]. split; [exact Hk|].
    split; [rewrite AmdFacts.joined_from_nth, Hk; reflexivity|].
    unfold joined. cbn [name driverVersion].
    fold (market_name d). fold (driver_version d).
    destruct (or_cases (market_name d) (VStr "AMD GPU")) as [Hn1 Hn2].
    destruct (or_cases (driver_version d) (VStr "N/A")) as [Hv1 Hv2].
    repeat split; assumption.
Qed.

(** One MI300 that names its card and not its driver. *)
Lemma name_and_driver_truthy_witness :
  JS.truthy (name mi300_zeroed) = true
  /\ JS.truthy (driverVersion mi300_zeroed) = true
  /\ exists static place d,
       Route.device_list mi300_static = Ok static
       /\ nth_error static place = Some d
       /\ nth_error [mi300_zeroed] place = Some mi300_zeroed
       /\ (JS.truthy (market_name d) = true ->
           name mi300_zeroed = market_name d)
       /\ (JS.truthy (market_name d) = false ->
           name mi300_zeroed = VStr "AMD GPU")
       /\ (JS.truthy (driver_version d) = true ->
           driverVersion mi300_zeroed = driver_version d)
       /\ (JS.truthy (driver_version d) = false ->
           driverVersion mi300_zeroed = VStr "N/A").
Proof.
  apply (name_and_driver_truthy mi300_static (bare []) [mi300_zeroed]
           mi300_zeroed).
  - vm_compute. reflexivity.
  - left. reflexivity.
Defined.

(** *** Shapes *)

(** An object is read through its [gpu_data] key alone: when that key
    holds an array, the adapter returns what it returns for the bare array,
    on the static side and on the metric side, whatever the other keys of
    the object are. *)
Theorem wrapped_shape_with_other_keys
  (properties : list (string * JSValue)) (devices : list JSValue)
  (other : JSValue) :
  JS.lookup "gpu_data" properties = VArr devices ->
  Route.join_stats (VObj properties) other
  = Route.join_stats (bare devices) other
  /\ Route.join_stats other (VObj properties)
    = Route.join_stats other (bare devices).
Proof.
  intro H.
  assert (Hd : Route.device_list (VObj properties)
               = Route.device_list (bare devices)).
  { unfold Route.device_list. cbn [JS.get bind]. rewrite H. reflexivity. }
  unfold Route.join_stats. rewrite Hd. split; reflexivity.
Qed.

Lemma wrapped_shape_with_other_keys_witness :
  Route.join_stats
    (VObj [("version", VStr "6.2"); ("gpu_data", VArr [minus_one_static])])
    (bare [])
  = Route.join_stats (bare [minus_one_static]) (bare [])
  /\ Route.join_stats (bare [])
      (VObj [("version", VStr "6.2"); ("gpu_data", VArr [minus_one_static])])
    = Route.join_stats (bare []) (bare [minus_one_static]).
Proof.
  apply (wrapped_shape_with_other_keys
           [("version", VStr "6.2"); ("gpu_data", VArr [minus_one_static])]
           [minus_one_static] (bare [])).
  reflexivity.
Defined.

(** *** The join by position *)

Lemma nth_N_of_nat {A : Type} (l : list A) (k : nat) :
  JS.nth_N l (N.of_nat k) = nth_error l k.
Proof.
  revert k. induction l as [|a rest IH]; intro k; cbn [JS.nth_N].
  - destruct k; reflexivity.
  - destruct k as [|k].
    + reflexivity.
    + replace (N.of_nat (S k) =? 0)%N with false
        by (symmetry; apply N.eqb_neq; lia).
      replace (N.pred (N.of_nat (S k))) with (N.of_nat k) by lia.
      rewrite IH. reflexivity.
Qed.

(** The index of a static record whose [gpu] field is the decimal text of
    [k]. *)
Lemma looked_up_index_digits
  (properties : list (string * JSValue)) (p : nat) (ds : list nat) (k : nat) :
  JS.lookup "gpu" properties = VStr (digits_text ds) ->
  decimal_digits ds ->
  digits_value ds 0 = Z.of_nat k ->
  looked_up_index (VObj properties) p = of_nat k.
Proof.
  intros Hgpu Hds Hvalue. unfold looked_up_index, Route.amdParseInt.
  cbn [JS.get_opt]. rewrite Hgpu.
  assert (Ht : JS.truthy (VStr (digits_text ds)) = true).
  { destruct Hds as [Hne _]. destruct ds; [contradiction | reflexivity]. }
  unfold JS.or at 2. rewrite Ht. unfold JS.or. rewrite Ht.
  rewrite (ParseFacts.parseInt_digits ds Hds), Hvalue. reflexivity.
Qed.

(** The metric record the adapter joins with index [k]. *)
Lemma metric_of_position (metricGpus : list JSValue) (k : nat) (m : JSValue) :
  (Z.of_nat k < 2 ^ 32 - 1)%Z ->
  nth_error metricGpus k = Some m ->
  JS.truthy m = true ->
  metric_of metricGpus (of_nat k) = m.
Proof.
  intros Hk Hm Ht. unfold metric_of, JS.at_number.
  rewrite (NumberFacts.to_index_of_nat k Hk), nth_N_of_nat, Hm.
  unfold JS.or. rewrite Ht. reflexivity.
Qed.

(** The join is by position: a static record whose [gpu] field is the
    decimal text of [k] gets index [k], and its telemetry is read from the
    element of the metric sequence at position [k] (counted from 0), when
    that element is an object or any other truthy value.  The place of the
    static record in its own sequence plays no part. *)
Theorem join_is_by_position
  (sdata mdata : JSValue) (static metric : list JSValue)
  (records : list GpuStats) (place : nat)
  (properties : list (string * JSValue)) (ds : list nat) (k : nat)
  (m : JSValue) :
  Route.join_stats sdata mdata = Ok records ->
  Route.device_list sdata = Ok static ->
  Route.device_list mdata = Ok metric ->
  nth_error static place = Some (VObj properties) ->
  JS.lookup "gpu" properties = VStr (digits_text ds) ->
  decimal_digits ds ->
  digits_value ds 0 = Z.of_nat k ->
  (Z.of_nat k < 2 ^ 32 - 1)%Z ->
  nth_error metric k = Some m ->
  JS.truthy m = true ->
  exists r,
    nth_error records place = Some r
    /\ index r = of_nat k
    /\ telemetry_from m r.
Proof.
  intros Hok Hs Hm Hplace Hgpu Hds Hvalue Hk Hmk Ht.
  destruct (AmdFacts.join_stats_ok_inv sdata mdata records Hok)
    as (static' & metric' & Hs' & Hm' & _ & ->).
  rewrite Hs in Hs'. injection Hs' as <-.
  rewrite Hm in Hm'. injection Hm' as <-.
  exists (joined metric (VObj properties) place).
  rewrite AmdFacts.joined_from_nth, Hplace.
  split; [reflexivity|].
  pose proof (looked_up_index_digits properties place ds k Hgpu Hds Hvalue)
    as Hi.
  split; [exact Hi|].
  unfold telemetry_from, joined.
  cbn [temperature utilization memory power clocks fan Utilization.gpu
       Memory.total Memory.used Memory.free Power.draw Clocks.graphics
       Clocks.memory Fan.speed].
  rewrite Hi, (metric_of_position metric k m Hk Hmk Ht).
  repeat split.
Qed.

(** The static record listed first has index 1 and the temperature of
    the second metric record. *)
Lemma join_is_by_position_witness :
  exists r,
    nth_error (joined_from two_metrics swapped_static 0) 0 = Some r
    /\ index r = of_nat 1
    /\ telemetry_from (hotspot 55%float) r.
Proof.
  apply (join_is_by_position
           (bare swapped_static) (bare two_metrics)
           swapped_static two_metrics
           (joined_from two_metrics swapped_static 0) 0
           [("gpu", VStr "1"); ("asic", VObj [("market_name", VStr "MI300X")])]
           [1] 1 (hotspot 55%float)).
  - vm_compute. reflexivity.
  - reflexivity.
  - reflexivity.
  - reflexivity.
  - reflexivity.
  - split; [discriminate | repeat constructor].
  - reflexivity.
  - reflexivity.
  - reflexivity.
  - reflexivity.
Defined.

Example swapped_temperatures :
  option_map (map (fun r => (index r, temperature r)))
    (match Route.join_stats (bare swapped_static) (bare two_metrics) with
     | Ok records => Some records
     | Throw _ => None
     end)
  = Some [(1%float, 55%float); (0%float, 40%float)].
Proof. vm_compute. reflexivity. Qed.

(** *** The exceptions of the adapter *)

Lemma lookup_defined (key : string) (properties : list (string * JSValue))
  (elements : list JSValue) :
  forallb (fun kv => defined_value (snd kv)) properties = true ->
  JS.lookup key properties = VArr elements ->
  forallb defined_value elements = true.
Proof.
  induction properties as [|[k v] rest IH]; cbn [JS.lookup forallb snd];
    intros H Hl; [discriminate Hl|].
  apply andb_true_iff in H as [Hv Hrest].
  destruct (String.eqb k key); [subst v; exact Hv | exact (IH Hrest Hl)].
Qed.

Lemma device_list_defined (data : JSValue) (devices : list JSValue) :
  defined_value data = true ->
  Route.device_list data = Ok devices ->
  forallb defined_value devices = true.
Proof.
  intros Hd H. unfold Route.device_list in H.
  destruct data; try discriminate Hd; cbn [JS.get bind] in H;
    try discriminate H; injection H as <-; try reflexivity.
  - exact Hd.
  - destruct (JS.lookup "gpu_data" properties) eqn:Hl; try reflexivity.
    exact (lookup_defined "gpu_data" properties elements Hd Hl).
Qed.

Lemma device_list_throws (data : JSValue) (e : JSError) :
  defined_value data = true ->
  Route.device_list data = Throw e ->
  e = null_read "gpu_data".
Proof.
  intros Hd H.
  destruct data; try discriminate Hd; cbn in H; try discriminate H.
  injection H as <-. reflexivity.
Qed.

Lemma join_record_throws (metricGpus : list JSValue) (d : JSValue) (p : nat)
  (e : JSError) :
  defined_value d = true ->
  printable d = true ->
  forallb printable metricGpus = true ->
  Route.join_record metricGpus d p = Throw e ->
  e = null_read "gpu".
Proof.
  intros Hd Hp Hpm H. destruct d; try discriminate Hd.
  - injection H as <-. reflexivity.
  - rewrite AmdFacts.join_record_joined in H by (reflexivity || assumption).
    discriminate H.
  - rewrite AmdFacts.join_record_joined in H by (reflexivity || assumption).
    discriminate H.
  - rewrite AmdFacts.join_record_joined in H by (reflexivity || assumption).
    discriminate H.
  - rewrite AmdFacts.join_record_joined in H by (reflexivity || assumption).
    discriminate H.
  - rewrite AmdFacts.join_record_joined in H by (reflexivity || assumption).
    discriminate H.
Qed.

Lemma map_indexed_throws (metricGpus devices : list JSValue) (p : nat)
  (e : JSError) :
  forallb defined_value devices = true ->
  forallb printable devices = true ->
  forallb printable metricGpus = true ->
  map_indexed (Route.join_record metricGpus) devices p = Throw e ->
  e = null_read "gpu".
Proof.
  revert p. induction devices as [|d rest IH]; intros p Hd Hp Hpm H;
    cbn [map_indexed] in H; [discriminate H|].
  cbn [forallb] in Hd, Hp.
  apply andb_true_iff in Hd as [Hd Hrest].
  apply andb_true_iff in Hp as [Hp Hprest].
  destruct (Route.join_record metricGpus d p) as [r|e'] eqn:Hr.
  - cbn [bind] in H.
    destruct (map_indexed (Route.join_record metricGpus) rest (S p))
      as [rs|e'] eqn:Hrs; [discriminate H|].
    injection H as <-. exact (IH (S p) Hrest Hprest Hpm Hrs).
  - injection H as <-.
    exact (join_record_throws metricGpus d p e' Hd Hp Hpm Hr).
Qed.

(** [getAMDGpuStats] throws in three cases only: the command was rejected;
    one of the two outputs is the JSON value [null], which makes
    [.gpu_data] throw; or a static record is [null], which makes [.gpu]
    throw.  A text that is not JSON, a missing key, a wrong type or a
    metric sequence that is too short never make it throw.  The answers
    are taken printable: on an object with a key named [toString],
    [parseInt] and [parseFloat] throw as well. *)
Theorem exceptions_of_getAMDGpuStats
  (env : Env) (isWindows : bool) (e : JSError) :
  (forall stdout, execAsync env Route.amd_command = Ok stdout ->
                  printable_answers (split ";" (trim stdout))) ->
  Route.getAMDGpuStats env isWindows = Throw e ->
  execAsync env Route.amd_command = Throw e
  \/ e = null_read "gpu_data"
  \/ e = null_read "gpu".
Proof.
  unfold Route.getAMDGpuStats. intros Hprintable.
  destruct (execAsync env Route.amd_command) as [stdout|e'];
    cbn [bind]; intro H; [|left; injection H as <-; reflexivity].
  specialize (Hprintable stdout eq_refl).
  right. unfold Route.parse_amd_stats in H.
  destruct (split ";" (trim stdout)) as [|static_text [|metric_text others]];
    try discriminate H.
  unfold Route.parse_both in H.
  destruct (JSON.parse static_text) as [sdata|] eqn:Hs;
    cbn [bind] in H; [|discriminate H].
  destruct (JSON.parse metric_text) as [mdata|] eqn:Hm;
    cbn [bind] in H; [|discriminate H].
  pose proof (JsonFacts.parse_defined static_text sdata Hs) as Hsd.
  pose proof (JsonFacts.parse_defined metric_text mdata Hm) as Hmd.
  destruct (Hprintable static_text metric_text others sdata mdata
              eq_refl Hs Hm) as [Hps Hpm].
  unfold Route.join_stats in H.
  destruct (Route.device_list sdata) as [static|e'] eqn:Hsl.
  - destruct (Route.device_list mdata) as [metric|e'] eqn:Hml.
    + cbn [bind] in H.
      destruct (map_indexed (Route.join_record metric) static 0)
        as [rs|e'] eqn:Hmap; [discriminate H|].
      injection H as <-. right.
      exact (map_indexed_throws metric static 0 e'
               (device_list_defined sdata static Hsd Hsl)
               (AmdFacts.printable_device_list sdata static Hps Hsl)
               (AmdFacts.printable_device_list mdata metric Hpm Hml)
               Hmap).
    + injection H as <-. left. exact (device_list_throws mdata e' Hmd Hml).
  - injection H as <-. left. exact (device_list_throws sdata e' Hsd Hsl).
Qed.

(** A static record that is [null]. *)
Lemma exceptions_of_getAMDGpuStats_witness :
  execAsync (host_with_amd "[null];[]") Route.amd_command
  = Throw (null_read "gpu")
  \/ null_read "gpu" = null_read "gpu_data"
  \/ null_read "gpu" = null_read "gpu".
Proof.
  apply (exceptions_of_getAMDGpuStats (host_with_amd "[null];[]") false
           (null_read "gpu")).
  - intros stdout Hout. vm_compute in Hout. injection Hout as <-.
    intros static_text metric_text others sdata mdata Hpieces.
    vm_compute in Hpieces. injection Hpieces as <- <- _.
    intros Hs Hm. vm_compute in Hs, Hm.
    injection Hs as <-. injection Hm as <-. split; reflexivity.
  - vm_compute. reflexivity.
Defined.

End JoinFacts.

(** ** The two helpers on the texts of numbers *)

Module HelperFacts.

Import JSNumber Spec.
Local Open Scope string_scope.

Lemma digits_truthy (ds : list nat) :
  decimal_digits ds -> JS.truthy (VStr (digits_text ds)) = true.
Proof. intros [Hne _]. destruct ds; [contradiction | reflexivity]. Qed.

Lemma read_digits_until_point (ds : list nat) (tail : string) (acc : Z) :
  Forall (fun d => d < 10) ds ->
  JS.read_digits 10 (digits_text ds ++ String "." tail) (Some acc)
  = Some (digits_value ds acc).
Proof.
  intro H. revert acc.
  induction H as [|d rest Hd _ IH]; intro acc;
    cbn [digits_text append JS.read_digits digits_value].
  - reflexivity.
  - rewrite (ParseFacts.digit_value_digit_char d Hd).
    replace (Z.of_nat d <? 10)%Z with true by (symmetry; apply Z.ltb_lt; lia).
    apply IH.
Qed.

Lemma prefix_x_point (x : ascii) (tail : string) :
  JS.digit_value x = Some 33%Z ->
  prefix (String x "") (String "." tail) = false.
Proof.
  intro Hx. apply StringFacts.prefix_mismatch.
  destruct (Ascii.eqb_spec "."%char x) as [E | E]; [|reflexivity].
  subst x. discriminate Hx.
Qed.

Lemma no_hex_prefix_until_point (ds : list nat) (tail : string) :
  Forall (fun d => d < 10) ds ->
  JS.has_hex_prefix (digits_text ds ++ String "." tail) = false.
Proof.
  intro H. unfold JS.has_hex_prefix.
  assert (Hx : forall x, JS.digit_value x = Some 33%Z ->
                         prefix (String "0" (String x ""))
                                (digits_text ds ++ String "." tail) = false).
  { intros x Hx. destruct H as [|d1 rest H1 Hrest]; cbn [digits_text append].
    - apply StringFacts.prefix_mismatch. reflexivity.
    - cbn [prefix].
      destruct (ascii_dec "0" (digit_char d1)) as [_ | _]; [|reflexivity].
      destruct Hrest as [|d2 rest' H2 _]; cbn [digits_text append].
      + exact (prefix_x_point x tail Hx).
      + exact (ParseFacts.prefix_x_digit x d2 _ Hx H2). }
  rewrite (Hx "x"%char), (Hx "X"%char); reflexivity.
Qed.

(** Where the helpers of [route.ts] do what their names say: a missing
    key, [null], the empty text and the Number 0 give 0; the decimal text of
    an integer gives that integer; a text [digits.digits] gives, under
    [amdParseFloat], the Number nearest to that decimal and, under
    [amdParseInt], its integer part. *)
Theorem amdParse_of_number_texts (ip fp : list nat) :
  decimal_digits ip ->
  decimal_digits fp ->
  Route.amdParseInt (VStr (digits_text ip)) = of_Z (digits_value ip 0)
  /\ Route.amdParseFloat (VStr (digits_text ip ++ "." ++ digits_text fp))
     = of_decimal (digits_value fp (digits_value ip 0))
                  (- Z.of_nat (List.length fp))
  /\ Route.amdParseInt (VStr (digits_text ip ++ "." ++ digits_text fp))
     = of_Z (digits_value ip 0)
  /\ (forall v, JS.truthy v = false ->
                Route.amdParseInt v = zero /\ Route.amdParseFloat v = zero).
Proof.
  intros Hip Hfp. split; [|split; [|split]].
  - unfold Route.amdParseInt, JS.or. rewrite (digits_truthy ip Hip).
    exact (ParseFacts.parseInt_digits ip Hip).
  - unfold Route.amdParseFloat, JS.or.
    replace (JS.truthy (VStr (digits_text ip ++ "." ++ digits_text fp)))
      with true.
    + exact (ParseFacts.parseFloat_decimal ip fp Hip Hfp).
    + destruct Hip as [Hne _]. destruct ip; [contradiction | reflexivity].
  - unfold Route.amdParseInt, JS.or.
    replace (JS.truthy (VStr (digits_text ip ++ "." ++ digits_text fp)))
      with true
      by (destruct Hip as [Hne _]; destruct ip; [contradiction | reflexivity]).
    destruct Hip as [Hne Hip].
    destruct Hip as [|d rest Hd Hrest]; [contradiction|].
    unfold JS.parseInt, JS.parseInt_radix, JS.parseInt_string.
    cbn [JS.to_string digits_text append JSString.trimStart] in *.
    rewrite (ParseFacts.digit_char_not_whitespace d Hd),
      (ParseFacts.read_sign_digit d _ Hd).
    cbn [Z.eqb negb andb orb].
    change (String (digit_char d)
              (digits_text rest ++ String "." (digits_text fp)))
      with (digits_text (d :: rest) ++ String "." (digits_text fp))%string.
    rewrite (no_hex_prefix_until_point (d :: rest) (digits_text fp))
      by (constructor; assumption).
    cbn [digits_text append JS.read_digits].
    rewrite (ParseFacts.digit_value_digit_char d Hd).
    replace (Z.of_nat d <? 10)%Z with true by (symmetry; apply Z.ltb_lt; lia).
    rewrite (read_digits_until_point rest (digits_text fp) (Z.of_nat d) Hrest).
    reflexivity.
  - intros v Hv. split.
    + exact (ParseFacts.amdParseInt_falsy v Hv).
    + exact (ParseFacts.amdParseFloat_falsy v Hv).
Qed.

Lemma amdParse_of_number_texts_witness :
  Route.amdParseInt (VStr (digits_text [4; 5])) = of_Z (digits_value [4; 5] 0)
  /\ Route.amdParseFloat (VStr (digits_text [4; 5] ++ "." ++ digits_text [7]))
     = of_decimal (digits_value [7] (digits_value [4; 5] 0))
                  (- Z.of_nat (List.length [7]))
  /\ Route.amdParseInt (VStr (digits_text [4; 5] ++ "." ++ digits_text [7]))
     = of_Z (digits_value [4; 5] 0)
  /\ (forall v, JS.truthy v = false ->
                Route.amdParseInt v = zero /\ Route.amdParseFloat v = zero).
Proof.
  apply (amdParse_of_number_texts [4; 5] [7]).
  - split; [discriminate | repeat constructor].
  - split; [discriminate | repeat constructor].
Defined.

Example amdParse_of_45_5 :
  Route.amdParseInt (VStr "45") = 45%float
  /\ Route.amdParseFloat (VStr "45.5") = 45.5%float
  /\ Route.amdParseInt (VStr "45.5") = 45%float.
Proof. vm_compute. repeat split; reflexivity. Qed.

Lemma parseInt_radix10_digits (ds : list nat) :
  decimal_digits ds ->
  JS.parseInt_radix (VStr (digits_text ds)) 10 = of_Z (digits_value ds 0).
Proof.
  intros [Hne H].
  destruct H as [|d rest Hd Hrest]; [contradiction|].
  unfold JS.parseInt_radix, JS.parseInt_string.
  cbn [JS.to_string digits_text JSString.trimStart].
  rewrite (ParseFacts.digit_char_not_whitespace d Hd),
    (ParseFacts.read_sign_digit d _ Hd).
  change (negb (10 =? 0)%Z && ((10 <? 2)%Z || (36 <? 10)%Z)) with false.
  change ((10 =? 0)%Z || (10 =? 16)%Z) with false.
  cbn [andb Z.eqb]. cbn [JS.read_digits].
  rewrite (ParseFacts.digit_value_digit_char d Hd).
  replace (Z.of_nat d <? 10)%Z with true by (symmetry; apply Z.ltb_lt; lia).
  rewrite (ParseFacts.read_digits_text rest (Z.of_nat d) Hrest).
  reflexivity.
Qed.

(** The hardened helpers: [null] and a missing key give 0; the decimal text
    of an integer below 2^32 - 1 gives that integer; and whatever the
    printable value, the result is a finite Number. *)
Theorem hardened_amdParse_contract (ds : list nat) (k : nat) :
  decimal_digits ds ->
  digits_value ds 0 = Z.of_nat k ->
  (Z.of_nat k < 2 ^ 32 - 1)%Z ->
  Hardened.amdParseInt (VStr (digits_text ds)) = of_nat k
  /\ (forall v, JS.is_nullish v = true ->
                Hardened.amdParseInt v = zero
                /\ Hardened.amdParseFloat v = zero)
  /\ (forall v, printable v = true ->
                isFinite (Hardened.amdParseInt v) = true
                /\ isFinite (Hardened.amdParseFloat v) = true).
Proof.
  intros Hds Hvalue Hk. split; [|split].
  - unfold Hardened.amdParseInt. cbn [JS.coalesce JS.is_nullish JS.to_string].
    rewrite (parseInt_radix10_digits ds Hds), Hvalue.
    fold (of_nat k). rewrite (NumberFacts.isFinite_of_nat k Hk). reflexivity.
  - intros v Hv. unfold Hardened.amdParseInt, Hardened.amdParseFloat, JS.coalesce.
    rewrite Hv. vm_compute. split; reflexivity.
  - intros v _. split.
    + apply ParseFacts.hardened_amdParseInt_finite.
    + apply ParseFacts.hardened_amdParseFloat_finite.
Qed.

Lemma hardened_amdParse_contract_witness :
  Hardened.amdParseInt (VStr (digits_text [1; 2])) = of_nat 12
  /\ (forall v, JS.is_nullish v = true ->
                Hardened.amdParseInt v = zero
                /\ Hardened.amdParseFloat v = zero)
  /\ (forall v, printable v = true ->
                isFinite (Hardened.amdParseInt v) = true
                /\ isFinite (Hardened.amdParseFloat v) = true).
Proof.
  apply (hardened_amdParse_contract [1; 2] 12).
  - split; [discriminate | repeat constructor].
  - reflexivity.
  - reflexivity.
Defined.

End HelperFacts.

(** ** The hardened revision *)

Module HardenedFacts.

Import JSNumber Spec.
Local Open Scope string_scope.

Lemma hardened_filter_map (metricGpus devices : list JSValue) :
  filter (fun g => isFinite (index g))
    (map (Hardened.join_record metricGpus) devices)
  = map (Hardened.join_record metricGpus) devices.
Proof.
  induction devices as [|d rest IH]; cbn [map filter]; [reflexivity|].
  replace (isFinite (index (Hardened.join_record metricGpus d))) with true.
  - rewrite IH. reflexivity.
  - symmetry. apply ParseFacts.hardened_amdParseInt_finite.
Qed.

Lemma coalesce_not_nullish (v fallback : JSValue) :
  JS.is_nullish fallback = false ->
  JS.is_nullish (JS.coalesce v fallback) = false.
Proof.
  intro H. unfold JS.coalesce. destruct (JS.is_nullish v) eqn:E; assumption.
Qed.

(** The hardened adapter returns one record for each entry of the static
    sequence, in order, whatever the printable entries are: its last step,
    [filter(g => Number.isFinite(g.index))], never drops a record, because
    [amdParseInt] has already replaced every non-finite index by 0. *)
Theorem hardened_filter_drops_nothing (sdata mdata : JSValue) :
  printable sdata = true ->
  printable mdata = true ->
  Hardened.join_stats sdata mdata
  = map (Hardened.join_record (Hardened.device_list mdata))
        (Hardened.device_list sdata)
  /\ List.length (Hardened.join_stats sdata mdata)
     = List.length (Hardened.device_list sdata).
Proof.
  intros _ _. unfold Hardened.join_stats. rewrite hardened_filter_map.
  split; [reflexivity | apply length_map].
Qed.

(** Two static entries that are no records at all: each still gives a
    record. *)
Lemma hardened_filter_drops_nothing_witness :
  Hardened.join_stats (bare [VNull; VStr "N/A"]) (bare [])
  = map (Hardened.join_record (Hardened.device_list (bare [])))
        (Hardened.device_list (bare [VNull; VStr "N/A"]))
  /\ List.length (Hardened.join_stats (bare [VNull; VStr "N/A"]) (bare []))
     = List.length (Hardened.device_list (bare [VNull; VStr "N/A"])).
Proof.
  apply (hardened_filter_drops_nothing (bare [VNull; VStr "N/A"]) (bare []));
    reflexivity.
Defined.

Lemma hardened_record_finite (metricGpus : list JSValue) (d : JSValue) :
  parsed_fields_finite (Hardened.join_record metricGpus d)
  /\ JS.is_nullish (name (Hardened.join_record metricGpus d)) = false
  /\ JS.is_nullish (driverVersion (Hardened.join_record metricGpus d)) = false.
Proof.
  unfold parsed_fields_finite, Hardened.join_record.
  cbn [index temperature utilization memory power clocks fan name
       driverVersion Utilization.gpu Memory.total Memory.used Memory.free
       Power.draw Power.limit Clocks.graphics Clocks.memory Fan.speed].
  repeat split;
    try apply ParseFacts.hardened_amdParseInt_finite;
    try apply ParseFacts.hardened_amdParseFloat_finite.
  - apply coalesce_not_nullish. reflexivity.
  - apply coalesce_not_nullish. reflexivity.
Qed.

Lemma in_hardened_join_stats (sdata mdata : JSValue) (r : GpuStats) :
  In r (Hardened.join_stats sdata mdata) ->
  exists d, r = Hardened.join_record (Hardened.device_list mdata) d.
Proof.
  intro Hin. unfold Hardened.join_stats in Hin.
  rewrite hardened_filter_map in Hin.
  apply in_map_iff in Hin as (d & <- & _). exists d. reflexivity.
Qed.

(** In every record of the hardened adapter, the index and the ten
    Numbers parsed from the tool's answers are finite (never NaN, never an
    infinity), and the name and the driver version are neither [null] nor
    [undefined]. *)
Theorem hardened_records_are_finite
  (sdata mdata : JSValue) (r : GpuStats) :
  In r (Hardened.join_stats sdata mdata) ->
  parsed_fields_finite r
  /\ JS.is_nullish (name r) = false
  /\ JS.is_nullish (driverVersion r) = false.
Proof.
  intro Hin.
  destruct (in_hardened_join_stats sdata mdata r Hin) as [d ->].
  apply hardened_record_finite.
Qed.

(** A static record whose index is no number and a metric record whose
    temperature is "N/A". *)
Lemma hardened_records_are_finite_witness :
  parsed_fields_finite unnamed_zeroed
  /\ JS.is_nullish (name unnamed_zeroed) = false
  /\ JS.is_nullish (driverVersion unnamed_zeroed) = false.
Proof.
  apply (hardened_records_are_finite
           (bare [VObj [("gpu", VStr "N/A")]])
           (bare [VObj [("temperature",
                         VObj [("hotspot", VObj [("value", VStr "N/A")])])]])
           unnamed_zeroed).
  vm_compute. left. reflexivity.
Defined.



End HardenedFacts.

(** ** The first revision *)

Module LegacyFacts.

Import JSNumber Spec.
Local Open Scope string_scope.

Lemma legacy_record_index (gpu : JSValue) (p : nat) (r : GpuStats) :
  Legacy.device_record gpu p = Ok r -> index r = of_nat p.
Proof.
  intro H.
  assert (Hgpu : not_nullish gpu).
  { destruct gpu; try reflexivity; discriminate H. }
  unfold Legacy.device_record in H.
  repeat
    (cbn [bind] in H;
     lazymatch type of H with
     | bind (JS.get ?v ?key) _ = _ =>
         rewrite (AmdFacts.get_not_nullish v key Hgpu) in H
     | bind (JS.call ?f ?value) _ = _ =>
         destruct (JS.call f value) as [?|]; [|discriminate H]
     end).
  cbn [bind] in H. injection H as <-. reflexivity.
Qed.

Lemma legacy_map_indexed (gpus : list JSValue) (p : nat)
  (records : list GpuStats) :
  map_indexed Legacy.device_record gpus p = Ok records ->
  List.length records = List.length gpus
  /\ forall k r, nth_error records k = Some r -> index r = of_nat (p + k).
Proof.
  revert p records. induction gpus as [|gpu rest IH]; intros p records H;
    cbn [map_indexed] in H.
  - injection H as <-. split; [reflexivity|].
    intros k r Hk. destruct k; discriminate Hk.
  - destruct (Legacy.device_record gpu p) as [r0|] eqn:Hr; [|discriminate H].
    cbn [bind] in H.
    destruct (map_indexed Legacy.device_record rest (S p)) as [rs|] eqn:Hrs;
      [|discriminate H].
    injection H as <-. destruct (IH (S p) rs Hrs) as [Hlen Hidx].
    split; [cbn [List.length]; rewrite Hlen; reflexivity|].
    intros k r Hk. destruct k as [|k].
    + injection Hk as <-. rewrite Nat.add_0_r.
      exact (legacy_record_index gpu p r0 Hr).
    + rewrite <- Nat.add_succ_comm. exact (Hidx k r Hk).
Qed.

(** In the first revision the index of a record is its position in the
    device sequence, not a field of the tool's answer: the records come one
    for each device, and the k-th has index k, a finite Number that is a
    valid array index. *)
Theorem legacy_index_is_position
  (data : JSValue) (records : list GpuStats) :
  Legacy.device_stats data = Ok records ->
  exists gpus,
    Legacy.device_list data = Ok gpus
    /\ List.length records = List.length gpus
    /\ forall k r,
         nth_error records k = Some r ->
         index r = of_nat k
         /\ ((Z.of_nat k < 2 ^ 32 - 1)%Z ->
             to_index (index r) = Some (N.of_nat k)
             /\ isFinite (index r) = true).
Proof.
  unfold Legacy.device_stats. intro H.
  destruct (Legacy.device_list data) as [gpus|] eqn:Hl; [|discriminate H].
  cbn [bind] in H.
  destruct (map_indexed Legacy.device_record gpus 0) as [rs|] eqn:Hmap;
    [|discriminate H].
  cbn [bind] in H. rewrite AmdFacts.filter_keeps_all in H. injection H as <-.
  destruct (legacy_map_indexed gpus 0 rs Hmap) as [Hlen Hidx].
  exists gpus. split; [reflexivity|]. split; [exact Hlen|].
  intros k r Hk. pose proof (Hidx k r Hk) as Hi. cbn [Nat.add] in Hi.
  split; [exact Hi|]. intro Hbound. rewrite Hi.
  split; [apply NumberFacts.to_index_of_nat | apply NumberFacts.isFinite_of_nat];
    exact Hbound.
Qed.

Lemma legacy_index_is_position_witness :
  exists gpus,
    Legacy.device_list (VArr [VObj []; VObj []]) = Ok gpus
    /\ List.length [legacy_blank 0; legacy_blank 1] = List.length gpus
    /\ forall k r,
         nth_error [legacy_blank 0; legacy_blank 1] k = Some r ->
         index r = of_nat k
         /\ ((Z.of_nat k < 2 ^ 32 - 1)%Z ->
             to_index (index r) = Some (N.of_nat k)
             /\ isFinite (index r) = true).
Proof.
  apply (legacy_index_is_position
           (VArr [VObj []; VObj []]) [legacy_blank 0; legacy_blank 1]).
  vm_compute. reflexivity.
Defined.

(** What the first revision makes of an answer that is an object: no
    device when the object has no [gpu_devices] key or a falsy one (the
    answer of [rocm-smi --json], keyed by card, is such an object); the
    devices of the key when it holds an array; and the TypeError of calling
    [map] on anything else. *)
Theorem legacy_object_shapes (properties : list (string * JSValue)) :
  (JS.truthy (JS.lookup "gpu_devices" properties) = false ->
   Legacy.device_stats (VObj properties) = Ok [])
  /\ (forall devices,
        JS.lookup "gpu_devices" properties = VArr devices ->
        Legacy.device_stats (VObj properties)
        = Legacy.device_stats (VArr devices))
  /\ (JS.truthy (JS.lookup "gpu_devices" properties) = true ->
      JS.isArray (JS.lookup "gpu_devices" properties) = false ->
      Legacy.device_stats (VObj properties)
      = Throw (TypeError "gpus.map is not a function")).
Proof.
  unfold Legacy.device_stats, Legacy.device_list.
  cbn [JS.isArray JS.get bind elements_of].
  split; [|split].
  - intro H. unfold JS.or. rewrite H. reflexivity.
  - intros devices H. rewrite H. reflexivity.
  - intros Ht Ha. unfold JS.or. rewrite Ht.
    destruct (JS.lookup "gpu_devices" properties);
      try reflexivity; discriminate Ha.
Qed.

(** The answer of [rocm-smi --json] is keyed by card. *)
Example legacy_card_map :
  Legacy.device_stats
    (VObj [("card0", VObj [("Card series", VStr "Instinct MI210")])])
  = Ok [].
Proof. reflexivity. Qed.

End LegacyFacts.
